(** * The meta processor of aws-syndicate: merge and name resolution

    A shallow embedding of [syndicate/core/build/meta_processor.py].

    The module walks a project tree, collects the resource descriptions
    found in the lambda configuration files and in the shared deployment
    resource files into one dictionary ([create_resource_json]), and later
    renames resources and rewrites the references to them ([resolve_meta]).

    Python objects are JSON values; a [dict] is an association list in
    insertion order, read by first match.  The dictionary under
    construction, [resources_meta], is the one object the code shares and
    mutates across calls: it is threaded as explicit state.  Every other
    object comes fresh from [json.load], so in-place updates of an entry are
    rendered as functional updates of that entry. *)

From Stdlib Require Import String Ascii List ZArith Bool Arith Lia.
Import ListNotations.
Open Scope string_scope.
Open Scope list_scope.

(** ** JSON values as Python sees them *)

#[local] Set Warnings "-register-all".

(** Numbers are the integers of JSON; floating point literals are not
    represented. *)
Inductive value : Type :=
| VNone
| VBool (b : bool)
| VNum (n : Z)
| VStr (s : string)
| VList (l : list value)
| VDict (d : list (string * value)).

Definition dict : Type := list (string * value).

(** Python truthiness: [if x:]. *)
Definition truthy (v : value) : bool :=
  match v with
  | VNone => false
  | VBool b => b
  | VNum n => negb (n =? 0)%Z
  | VStr s => negb (s =? "")
  | VList l => match l with [] => false | _ => true end
  | VDict d => match d with [] => false | _ => true end
  end.

(** ** Dictionaries *)

Section Assoc.
Context {A : Type}.

(** [k in d] followed by [d[k]]: the first binding of [k]. *)
Fixpoint dict_lookup (k : string) (d : list (string * A)) : option A :=
  match d with
  | [] => None
  | (k', v) :: d' => if k =? k' then Some v else dict_lookup k d'
  end.

Definition dict_in (k : string) (d : list (string * A)) : bool :=
  match dict_lookup k d with Some _ => true | None => false end.

Definition dict_keys (d : list (string * A)) : list string := map fst d.

(** [d[k] = v]: an existing key keeps its position, a new key goes last. *)
Fixpoint dict_set (k : string) (v : A) (d : list (string * A))
  : list (string * A) :=
  match d with
  | [] => [(k, v)]
  | (k', v') :: d' =>
      if k =? k' then (k, v) :: d' else (k', v') :: dict_set k v d'
  end.

(** [del d[k]]. *)
Fixpoint dict_remove (k : string) (d : list (string * A))
  : list (string * A) :=
  match d with
  | [] => []
  | (k', v') :: d' =>
      if k =? k' then d' else (k', v') :: dict_remove k d'
  end.

(** [d1.update(d2)]. *)
Definition dict_update (d1 d2 : list (string * A)) : list (string * A) :=
  fold_left (fun d kv => dict_set (fst kv) (snd kv) d) d2 d1.
End Assoc.

(** [d.get(k)] and [d.get(k, default)]. *)
Definition dict_get_default (k : string) (default : value) (d : dict) : value :=
  match dict_lookup k d with Some v => v | None => default end.

Definition dict_get (k : string) (d : dict) : value :=
  dict_get_default k VNone d.

(** ** Equality, [==]

    Lists compare element by element, dictionaries as finite maps whatever
    the order of their keys, and [True == 1], [False == 0]. *)
Fixpoint py_eq (a b : value) {struct a} : bool :=
  match a, b with
  | VNone, VNone => true
  | VBool x, VBool y => Bool.eqb x y
  | VBool x, VNum n => (n =? (if x then 1 else 0))%Z
  | VNum n, VBool x => (n =? (if x then 1 else 0))%Z
  | VNum x, VNum y => (x =? y)%Z
  | VStr x, VStr y => x =? y
  | VList xs, VList ys =>
      (fix go (xs ys : list value) {struct xs} : bool :=
         match xs, ys with
         | [], [] => true
         | x :: xs', y :: ys' => py_eq x y && go xs' ys'
         | _, _ => false
         end) xs ys
  | VDict d1, VDict d2 =>
      (length d1 =? length d2)%nat &&
      (fix go (d : list (string * value)) {struct d} : bool :=
         match d with
         | [] => true
         | (k, v) :: d' =>
             match dict_lookup k d2 with
             | Some v' => py_eq v v'
             | None => false
             end && go d'
         end) d1
  | _, _ => false
  end.

(** Values that can be the key of a dictionary or the member of a set. *)
Definition hashable (v : value) : bool :=
  match v with
  | VList _ | VDict _ => false
  | _ => true
  end.

(** ** Strings *)

(** [old in s]. *)
Fixpoint str_contains (old s : string) : bool :=
  prefix old s ||
  match s with
  | EmptyString => false
  | String _ s' => str_contains old s'
  end.

(** [s.startswith(p)] and [s.endswith(p)]. *)
Definition startswith (s p : string) : bool := prefix p s.

Fixpoint endswith (s p : string) : bool :=
  (s =? p) ||
  match s with
  | EmptyString => false
  | String _ s' => endswith s' p
  end.

(** [s.replace(old, new)] for a non-empty [old]: occurrences are taken
    from the left and do not overlap; [skip] counts the characters of an
    occurrence still to be dropped. *)
Fixpoint str_replace_from (old new : string) (skip : nat) (s : string)
  : string :=
  match s with
  | EmptyString => EmptyString
  | String c s' =>
      match skip with
      | S k => str_replace_from old new k s'
      | O =>
          if prefix old s
          then new ++ str_replace_from old new (String.length old - 1) s'
          else String c (str_replace_from old new 0 s')
      end
  end.

(** [s.replace("", new)] puts [new] before every character and at the end. *)
Fixpoint str_intersperse (new s : string) : string :=
  match s with
  | EmptyString => new
  | String c s' => new ++ String c (str_intersperse new s')
  end.

Definition str_replace (old new s : string) : string :=
  match old with
  | EmptyString => str_intersperse new s
  | _ => str_replace_from old new 0 s
  end.

(** [s.lower()] on ASCII letters. *)
Definition lower_ascii (c : ascii) : ascii :=
  let n := nat_of_ascii c in
  if ((65 <=? n) && (n <=? 90))%nat then ascii_of_nat (n + 32) else c.

Fixpoint lower (s : string) : string :=
  match s with
  | EmptyString => EmptyString
  | String c s' => String (lower_ascii c) (lower s')
  end.

(** ** Exceptions

    The assertion failures of the module, one constructor per message, and
    the built-in errors raised by ill-typed accesses. *)
Inductive exn : Type :=
(** "API '{0}' has duplicated resource '{1}'!" *)
| DuplicateSubResource (api sub : string)
(** "API '{0}' has duplicated cluster cache configurations." *)
| DuplicateCacheConfig (api : string)
(** "Warn. Two equals resources descriptions were found!" *)
| DuplicateResource (name : string)
(** "Error! Two resources with equal names were found!" *)
| ConflictingResource (name : string) (first second : value)
(** "<config> config must contain <fields>. Existing configuration: ..." *)
| MissingField (config : string) (fields : list string) (meta : dict)
(** "There is not 'resource_type' in {0}" *)
| MissingResourceType (name : string)
(** "You specified new resource type in configuration file ..." *)
| UnrecognizedResourceType (resource_type : value)
(** "One of resource dependencies wasn't described: {0}." *)
| UnresolvedDependency (dependency_name : value)
| KeyError (key : string)
| TypeError
| AttributeError.

Inductive result (A : Type) : Type :=
| Ok (a : A)
| Raise (e : exn).
Arguments Ok {A} a.
Arguments Raise {A} e.

Definition bind {A B : Type} (c : result A) (f : A -> result B) : result B :=
  match c with
  | Ok a => f a
  | Raise e => Raise e
  end.

Declare Scope py_scope.
Delimit Scope py_scope with py.
Notation "x <- c1 ;; c2" := (bind c1 (fun x => c2))
  (at level 61, c1 at next level, right associativity) : py_scope.
Notation "c1 ;;; c2" := (bind c1 (fun _ => c2))
  (at level 61, right associativity) : py_scope.
Open Scope py_scope.

(** [for x in l: body(x)] where the body only raises or passes. *)
Fixpoint for_each {A : Type} (body : A -> result unit) (l : list A)
  : result unit :=
  match l with
  | [] => Ok tt
  | x :: l' => body x ;;; for_each body l'
  end.

(** [for x in l: acc = body(acc, x)]. *)
Fixpoint for_fold {A S : Type} (body : S -> A -> result S) (l : list A)
  (acc : S) : result S :=
  match l with
  | [] => Ok acc
  | x :: l' => acc' <- body acc x ;; for_fold body l' acc'
  end.

(** [d[k]] on a dictionary. *)
Definition subscript (d : dict) (k : string) : result value :=
  match dict_lookup k d with
  | Some v => Ok v
  | None => Raise (KeyError k)
  end.

(** [v[k]] with a string [k] on any value: only a dictionary accepts it. *)
Definition subscript_value (v : value) (k : string) : result value :=
  match v with
  | VDict d => subscript d k
  | _ => Raise TypeError
  end.

(** [v.get(k)] on any value. *)
Definition value_get (v : value) (k : string) : result value :=
  match v with
  | VDict d => Ok (dict_get k d)
  | _ => Raise AttributeError
  end.

Definition value_get_default (v : value) (k : string) (default : value)
  : result value :=
  match v with
  | VDict d => Ok (dict_get_default k default d)
  | _ => Raise AttributeError
  end.

(** [v.keys()]. *)
Definition keys_of (v : value) : result (list string) :=
  match v with
  | VDict d => Ok (dict_keys d)
  | _ => Raise AttributeError
  end.

(** The elements a [for] loop sees: those of a list, the keys of a
    dictionary, the characters of a string. *)
Fixpoint chars (s : string) : list value :=
  match s with
  | EmptyString => []
  | String c s' => VStr (String c EmptyString) :: chars s'
  end.

Definition py_iter (v : value) : result (list value) :=
  match v with
  | VList l => Ok l
  | VDict d => Ok (map VStr (dict_keys d))
  | VStr s => Ok (chars s)
  | _ => Raise TypeError
  end.

(** [a + b]. *)
Definition num_of (v : value) : option Z :=
  match v with
  | VNum n => Some n
  | VBool b => Some (if b then 1 else 0)%Z
  | _ => None
  end.

Definition py_add (a b : value) : result value :=
  match a, b with
  | VList x, VList y => Ok (VList (x ++ y))
  | VStr x, VStr y => Ok (VStr (x ++ y))
  | _, _ =>
      match num_of a, num_of b with
      | Some x, Some y => Ok (VNum (x + y))
      | _, _ => Raise TypeError
      end
  end.

(** [x in keys] for a value [x] and string keys. *)
Definition value_in_keys (x : value) (keys : list string) : bool :=
  match x with
  | VStr s => existsb (String.eqb s) keys
  | _ => false
  end.

(** ** State: the dictionary under construction

    [_look_for_configs] receives [resources_meta] and updates it in place;
    an exception leaves it as it was when the exception was raised.  A
    computation therefore returns the dictionary together with its
    outcome. *)
Definition M (A : Type) : Type := dict -> dict * result A.

Definition retM {A : Type} (a : A) : M A := fun s => (s, Ok a).

Definition bindM {A B : Type} (c : M A) (f : A -> M B) : M B :=
  fun s =>
    match c s with
    | (s', Ok a) => f a s'
    | (s', Raise e) => (s', Raise e)
    end.

(** A computation that does not touch the dictionary. *)
Definition liftM {A : Type} (c : result A) : M A := fun s => (s, c).

(** Reading the dictionary, and [resources_meta[name] = item]. *)
Definition read_meta : M dict := fun s => (s, Ok s).

Definition set_item (name : string) (item : value) : M unit :=
  fun s => (dict_set name item s, Ok tt).

Notation "x <~ c1 ;; c2" := (bindM c1 (fun x => c2))
  (at level 61, c1 at next level, right associativity) : py_scope.

(** [for x in l: body(x)] over the shared dictionary. *)
Fixpoint for_eachM {A : Type} (body : A -> M unit) (l : list A) : M unit :=
  match l with
  | [] => retM tt
  | x :: l' => _ <~ body x ;; for_eachM body l'
  end.

(** [if c: body]. *)
Definition whenM (c : bool) (body : M unit) : M unit :=
  if c then body else retM tt.

(** ** What the module imports

    The constants of [syndicate.core.constants], the configuration object
    and the helpers defined in other modules. *)
Record config : Type := {
  resources_prefix : option string;
  resources_suffix : option string;
  aliases : list (string * value)
}.

Class Collaborators : Type := {
  API_GATEWAY_TYPE : string;
  LAMBDA_TYPE : string;
  EBS_TYPE : string;
  S3_PATH_NAME : string;
  LAMBDA_CONFIG_FILE_NAME : string;
  RESOURCES_FILE_NAME : string;
  RESOURCE_LIST : list string;
  (** [syndicate.core.conf.config_holder.GLOBAL_AWS_SERVICES], a set: its
      elements *)
  GLOBAL_AWS_SERVICES : list string;
  CONFIG : config;
  (** [syndicate.core.build.helper.build_py_package_name] *)
  build_py_package_name : value -> value -> string;
  (** [syndicate.core.helper.resolve_aliases_for_string] *)
  resolve_aliases_for_string : string -> string;
  (** [syndicate.core.resources.helper.resolve_dynamic_identifier] *)
  resolve_dynamic_identifier : string -> value -> dict -> dict
}.

(** Modelled from the spec: [syndicate.core.helper.build_path], which is not
    part of this module.  The derived value is
    [{bundle_name}/{deployment_package}]: the parts joined by a slash, and
    only strings can be joined. *)
Definition build_path (bundle_name : string) (part : value) : result string :=
  match part with
  | VStr s => Ok (bundle_name ++ "/" ++ s)%string
  | _ => Raise TypeError
  end.

(** A file found by the walk: its name and its parsed content. *)
Definition file : Type := (string * value)%type.

(** ** A sample project

    Sample values for the constants, a configuration with the prefix
    [dev-], and a few descriptors, used to run the definitions. *)

Definition text (v : value) : string :=
  match v with
  | VStr s => s
  | _ => ""
  end.

Definition sample_collaborators : Collaborators := {|
  API_GATEWAY_TYPE := "api_gateway";
  LAMBDA_TYPE := "lambda";
  EBS_TYPE := "beanstalk_app";
  S3_PATH_NAME := "s3_path";
  LAMBDA_CONFIG_FILE_NAME := "lambda_config.json";
  RESOURCES_FILE_NAME := "deployment_resources.json";
  RESOURCE_LIST :=
    ["api_gateway"; "lambda"; "beanstalk_app"; "sqs_queue"; "iam_role"];
  GLOBAL_AWS_SERVICES := ["iam_role"; "sqs_queue"];
  CONFIG := {| resources_prefix := Some "dev-";
               resources_suffix := None;
               aliases := [] |};
  build_py_package_name :=
    fun name version => (text name ++ "-" ++ text version ++ ".zip")%string;
  resolve_aliases_for_string := fun s => s;
  resolve_dynamic_identifier := fun _ _ meta => meta
|}.

Definition depends_on (name : string) : value :=
  VDict [("resource_name", VStr name)].

(** Two descriptions of the API [shop], found in two files. *)
Definition shop_orders : dict :=
  [("resource_type", VStr "api_gateway");
   ("resources", VDict [("/orders", VDict [("method", VStr "GET")])]);
   ("dependencies", VList [depends_on "orders"; depends_on "auth"]);
   ("deploy_stage", VStr "prod");
   ("cluster_cache_configuration", VDict [("cache_size", VStr "0.5")]);
   ("apply_changes", VList [VStr "first"])].

Definition shop_users : dict :=
  [("resource_type", VStr "api_gateway");
   ("resources", VDict [("/users", VDict [("method", VStr "POST")])]);
   ("dependencies", VList [depends_on "auth"; depends_on "users"]);
   ("deploy_stage", VStr "dev");
   ("apply_changes", VList [VStr "second"])].

(** The same API, described without dependencies. *)
Definition shop_orders_bare : dict :=
  [("resource_type", VStr "api_gateway");
   ("resources", VDict [("/orders", VDict [])])].

Definition shop_users_bare : dict :=
  [("resource_type", VStr "api_gateway");
   ("resources", VDict [("/users", VDict [])])].

(** Two descriptions that share a sub-resource and both configure the
    cache. *)
Definition shop_cached_a : dict :=
  [("resource_type", VStr "api_gateway");
   ("resources", VDict [("/orders", VDict [])]);
   ("dependencies", VList []);
   ("cluster_cache_configuration", VDict [("cache_size", VStr "0.5")])].

Definition shop_cached_b : dict :=
  [("resource_type", VStr "api_gateway");
   ("resources", VDict [("/orders", VDict [])]);
   ("dependencies", VList []);
   ("cluster_cache_configuration", VDict [("cache_size", VStr "1.6")])].

(** The lambda of the specification, and a queue. *)
Definition svc_lambda : dict :=
  [("name", VStr "svc"); ("version", VStr "1.0");
   ("resource_type", VStr "lambda"); ("runtime", VStr "python2.7")].

Definition svc_lambda_v2 : dict :=
  [("name", VStr "svc"); ("version", VStr "2.0");
   ("resource_type", VStr "lambda"); ("runtime", VStr "python2.7")].

Definition svc_queue : dict := [("resource_type", VStr "sqs_queue")].

(** A lambda that depends on the queue [jobs], which no file describes. *)
Definition worker_lambda : dict :=
  [("name", VStr "worker"); ("version", VStr "1.0");
   ("resource_type", VStr "lambda"); ("runtime", VStr "python2.7");
   ("dependencies", VList [depends_on "jobs"])].

(** Dictionaries to rename: a queue and a lambda that refers to it. *)
Definition queue_and_reader : dict :=
  [("queueA", VDict [("resource_type", VStr "sqs_queue")]);
   ("reader",
    VDict [("resource_type", VStr "lambda");
           ("dependencies", VList [depends_on "queueA"]);
           ("queue_arn", VStr "arn:aws:sqs:eu-west-1:queueA")])].

(** The queue [q] is renamed to [dev-q], the name of another queue. *)
Definition colliding_queues : dict :=
  [("q", VDict [("resource_type", VStr "sqs_queue"); ("tag", VStr "first")]);
   ("dev-q",
    VDict [("resource_type", VStr "sqs_queue"); ("tag", VStr "second")])].

(** A reference to the queue as an element of a list. *)
Definition queue_in_list : dict :=
  [("queueA", VDict [("resource_type", VStr "sqs_queue")]);
   ("reader",
    VDict [("resource_type", VStr "lambda");
           ("event_sources", VList [VStr "arn:aws:sqs:eu-west-1:queueA"])])].

(** The queue [q], listed twice by its reader. *)
Definition queue_listed_twice : dict :=
  [("q", VDict [("resource_type", VStr "sqs_queue")]);
   ("reader",
    VDict [("resource_type", VStr "lambda");
           ("event_sources", VList [VStr "q"; VStr "q"])])].

(** Two descriptions of [shop] with their stages: the first one found has
    an empty stage. *)
Definition shop_orders_unstaged : dict :=
  [("resource_type", VStr "api_gateway");
   ("resources", VDict [("/orders", VDict [])]);
   ("dependencies", VList []);
   ("deploy_stage", VStr "")].

Definition shop_users_staged : dict :=
  [("resource_type", VStr "api_gateway");
   ("resources", VDict [("/users", VDict [])]);
   ("dependencies", VList []);
   ("deploy_stage", VStr "dev")].

(** A description of [shop] with an empty cache configuration. *)
Definition shop_users_uncached : dict :=
  [("resource_type", VStr "api_gateway");
   ("resources", VDict [("/users", VDict [])]);
   ("dependencies", VList []);
   ("cluster_cache_configuration", VDict [])].

(** A lambda with a runtime that has no rule. *)
Definition svc_lambda_node : dict :=
  [("name", VStr "svc"); ("version", VStr "1.0");
   ("resource_type", VStr "lambda"); ("runtime", VStr "nodejs8.10")].

(** The dictionary of a bundle: the lambda with its storage location, and
    a queue. *)
Definition svc_and_queue : dict :=
  [("svc", VDict (svc_lambda ++ [("s3_path", VStr "b1/svc-1.0.zip")]));
   ("jobs", VDict svc_queue)].

(** A deployment resources file with a resource that has no type, and one
    with a type that is not known. *)
Definition untyped_resources : dict :=
  [("jobs", VDict [("fifo", VBool true)])].

Definition unknown_resources : dict :=
  [("jobs", VDict [("resource_type", VStr "kafka_topic")])].

(** A dictionary to rename with an entry that has no type. *)
Definition queue_and_untyped : dict :=
  [("queueA", VDict [("resource_type", VStr "sqs_queue")]);
   ("svc", VDict [("name", VStr "svc")])].

(** The sample configuration without the prefix. *)
Definition unaffixed_collaborators : Collaborators := {|
  API_GATEWAY_TYPE := "api_gateway";
  LAMBDA_TYPE := "lambda";
  EBS_TYPE := "beanstalk_app";
  S3_PATH_NAME := "s3_path";
  LAMBDA_CONFIG_FILE_NAME := "lambda_config.json";
  RESOURCES_FILE_NAME := "deployment_resources.json";
  RESOURCE_LIST :=
    ["api_gateway"; "lambda"; "beanstalk_app"; "sqs_queue"; "iam_role"];
  GLOBAL_AWS_SERVICES := ["iam_role"; "sqs_queue"];
  CONFIG := {| resources_prefix := Some "";
               resources_suffix := None;
               aliases := [] |};
  build_py_package_name :=
    fun name version => (text name ++ "-" ++ text version ++ ".zip")%string;
  resolve_aliases_for_string := fun s => s;
  resolve_dynamic_identifier := fun _ _ meta => meta
|}.

(** An entry whose resource type is a list. *)
Definition list_typed_role : dict :=
  [("r", VDict [("resource_type", VList [VStr "iam_role"])])].

Section MetaProcessor.
Context `{Collaborators}.

(** ** Collisions: [_check_duplicated_resources]

    [Ok None] is Python's [None]; [Ok (Some item)] is [additional_item]
    as the function leaves it after updating it in place. *)

(** [a.update(b)]. *)
Definition py_update (a b : value) : result value :=
  match a, b with
  | VDict x, VDict y => Ok (VDict (dict_update x y))
  | VDict _, _ => Raise TypeError
  | _, _ => Raise AttributeError
  end.

(** [l.append(x)]. *)
Definition py_append (l x : value) : result value :=
  match l with
  | VList xs => Ok (VList (xs ++ [x]))
  | _ => Raise AttributeError
  end.

(** [each['resource_name']], used as a dictionary key. *)
Definition dependency_key (each : value) : result value :=
  n <- subscript_value each "resource_name" ;;
  if hashable n then Ok n else Raise TypeError.

(** The body of the loop over the sub-resources of the existing entry. *)
Definition check_sub_resource (additional_item_name : string)
  (additional_item : dict) (each : string) : result unit :=
  add_res <- subscript additional_item "resources" ;;
  add_keys <- keys_of add_res ;;
  if existsb (String.eqb each) add_keys
  then Raise (DuplicateSubResource additional_item_name each)
  else Ok tt.

(** The keys of [dependencies_dict], in the order of the list. *)
Definition dependency_keys (add_deps : list value) : result (list value) :=
  for_fold (fun keys each => n <- dependency_key each ;; Ok (keys ++ [n]))
    add_deps [].

(** The body of the loop over the dependencies of the existing entry. *)
Definition join_dependency (dependencies_dict : list value)
  (additional_item : dict) (each : value) : result dict :=
  n <- dependency_key each ;;
  if negb (existsb (py_eq n) dependencies_dict) then
    deps <- subscript additional_item "dependencies" ;;
    deps <- py_append deps each ;;
    Ok (dict_set "dependencies" deps additional_item)
  else Ok additional_item.

Definition _check_duplicated_resources (initial_meta_dict : dict)
  (additional_item_name : string) (additional_item : dict)
  : result (option dict) :=
  if dict_in additional_item_name initial_meta_dict then
    additional_type <- subscript additional_item "resource_type" ;;
    let initial_item := dict_get additional_item_name initial_meta_dict in
    if negb (truthy initial_item) then Ok None else
    initial_type <- subscript_value initial_item "resource_type" ;;
    if py_eq additional_type initial_type
       && py_eq initial_type (VStr API_GATEWAY_TYPE) then
      (* check if APIs have same resources *)
      init_res <- subscript_value initial_item "resources" ;;
      init_keys <- keys_of init_res ;;
      for_each (check_sub_resource additional_item_name additional_item)
        init_keys ;;;
      (* check is APIs have once described cache configuration *)
      initial_cache_config <-
        value_get initial_item "cluster_cache_configuration" ;;
      let additional_cache_config :=
        dict_get "cluster_cache_configuration" additional_item in
      if truthy initial_cache_config && truthy additional_cache_config
      then Raise (DuplicateCacheConfig additional_item_name) else
      let additional_item :=
        if truthy initial_cache_config
        then dict_set "cluster_cache_configuration" initial_cache_config
               additional_item
        else additional_item in
      (* join items dependencies *)
      add_deps <- subscript additional_item "dependencies" ;;
      add_deps <- py_iter add_deps ;;
      dependencies_dict <- dependency_keys add_deps ;;
      init_deps <- subscript_value initial_item "dependencies" ;;
      init_deps <- py_iter init_deps ;;
      additional_item <-
        for_fold (join_dependency dependencies_dict) init_deps
          additional_item ;;
      (* join items resources *)
      add_res <- subscript additional_item "resources" ;;
      init_res <- subscript_value initial_item "resources" ;;
      add_res <- py_update add_res init_res ;;
      let additional_item := dict_set "resources" add_res additional_item in
      (* return aggregated API description *)
      init_deploy_stage <- value_get initial_item "deploy_stage" ;;
      let additional_item :=
        if truthy init_deploy_stage
        then dict_set "deploy_stage" init_deploy_stage additional_item
        else additional_item in
      init_apply <-
        value_get_default initial_item "apply_changes" (VList []) ;;
      let add_apply :=
        dict_get_default "apply_changes" (VList []) additional_item in
      apply <- py_add init_apply add_apply ;;
      Ok (Some (dict_set "apply_changes" apply additional_item))
    else if py_eq additional_type initial_type then
      if py_eq (VDict additional_item) initial_item
      then Raise (DuplicateResource additional_item_name)
      else Raise (ConflictingResource additional_item_name initial_item
                    (VDict additional_item))
    else Ok None
  else Ok None.

(** ** The derived storage location: [_populate_s3_path]

    Each function returns [meta] as it leaves it. *)

Definition _populate_s3_path_python (meta : dict) (bundle_name : string)
  : result dict :=
  let name := dict_get "name" meta in
  let version := dict_get "version" meta in
  if negb (truthy name) || negb (truthy version) then
    Raise (MissingField "Lambda" ["name"; "version"] meta)
  else
    path <- build_path bundle_name
              (VStr (build_py_package_name name version)) ;;
    Ok (dict_set S3_PATH_NAME (VStr path) meta).

Definition _populate_s3_path_java (meta : dict) (bundle_name : string)
  : result dict :=
  let deployment_package := dict_get "deployment_package" meta in
  if negb (truthy deployment_package) then
    Raise (MissingField "Lambda" ["deployment_package"] meta)
  else
    path <- build_path bundle_name deployment_package ;;
    Ok (dict_set S3_PATH_NAME (VStr path) meta).

Definition RUNTIME_PATH_RESOLVER
  : list (string * (dict -> string -> result dict)) :=
  dict_set "java8" _populate_s3_path_java
    (dict_set "python2.7" _populate_s3_path_python []).

Definition _populate_s3_path_lambda (meta : dict) (bundle_name : string)
  : result dict :=
  let runtime := dict_get "runtime" meta in
  if negb (truthy runtime) then
    Raise (MissingField "Lambda" ["runtime"] meta)
  else
    match runtime with
    | VStr r =>
        match dict_lookup (lower r) RUNTIME_PATH_RESOLVER with
        | Some resolver_func => resolver_func meta bundle_name
        | None => Raise (MissingField "Lambda" ["runtime"] meta)
        end
    | _ => Raise AttributeError
    end.

Definition _populate_s3_path_ebs (meta : dict) (bundle_name : string)
  : result dict :=
  let deployment_package := dict_get "deployment_package" meta in
  if negb (truthy deployment_package) then
    Raise (MissingField "Beanstalk_app" ["deployment_package"] meta)
  else
    path <- build_path bundle_name deployment_package ;;
    Ok (dict_set S3_PATH_NAME (VStr path) meta).

Definition S3_PATH_MAPPING
  : list (string * (dict -> string -> result dict)) :=
  dict_set EBS_TYPE _populate_s3_path_ebs
    (dict_set LAMBDA_TYPE _populate_s3_path_lambda []).

Definition _populate_s3_path (meta : dict) (bundle_name : string)
  : result dict :=
  let resource_type := dict_get "resource_type" meta in
  if negb (hashable resource_type) then Raise TypeError else
  match resource_type with
  | VStr t =>
      match dict_lookup t S3_PATH_MAPPING with
      | Some mapping_func => mapping_func meta bundle_name
      | None => Ok meta
      end
  | _ => Ok meta
  end.

(** ** Discovery: [_look_for_configs] and [create_resource_json]

    A resource is named by a string; a descriptor whose name is anything
    else is outside the model and is reported as a [TypeError]. *)
Definition as_name (v : value) : result string :=
  match v with
  | VStr s => Ok s
  | _ => Raise TypeError
  end.

Definition as_dict (v : value) : result dict :=
  match v with
  | VDict d => Ok d
  | _ => Raise TypeError
  end.

(** The entry the caller stores after [if res: resource = res].  A result
    other than [None] is the incoming item itself, as the merge has
    updated it, so both branches of the test store that object. *)
Definition merged_or (res : option dict) (item : dict) : dict :=
  match res with
  | Some r => r
  | None => item
  end.

(** The body of the first [if] of [_look_for_configs]: one lambda
    configuration file. *)
Definition process_lambda_config (lambda_conf : value)
  (bundle_name : string) : M unit :=
  lambda_name <~ liftM (subscript_value lambda_conf "name") ;;
  lambda_conf <~ liftM (as_dict lambda_conf) ;;
  lambda_conf <~ liftM (_populate_s3_path lambda_conf bundle_name) ;;
  lambda_name <~ liftM (as_name lambda_name) ;;
  resources_meta <~ read_meta ;;
  res <~ liftM (_check_duplicated_resources resources_meta lambda_name
                  lambda_conf) ;;
  set_item lambda_name (VDict (merged_or res lambda_conf)).

(** The body of the loop over the names of a deployment resources file:
    one resource. *)
Definition process_resource (deployment_resources : value)
  (bundle_name : string) (resource_name : value) : M unit :=
  resource_name <~ liftM (as_name resource_name) ;;
  resource <~ liftM (subscript_value deployment_resources resource_name) ;;
  resource <~ liftM (as_dict resource) ;;
  resource_type <~ liftM
    (match dict_lookup "resource_type" resource with
     | Some t => Ok t
     | None => Raise (MissingResourceType resource_name)
     end) ;;
  _ <~ liftM
    (if negb (value_in_keys resource_type RESOURCE_LIST)
     then Raise (UnrecognizedResourceType resource_type)
     else Ok tt) ;;
  resource <~ liftM (_populate_s3_path resource bundle_name) ;;
  resources_meta <~ read_meta ;;
  res <~ liftM (_check_duplicated_resources resources_meta resource_name
                  resource) ;;
  set_item resource_name (VDict (merged_or res resource)).

Definition _look_for_configs (nested_files : list file)
  (bundle_name : string) : M unit :=
  for_eachM (fun each : file =>
    let (each_name, content) := each in
    _ <~ whenM (endswith each_name LAMBDA_CONFIG_FILE_NAME)
           (process_lambda_config content bundle_name) ;;
    whenM (each_name =? RESOURCES_FILE_NAME) (
      let deployment_resources := content in
      names <~ liftM (py_iter deployment_resources) ;;
      for_eachM (process_resource deployment_resources bundle_name) names))
    nested_files.

(** The closure check at the end of [create_resource_json]. *)
Definition check_dependencies (resources_meta : dict) : result unit :=
  for_each (fun resource_name =>
    meta <- subscript resources_meta resource_name ;;
    dependencies <- value_get meta "dependencies" ;;
    if truthy dependencies then
      dependencies <- subscript_value meta "dependencies" ;;
      dependencies <- py_iter dependencies ;;
      for_each (fun dependency =>
        dependency_name <- value_get dependency "resource_name" ;;
        if negb (value_in_keys dependency_name (dict_keys resources_meta))
        then Raise (UnresolvedDependency dependency_name)
        else Ok tt) dependencies
    else Ok tt) (dict_keys resources_meta).

(** [walk] lists the directories of the project with their files, in the
    order of [os.walk]. *)
Definition walk_project (walk : list (list file)) (bundle_name : string)
  : M unit :=
  for_eachM (fun nested_items => _look_for_configs nested_items bundle_name)
    walk.

Definition create_resource_json (walk : list (list file))
  (bundle_name : string) : result dict :=
  match walk_project walk bundle_name [] with
  | (resources_meta, Ok _) =>
      check_dependencies resources_meta ;;;
      Ok resources_meta
  | (_, Raise e) => Raise e
  end.

(** ** Rewriting names: [_resolve_names_in_meta]

    The function updates its argument in place and recurses into nested
    dictionaries and lists; [fuel] bounds the depth of that recursion and
    [rec] is the recursive call. *)

(** The body of the loop over the items of a dictionary, for one value. *)
Definition resolve_item (rec : value -> value) (old_value new_value : string)
  (v : value) : value :=
  match v with
  | VStr s =>
      if old_value =? s then VStr (str_replace old_value new_value s)
      else if str_contains old_value s && startswith s "arn"
           then VStr (str_replace old_value new_value s)
           else rec v
  | _ => rec v
  end.

(** [l[i] = x]. *)
Fixpoint list_set (i : nat) (x : value) (l : list value) : list value :=
  match l, i with
  | [], _ => []
  | _ :: l', O => x :: l'
  | y :: l', S i' => y :: list_set i' x l'
  end.

(** [del l[l.index(x)]]. *)
Fixpoint remove_first (x : value) (l : list value) : list value :=
  match l with
  | [] => []
  | y :: l' => if py_eq y x then l' else y :: remove_first x l'
  end.

(** The loop over a list that is updated while it is iterated: the
    iterator is the position [i], and stops when [i] is past the end.
    Removing one element and appending one keeps the length, so the loop
    makes at most [steps = len(l)] iterations. *)
Fixpoint list_loop (rec : value -> value) (old_value new_value : string)
  (steps i : nat) (l : list value) : list value :=
  match steps with
  | O => l
  | S steps' =>
      match nth_error l i with
      | None => l
      | Some item =>
          let l' :=
            match item with
            | VDict _ => list_set i (rec item) l
            | VStr s =>
                if s =? old_value
                then remove_first (VStr old_value) l ++ [VStr new_value]
                else l
            | _ => l
            end in
          list_loop rec old_value new_value steps' (S i) l'
      end
  end.

Fixpoint resolve_names (fuel : nat) (old_value new_value : string)
  (resources_dict : value) : value :=
  match fuel with
  | O => resources_dict
  | S fuel' =>
      let rec := resolve_names fuel' old_value new_value in
      match resources_dict with
      | VDict d =>
          VDict (map (fun kv => (fst kv,
                                 resolve_item rec old_value new_value
                                   (snd kv))) d)
      | VList l =>
          VList (list_loop rec old_value new_value (length l) 0 l)
      | _ => resources_dict
      end
  end.

(** The nesting depth of a value: the fuel its traversal needs. *)
Fixpoint depth (v : value) : nat :=
  match v with
  | VList l =>
      S ((fix go (l : list value) : nat :=
            match l with
            | [] => 0
            | x :: l' => Nat.max (depth x) (go l')
            end) l)
  | VDict d =>
      S ((fix go (d : list (string * value)) : nat :=
            match d with
            | [] => 0
            | (_, x) :: d' => Nat.max (depth x) (go d')
            end) d)
  | _ => 0
  end.

Definition _resolve_names_in_meta (resources_dict : value)
  (old_value new_value : string) : value :=
  resolve_names (depth resources_dict) old_value new_value resources_dict.

(** ** Renaming: [resolve_resource_name] and [resolve_meta] *)

(** [if s:] for a setting that is [None] or a string. *)
Definition configured (s : option string) : option string :=
  match s with
  | Some x => if x =? "" then None else Some x
  | None => None
  end.

Definition _resolve_prefix_name (resource_name : string)
  (resource_prefix : option string) : string :=
  match configured resource_prefix with
  | Some p => (resolve_aliases_for_string p ++ resource_name)%string
  | None => resource_name
  end.

Definition _resolve_suffix_name (resource_name : string)
  (resource_suffix : option string) : string :=
  match configured resource_suffix with
  | Some s => (resource_name ++ resolve_aliases_for_string s)%string
  | None => resource_name
  end.

Definition resolve_resource_name (resource_name : string) : string :=
  _resolve_suffix_name
    (_resolve_prefix_name resource_name (resources_prefix CONFIG))
    (resources_suffix CONFIG).

(** The first loop of [resolve_meta]: the alias pass. *)
Definition resolve_aliases (overall_meta : dict) : dict :=
  fold_left (fun meta kv =>
               resolve_dynamic_identifier ("${" ++ fst kv ++ "}")%string
                 (snd kv) meta)
    (aliases CONFIG) overall_meta.

(** The second loop: old name to new name, for the names that change.
    [GLOBAL_AWS_SERVICES] is a set, and the membership test hashes the
    resource type. *)
Definition collect_resolved_names (overall_meta : dict)
  : result (list (string * string)) :=
  for_fold (fun resolved_names kv =>
              let (name, res_meta) := kv : string * value in
              resource_type <- subscript_value res_meta "resource_type" ;;
              if negb (hashable resource_type) then Raise TypeError else
              if value_in_keys resource_type GLOBAL_AWS_SERVICES then
                let resolved_name := resolve_resource_name name in
                if negb (name =? resolved_name)
                then Ok (dict_set name resolved_name resolved_names)
                else Ok resolved_names
              else Ok resolved_names)
    overall_meta [].

(** The dictionary a rewriting pass leaves. *)
Definition dict_of (v : value) : dict :=
  match v with
  | VDict d => d
  | _ => []
  end.

(** The body of the third loop: move the entry, then rewrite the name. *)
Definition rename_resource (overall_meta : dict)
  (current_name resolved_name : string) : result dict :=
  popped <- subscript overall_meta current_name ;;
  let overall_meta :=
    dict_set resolved_name popped (dict_remove current_name overall_meta) in
  Ok (dict_of (_resolve_names_in_meta (VDict overall_meta)
                 current_name resolved_name)).

Definition resolve_meta (overall_meta : dict) : result dict :=
  let overall_meta := resolve_aliases overall_meta in
  resolved_names <- collect_resolved_names overall_meta ;;
  for_fold (fun meta kv => rename_resource meta (fst kv) (snd kv))
    resolved_names overall_meta.

(** ** Vocabulary of the statements *)

(** An entry of the composite type, the one [_check_duplicated_resources]
    merges. *)
Definition is_composite (item : dict) : Prop :=
  dict_lookup "resource_type" item = Some (VStr API_GATEWAY_TYPE).

(** An element of a [dependencies] list: a dictionary that names a
    resource. *)
Definition named_dependency (each : value) : Prop :=
  exists d n,
    each = VDict d /\ dict_lookup "resource_name" d = Some n
    /\ hashable n = true.

(** [dependency.get('resource_name')]. *)
Definition dependency_name (each : value) : value :=
  match each with
  | VDict d => dict_get "resource_name" d
  | _ => VNone
  end.

(** The dependencies of the existing entry that the incoming entry does
    not name. *)
Definition absent_from (add_deps : list value) (each : value) : bool :=
  negb (existsb (py_eq (dependency_name each))
          (map dependency_name add_deps)).

(** Two dictionaries with the same attributes: the same keys, bound to
    values that [==] holds equal. *)
Definition same_attributes (a b : dict) : Prop :=
  forall k,
    match dict_lookup k a, dict_lookup k b with
    | Some x, Some y => py_eq x y = true
    | None, None => True
    | _, _ => False
    end.

(** The errors that reject a collision. *)
Definition collision_error (e : exn) : Prop :=
  match e with
  | DuplicateSubResource _ _ | DuplicateCacheConfig _
  | DuplicateResource _ | ConflictingResource _ _ _ => True
  | _ => False
  end.

(** The attributes the merge of two composite entries writes. *)
Definition merged_attribute (k : string) : Prop :=
  k = "resources" \/ k = "dependencies"
  \/ k = "cluster_cache_configuration" \/ k = "deploy_stage"
  \/ k = "apply_changes".


(** The comparison of two dictionaries by [==], attribute by attribute. *)
Fixpoint attrs_match (d d2 : dict) : bool :=
  match d with
  | [] => true
  | (k, v) :: d' =>
      match dict_lookup k d2 with
      | Some v' => py_eq v v'
      | None => false
      end && attrs_match d' d2
  end.

(** The first sub-resource of the existing entry that the incoming entry
    has too: the one the error message names. *)
Definition first_clash (init_keys add_keys : list string) : option string :=
  find (fun each => existsb (String.eqb each) add_keys) init_keys.

(** The closure of the dependencies: every dependency of every entry
    names a key of the dictionary. *)
Definition dependencies_closed (resources_meta : dict) : Prop :=
  forall name entry deps dependency,
    dict_lookup name resources_meta = Some (VDict entry) ->
    dict_lookup "dependencies" entry = Some (VList deps) ->
    In dependency deps ->
    exists s, dependency_name dependency = VStr s
              /\ In s (dict_keys resources_meta).

(** The data model: an entry is a dictionary, and its [dependencies],
    when it has any, are a list of dictionaries. *)
Definition is_dict (v : value) : Prop := exists d, v = VDict d.

Definition entries_well_formed (resources_meta : dict) : Prop :=
  forall name v,
    dict_lookup name resources_meta = Some v ->
    exists entry,
      v = VDict entry
      /\ forall deps,
          dict_lookup "dependencies" entry = Some deps ->
          exists l, deps = VList l /\ Forall is_dict l.

(** A dependency of some entry that names no key of the dictionary. *)
Definition missing_dependency (resources_meta : dict) (missing : value)
  : Prop :=
  exists name entry deps dependency,
    dict_lookup name resources_meta = Some (VDict entry)
    /\ dict_lookup "dependencies" entry = Some (VList deps)
    /\ In dependency deps
    /\ dependency_name dependency = missing
    /\ value_in_keys missing (dict_keys resources_meta) = false.

(** The dictionary in which a collision was found: the check of some
    incoming entry against it raises the error. *)
Definition collision_found_in (resources_meta : dict) (e : exn) : Prop :=
  exists name incoming,
    dict_in name resources_meta = true
    /\ _check_duplicated_resources resources_meta name incoming = Raise e.

(** The largest depth among the elements of a list. *)
Definition max_depth (l : list value) : nat :=
  fold_right (fun x => Nat.max (depth x)) 0 l.

(** A rewriting pass with its names fixed: the recursive call as the
    loops see it. *)
Definition resolve_with (old_value new_value : string) (v : value) : value :=
  _resolve_names_in_meta v old_value new_value.

(** The replacement rule for a string, in the words of the
    specification: a string equal to the name is replaced whole; a string
    that starts with the reference prefix and contains the name has its
    occurrences replaced; any other string is left as it is. *)
Definition rewrite_string (old_value new_value s : string) : string :=
  if s =? old_value then new_value
  else if startswith s "arn" && str_contains old_value s
       then str_replace old_value new_value s
       else s.

(** A position in a nested value: the key of a dictionary or the index
    in a list. *)
Inductive step : Type :=
| Key (k : string)
| Index (i : nat).

(** [reaches old v p w]: following [p] from [v] leads to [w], through
    dictionaries and through dictionaries that are elements of lists in
    which no element is the string [old]. *)
Inductive reaches (old_value : string) : value -> list step -> value -> Prop :=
| reaches_here (v : value) : reaches old_value v [] v
| reaches_key (d : dict) (k : string) (v : value) (p : list step)
    (w : value) :
    dict_lookup k d = Some v ->
    reaches old_value v p w ->
    reaches old_value (VDict d) (Key k :: p) w
| reaches_index (l : list value) (i : nat) (d : dict) (p : list step)
    (w : value) :
    nth_error l i = Some (VDict d) ->
    ~ In (VStr old_value) l ->
    reaches old_value (VDict d) p w ->
    reaches old_value (VList l) (Index i :: p) w.

(** What a list without the name becomes: its dictionaries are
    rewritten, in place. *)
Definition resolve_element (rec : value -> value) (x : value) : value :=
  match x with
  | VDict _ => rec x
  | _ => x
  end.

(** The resolved prefix and suffix: empty when the rule is not
    configured. *)
Definition resolved_prefix : string :=
  match configured (resources_prefix CONFIG) with
  | Some p => resolve_aliases_for_string p
  | None => ""
  end.

Definition resolved_suffix : string :=
  match configured (resources_suffix CONFIG) with
  | Some s => resolve_aliases_for_string s
  | None => ""
  end.

(** An entry whose resource type is eligible for renaming. *)
Definition eligible (res_meta : value) : bool :=
  match res_meta with
  | VDict entry =>
      value_in_keys (dict_get "resource_type" entry) GLOBAL_AWS_SERVICES
  | _ => false
  end.

(** The key an entry is expected under after the renaming pass. *)
Definition new_key (name : string) (res_meta : value) : string :=
  if eligible res_meta then resolve_resource_name name else name.

(** What the rewriting passes of the given renamings, in their order,
    make of an entry of the dictionary. *)
Definition rewritten (resolved_names : list (string * string))
  (res_meta : value) : value :=
  fold_left (fun v cr =>
               resolve_item (resolve_with (fst cr) (snd cr))
                 (fst cr) (snd cr) v)
    resolved_names res_meta.

(** The renamings of a dictionary, in its order. *)
Definition renames (overall_meta : dict) : list (string * string) :=
  flat_map (fun kv : string * value =>
              if eligible (snd kv)
                 && negb (fst kv =? resolve_resource_name (fst kv))
              then [(fst kv, resolve_resource_name (fst kv))]
              else [])
    overall_meta.

(** Every entry is a dictionary with a resource type that can be hashed:
    a string, a number, a boolean or [None]. *)
Definition entries_have_type (overall_meta : dict) : Prop :=
  forall name v,
    In (name, v) overall_meta ->
    exists entry t,
      v = VDict entry /\ dict_lookup "resource_type" entry = Some t
      /\ hashable t = true.

(** No new name is already a key of the dictionary. *)
Definition new_names_are_fresh (overall_meta : dict) : Prop :=
  forall name v,
    dict_lookup name overall_meta = Some v ->
    eligible v = true ->
    resolve_resource_name name <> name ->
    ~ In (resolve_resource_name name) (dict_keys overall_meta).

(** The key of an entry once the renamings [done] are made. *)
Definition key_after (done : list (string * string)) (name : string)
  : string :=
  match dict_lookup name done with
  | Some r => r
  | None => name
  end.

(** A renaming the second loop of [resolve_meta] records for a
    dictionary. *)
Definition renaming_of (overall_meta : dict) (c r : string) : Prop :=
  exists v,
    dict_lookup c overall_meta = Some v /\ eligible v = true
    /\ r = resolve_resource_name c /\ r <> c.

(** An element of a list that is the old name, and a list in which no two
    adjacent elements are the old name. *)
Definition is_name (old_value : string) (x : value) : bool :=
  match x with
  | VStr s => s =? old_value
  | _ => false
  end.

Fixpoint no_adjacent_names (old_value : string) (l : list value) : bool :=
  match l with
  | x :: l' =>
      match l' with
      | y :: _ => negb (is_name old_value x && is_name old_value y)
      | [] => true
      end && no_adjacent_names old_value l'
  | [] => true
  end.

Definition no_dict (x : value) : bool :=
  match x with
  | VDict _ => false
  | _ => true
  end.

(** ** Packages: [artifact_paths] and [validate_deployment_packages] *)

(** A list comprehension whose element expression may raise. *)
Fixpoint map_result {A B : Type} (f : A -> result B) (l : list A)
  : result (list B) :=
  match l with
  | [] => Ok []
  | x :: l' => y <- f x ;; ys <- map_result f l' ;; Ok (y :: ys)
  end.

(** [_retrieve_package]: the storage location when it is true, else
    [None] (the function falls off its end). *)
Definition _retrieve_package (meta : value) : result value :=
  s3_path <- value_get meta S3_PATH_NAME ;;
  Ok (if truthy s3_path then s3_path else VNone).

Definition artifact_paths (meta_resources : dict) : result (list value) :=
  packages <- map_result _retrieve_package (map snd meta_resources) ;;
  Ok (filter truthy packages).

(** The outcome of [validate_deployment_packages]: it returns, raises the
    assertion "Bundle is not properly configured" with the packages that
    do not exist, or fails on the way with a built-in error. *)
Inductive validation : Type :=
| Validated
| NotProperlyConfigured (nonexistent_packages : list string)
| Failed (e : exn).

(** [CONFIG.project_path], [ARTIFACTS_FOLDER] and [os.path.exists] are
    arguments. *)
Definition validate_deployment_packages (project_path : string)
  (ARTIFACTS_FOLDER : string) (path_exists : string -> bool)
  (meta_resources : dict) : validation :=
  match
    (package_paths <- artifact_paths meta_resources ;;
     bundles_path <- build_path project_path (VStr ARTIFACTS_FOLDER) ;;
     for_fold (fun nonexistent_packages package =>
                 package_path <- build_path bundles_path package ;;
                 if negb (path_exists package_path)
                 then Ok (nonexistent_packages ++ [package_path])
                 else Ok nonexistent_packages)
       package_paths [])
  with
  | Ok [] => Validated
  | Ok nonexistent_packages => NotProperlyConfigured nonexistent_packages
  | Raise e => Failed e
  end.

(** ** [resolve_resource_name_by_data] *)

Definition resolve_resource_name_by_data (resource_name : string)
  (resource_prefix resource_suffix : option string) : string :=
  _resolve_suffix_name (_resolve_prefix_name resource_name resource_prefix)
    resource_suffix.

(** ** Vocabulary of the further statements *)

(** The storage locations of a dictionary of entries: the non-empty
    strings under [S3_PATH_NAME], in the order of the entries. *)
Definition storage_locations (meta_resources : dict) : list string :=
  flat_map (fun kv : string * value =>
              match dict_get S3_PATH_NAME (dict_of (snd kv)) with
              | VStr p => if p =? "" then [] else [p]
              | _ => []
              end)
    meta_resources.

(** An entry whose storage location, if any, is a string. *)
Definition location_is_string (v : value) : Prop :=
  exists entry,
    v = VDict entry
    /\ (dict_lookup S3_PATH_NAME entry = None
        \/ exists p, dict_lookup S3_PATH_NAME entry = Some (VStr p)).

(** The old name occurs in some string of the value. *)
Fixpoint mentions (old_value : string) (v : value) : bool :=
  match v with
  | VStr s => str_contains old_value s
  | VList l =>
      (fix go (l : list value) : bool :=
         match l with
         | [] => false
         | x :: l' => mentions old_value x || go l'
         end) l
  | VDict d =>
      (fix go (d : list (string * value)) : bool :=
         match d with
         | [] => false
         | (_, x) :: d' => mentions old_value x || go d'
         end) d
  | _ => false
  end.

(** A dependency named by a string. *)
Definition string_named (each : value) : Prop :=
  exists d s, each = VDict d /\ dict_lookup "resource_name" d = Some (VStr s).

(** Every entry is a dictionary. *)
Definition entries_are_dicts (overall_meta : dict) : Prop :=
  forall name v, In (name, v) overall_meta -> exists entry, v = VDict entry.

(** An entry that is a dictionary and, when its resource type is the
    lambda or the Beanstalk one, has a storage location under the
    bundle. *)
Definition carries_location (bundle_name : string) (v : value) : Prop :=
  exists entry,
    v = VDict entry
    /\ forall t,
         dict_lookup "resource_type" entry = Some (VStr t) ->
         t = LAMBDA_TYPE \/ t = EBS_TYPE ->
         exists part,
           dict_lookup S3_PATH_NAME entry
           = Some (VStr (bundle_name ++ "/" ++ part)).

Definition packaged (bundle_name : string) (resources_meta : dict) : Prop :=
  forall name v,
    dict_lookup name resources_meta = Some v ->
    carries_location bundle_name v.

(** The files that [_look_for_configs] reads. *)
Definition is_config (each : file) : bool :=
  endswith (fst each) LAMBDA_CONFIG_FILE_NAME
  || (fst each =? RESOURCES_FILE_NAME).

(** What [_retrieve_package] returns for a dictionary. *)
Definition retrieved (v : value) : value :=
  let s3_path := dict_get S3_PATH_NAME (dict_of v) in
  if truthy s3_path then s3_path else VNone.

(** The path of a package below the project. *)
Definition package_path_of (project_path ARTIFACTS_FOLDER package : string)
  : string :=
  ((project_path ++ "/" ++ ARTIFACTS_FOLDER) ++ "/" ++ package)%string.

(** What a prefix or a suffix setting adds to a name: nothing when it is
    not configured. *)
Definition resolved_affix (affix : option string) : string :=
  match configured affix with
  | Some a => resolve_aliases_for_string a
  | None => ""
  end.

(** An entry that is a dictionary without a resource type. *)
Definition untyped (v : value) : Prop :=
  exists entry, v = VDict entry /\ dict_lookup "resource_type" entry = None.

(** An entry that is a dictionary whose resource type, if it has one, can
    be hashed. *)
Definition type_is_hashable (v : value) : Prop :=
  exists entry,
    v = VDict entry /\ hashable (dict_get "resource_type" entry) = true.
(** * Properties *)

(** ** Dictionaries *)

Lemma dict_lookup_set_eq {A : Type} (k : string) (v : A) d :
  dict_lookup k (dict_set k v d) = Some v.
Proof.
  induction d as [|[k' v'] d IH]; simpl.
  - now rewrite String.eqb_refl.
  - destruct (k =? k') eqn:E; simpl; rewrite ?String.eqb_refl, ?E; auto.
Qed.

Lemma dict_lookup_set_neq {A : Type} (k k' : string) (v : A) d :
  k <> k' -> dict_lookup k (dict_set k' v d) = dict_lookup k d.
Proof.
  intros Hne. induction d as [|[k0 v0] d IH]; simpl.
  - apply String.eqb_neq in Hne. now rewrite Hne.
  - destruct (k' =? k0) eqn:E; simpl.
    + apply String.eqb_eq in E. subst k0.
      apply String.eqb_neq in Hne. now rewrite Hne.
    + destruct (k =? k0); auto.
Qed.

Lemma dict_set_set {A : Type} (k : string) (v w : A) d :
  dict_set k w (dict_set k v d) = dict_set k w d.
Proof.
  induction d as [|[k' v'] d IH]; simpl.
  - now rewrite String.eqb_refl.
  - destruct (k =? k') eqn:E; simpl; rewrite ?String.eqb_refl, ?E; auto.
    now rewrite IH.
Qed.

Lemma dict_set_same {A : Type} (k : string) (v : A) d :
  dict_lookup k d = Some v -> dict_set k v d = d.
Proof.
  induction d as [|[k' v'] d IH]; simpl; [discriminate|].
  destruct (k =? k') eqn:E; intros Hl.
  - apply String.eqb_eq in E. now inversion Hl; subst.
  - now rewrite IH.
Qed.

Lemma dict_lookup_In {A : Type} (k : string) (v : A) d :
  dict_lookup k d = Some v -> In (k, v) d.
Proof.
  induction d as [|[k' v'] d IH]; simpl; [discriminate|].
  destruct (k =? k') eqn:E; intros Hl.
  - apply String.eqb_eq in E. inversion Hl; subst. now left.
  - right. auto.
Qed.

Lemma dict_lookup_None {A : Type} (k : string) (d : list (string * A)) :
  dict_lookup k d = None <-> ~ In k (dict_keys d).
Proof.
  induction d as [|[k' v'] d IH]; simpl.
  - tauto.
  - destruct (k =? k') eqn:E.
    + apply String.eqb_eq in E. subst. split; [discriminate|tauto].
    + apply String.eqb_neq in E. rewrite IH. split.
      * intros Hn [Heq|Hin]; [congruence|tauto].
      * tauto.
Qed.

Lemma dict_lookup_Some_key {A : Type} (k : string) (d : list (string * A)) :
  In k (dict_keys d) <-> exists v, dict_lookup k d = Some v.
Proof.
  destruct (dict_lookup k d) eqn:E.
  - split; [eauto|]. intros _.
    apply dict_lookup_In in E. apply (in_map fst) in E. exact E.
  - split.
    + intros Hin. now apply dict_lookup_None in E.
    + intros [v Hv]. discriminate.
Qed.

Lemma dict_lookup_NoDup {A : Type} (k : string) (v : A) d :
  NoDup (dict_keys d) -> In (k, v) d -> dict_lookup k d = Some v.
Proof.
  induction d as [|[k' v'] d IH]; simpl; [tauto|].
  intros Hnd [Heq|Hin].
  - inversion Heq; subst. now rewrite String.eqb_refl.
  - inversion Hnd as [|? ? Hnotin Hnd']; subst.
    destruct (k =? k') eqn:E.
    + apply String.eqb_eq in E. subst k'.
      exfalso. apply Hnotin. apply (in_map fst) in Hin. exact Hin.
    + auto.
Qed.

Lemma dict_in_lookup {A : Type} (k : string) (v : A) d :
  dict_lookup k d = Some v -> dict_in k d = true.
Proof. unfold dict_in. now intros ->. Qed.

Lemma dict_get_lookup (k : string) (v : value) d :
  dict_lookup k d = Some v -> dict_get k d = v.
Proof. unfold dict_get, dict_get_default. now intros ->. Qed.

Lemma subscript_lookup (k : string) (v : value) d :
  dict_lookup k d = Some v -> subscript d k = Ok v.
Proof. unfold subscript. now intros ->. Qed.

Lemma truthy_has_key (k : string) (v : value) d :
  dict_lookup k d = Some v -> truthy (VDict d) = true.
Proof. destruct d; [discriminate|reflexivity]. Qed.

(** [d1.update(d2)] reads as [d2] where [d2] is defined, else as [d1]. *)
Lemma dict_lookup_update {A : Type} (k : string) (d1 d2 : list (string * A)) :
  NoDup (dict_keys d2) ->
  dict_lookup k (dict_update d1 d2) =
    match dict_lookup k d2 with
    | Some v => Some v
    | None => dict_lookup k d1
    end.
Proof.
  unfold dict_update. revert d1.
  induction d2 as [|[k' v'] d2 IH]; intros d1 Hnd; simpl; [reflexivity|].
  inversion Hnd as [|? ? Hnotin Hnd']; subst.
  rewrite IH by assumption.
  destruct (k =? k') eqn:E.
  - apply String.eqb_eq in E. subst k'.
    apply dict_lookup_None in Hnotin. rewrite Hnotin.
    apply dict_lookup_set_eq.
  - apply String.eqb_neq in E.
    destruct (dict_lookup k d2); [reflexivity|].
    now apply dict_lookup_set_neq.
Qed.

(** ** Equality of dictionaries *)

Lemma py_eq_dict (d1 d2 : dict) :
  py_eq (VDict d1) (VDict d2)
  = (length d1 =? length d2)%nat && attrs_match d1 d2.
Proof.
  simpl. f_equal.
  induction d1 as [|[k v] d1 IH]; simpl; [reflexivity|].
  now rewrite IH.
Qed.

Lemma attrs_match_spec (d1 d2 : dict) :
  attrs_match d1 d2 = true <->
  forall k v, In (k, v) d1 ->
    exists v', dict_lookup k d2 = Some v' /\ py_eq v v' = true.
Proof.
  induction d1 as [|[k v] d1 IH]; simpl.
  - split; [intros _ ? ? []|reflexivity].
  - rewrite andb_true_iff, IH. split.
    + intros [Hhd Htl] k' w [Heq|Hin].
      * inversion Heq; subst.
        destruct (dict_lookup k' d2); [eauto|discriminate].
      * auto.
    + intros Hall. split.
      * destruct (Hall k v (or_introl eq_refl)) as (v' & -> & Hv). exact Hv.
      * intros k' w Hin. apply Hall. now right.
Qed.

(** [==] on dictionaries with distinct keys holds exactly when the two
    have the same attributes, in whatever order. *)
Lemma py_eq_same_attributes (a b : dict) :
  NoDup (dict_keys a) -> NoDup (dict_keys b) ->
  py_eq (VDict a) (VDict b) = true <-> same_attributes a b.
Proof.
  intros Ha Hb. rewrite py_eq_dict, andb_true_iff, attrs_match_spec.
  split.
  - intros [Hlen Hall] k.
    apply Nat.eqb_eq in Hlen.
    assert (Hincl : incl (dict_keys a) (dict_keys b)).
    { intros x Hx. apply dict_lookup_Some_key in Hx as [v Hv].
      apply dict_lookup_In in Hv.
      destruct (Hall _ _ Hv) as (v' & Hv' & _).
      apply dict_lookup_Some_key. eauto. }
    assert (Hincl' : incl (dict_keys b) (dict_keys a)).
    { apply NoDup_length_incl; auto.
      unfold dict_keys. rewrite !length_map. lia. }
    destruct (dict_lookup k a) as [x|] eqn:Ea.
    + destruct (Hall _ _ (dict_lookup_In _ _ _ Ea)) as (v' & -> & Hv).
      exact Hv.
    + destruct (dict_lookup k b) as [y|] eqn:Eb; [|exact I].
      apply dict_lookup_None in Ea. apply Ea, Hincl'.
      apply dict_lookup_Some_key. eauto.
  - intros Hsame. split.
    + apply Nat.eqb_eq.
      assert (Hab : incl (dict_keys a) (dict_keys b)).
      { intros x Hx. apply dict_lookup_Some_key in Hx as [v Hv].
        specialize (Hsame x). rewrite Hv in Hsame.
        apply dict_lookup_Some_key.
        destruct (dict_lookup x b); [eauto|contradiction]. }
      assert (Hba : incl (dict_keys b) (dict_keys a)).
      { intros x Hx. apply dict_lookup_Some_key in Hx as [v Hv].
        specialize (Hsame x). rewrite Hv in Hsame.
        apply dict_lookup_Some_key.
        destruct (dict_lookup x a); [eauto|contradiction]. }
      pose proof (NoDup_incl_length Ha Hab) as H1.
      pose proof (NoDup_incl_length Hb Hba) as H2.
      unfold dict_keys in H1, H2. rewrite !length_map in H1, H2. lia.
    + intros k v Hin.
      pose proof (dict_lookup_NoDup _ _ _ Ha Hin) as Hl.
      specialize (Hsame k). rewrite Hl in Hsame.
      destruct (dict_lookup k b); [eauto|contradiction].
Qed.

(** ** Collisions *)

(** The start of [_check_duplicated_resources] on a name that is bound to
    a dictionary: both resource types are read. *)
Lemma check_reads_types (initial_meta_dict : dict) (name : string)
  (initial additional : dict) (initial_type additional_type : value) :
  dict_lookup name initial_meta_dict = Some (VDict initial) ->
  dict_lookup "resource_type" initial = Some initial_type ->
  dict_lookup "resource_type" additional = Some additional_type ->
  dict_in name initial_meta_dict = true
  /\ subscript additional "resource_type" = Ok additional_type
  /\ dict_get name initial_meta_dict = VDict initial
  /\ truthy (VDict initial) = true
  /\ subscript initial "resource_type" = Ok initial_type.
Proof.
  intros Hm Hi Ha. repeat split.
  - eapply dict_in_lookup; eassumption.
  - now apply subscript_lookup.
  - now apply dict_get_lookup.
  - eapply truthy_has_key; eassumption.
  - now apply subscript_lookup.
Qed.

Ltac start_check Hm Hi Ha :=
  destruct (check_reads_types _ _ _ _ _ _ Hm Hi Ha)
    as (Hin & Hat & Hget & Htruthy & Hit);
  unfold _check_duplicated_resources;
  rewrite Hin, Hat; cbn [bind]; rewrite Hget, Htruthy;
  cbn [negb subscript_value]; rewrite Hit; cbn [bind].

(** C4: a collision of two entries with the same resource type, other
    than the composite type, is fatal, and the error is chosen by [==] on
    the two entries: [DuplicateResource] when they are equal,
    [ConflictingResource] when they are not.  On dictionaries [==] is deep
    equality: the same attributes, in whatever order. *)
Theorem same_type_collision_is_fatal
  (initial_meta_dict : dict) (name : string)
  (initial additional : dict) (initial_type additional_type : value) :
  dict_lookup name initial_meta_dict = Some (VDict initial) ->
  dict_lookup "resource_type" initial = Some initial_type ->
  dict_lookup "resource_type" additional = Some additional_type ->
  py_eq additional_type initial_type = true ->
  py_eq initial_type (VStr API_GATEWAY_TYPE) = false ->
  _check_duplicated_resources initial_meta_dict name additional
  = (if py_eq (VDict additional) (VDict initial)
     then Raise (DuplicateResource name)
     else Raise (ConflictingResource name (VDict initial)
                   (VDict additional)))
  /\ (NoDup (dict_keys initial) -> NoDup (dict_keys additional) ->
      (py_eq (VDict additional) (VDict initial) = true
       <-> same_attributes additional initial)).
Proof.
  intros Hm Hi Ha Hsame Hnot. split.
  - start_check Hm Hi Ha. rewrite Hsame, Hnot. reflexivity.
  - intros Hndi Hnda. now apply py_eq_same_attributes.
Qed.

(** The collision resolver on two entries of different types. *)
Lemma check_type_mismatch
  (initial_meta_dict : dict) (name : string)
  (initial additional : dict) (initial_type additional_type : value) :
  dict_lookup name initial_meta_dict = Some (VDict initial) ->
  dict_lookup "resource_type" initial = Some initial_type ->
  dict_lookup "resource_type" additional = Some additional_type ->
  py_eq additional_type initial_type = false ->
  _check_duplicated_resources initial_meta_dict name additional = Ok None.
Proof.
  intros Hm Hi Ha Hdiff. start_check Hm Hi Ha.
  rewrite Hdiff. reflexivity.
Qed.

(** C7: when the resource types of the existing and of the incoming
    entry differ, the collision resolver returns no merged value and
    raises nothing, and both callers store the incoming entry under the
    name, in place of the existing one. *)
Theorem type_mismatch_overwrites
  (resources_meta : dict) (name bundle_name : string)
  (initial incoming populated : dict)
  (initial_type incoming_type : value) :
  dict_lookup name resources_meta = Some (VDict initial) ->
  dict_lookup "resource_type" initial = Some initial_type ->
  _populate_s3_path incoming bundle_name = Ok populated ->
  dict_lookup "resource_type" populated = Some incoming_type ->
  py_eq incoming_type initial_type = false ->
  _check_duplicated_resources resources_meta name populated = Ok None
  /\ (dict_lookup "name" incoming = Some (VStr name) ->
      process_lambda_config (VDict incoming) bundle_name resources_meta
      = (dict_set name (VDict populated) resources_meta, Ok tt))
  /\ (forall deployment_resources incoming_declared_type,
         dict_lookup name deployment_resources = Some (VDict incoming) ->
         dict_lookup "resource_type" incoming
         = Some incoming_declared_type ->
         value_in_keys incoming_declared_type RESOURCE_LIST = true ->
         process_resource (VDict deployment_resources) bundle_name
           (VStr name) resources_meta
         = (dict_set name (VDict populated) resources_meta, Ok tt))
  /\ dict_lookup name (dict_set name (VDict populated) resources_meta)
     = Some (VDict populated).
Proof.
  intros Hm Hi Hpop Ha Hdiff.
  pose proof (check_type_mismatch _ _ _ _ _ _ Hm Hi Ha Hdiff) as Hcheck.
  split; [exact Hcheck|]. split; [|split].
  - intros Hname. unfold process_lambda_config, bindM, liftM, read_meta,
      set_item. cbn [subscript_value as_dict].
    rewrite (subscript_lookup _ _ _ Hname), Hpop. cbn [as_name].
    rewrite Hcheck. reflexivity.
  - intros deployment_resources declared Hres Hdecl Hknown.
    unfold process_resource, bindM, liftM, read_meta, set_item.
    cbn [as_name subscript_value].
    rewrite (subscript_lookup _ _ _ Hres). cbn [as_dict].
    rewrite Hdecl, Hknown. cbn [negb]. rewrite Hpop, Hcheck. reflexivity.
  - apply dict_lookup_set_eq.
Qed.

(** ** Collisions of composite entries *)

Lemma existsb_eqb_In (x : string) (l : list string) :
  existsb (String.eqb x) l = true <-> In x l.
Proof.
  rewrite existsb_exists. split.
  - intros (y & Hy & Heq). apply String.eqb_eq in Heq. now subst.
  - intros Hin. exists x. split; [assumption|apply String.eqb_refl].
Qed.

Lemma sub_resource_loop (name : string) (additional ar : dict)
  (init_keys : list string) :
  dict_lookup "resources" additional = Some (VDict ar) ->
  for_each (check_sub_resource name additional) init_keys
  = match first_clash init_keys (dict_keys ar) with
    | Some each => Raise (DuplicateSubResource name each)
    | None => Ok tt
    end.
Proof.
  intros Har. unfold first_clash.
  induction init_keys as [|each keys IH]; simpl; [reflexivity|].
  unfold check_sub_resource at 1.
  rewrite (subscript_lookup _ _ _ Har). cbn [bind keys_of].
  destruct (existsb (String.eqb each) (dict_keys ar)); [reflexivity|].
  cbn [bind]. exact IH.
Qed.

Lemma first_clash_Some (init_keys add_keys : list string) (each : string) :
  first_clash init_keys add_keys = Some each ->
  In each init_keys /\ In each add_keys.
Proof.
  unfold first_clash. intros Hf. apply find_some in Hf as [Hin Hex].
  split; [assumption|]. now apply existsb_eqb_In.
Qed.

Lemma first_clash_None (init_keys add_keys : list string) :
  first_clash init_keys add_keys = None <->
  forall k, In k init_keys -> ~ In k add_keys.
Proof.
  unfold first_clash. split.
  - intros Hf k Hin Hin'.
    pose proof (find_none _ _ Hf k Hin) as Hn. cbv beta in Hn.
    apply existsb_eqb_In in Hin'. congruence.
  - intros Hdisj.
    destruct (find _ init_keys) as [each|] eqn:E; [|reflexivity].
    apply find_some in E as [Hin Hex]. apply existsb_eqb_In in Hex.
    exfalso. eapply Hdisj; eassumption.
Qed.

(** Two composite entries up to the cache configuration check. *)
Ltac start_composite Hm Hi Ha Hri Hra :=
  start_check Hm Hi Ha;
  cbn [py_eq]; rewrite String.eqb_refl; cbn [andb];
  rewrite (subscript_lookup _ _ _ Hri); cbn [bind keys_of];
  rewrite (sub_resource_loop _ _ _ _ Hra).

(** C6, as the code has it: a sub-resource name that occurs in both
    [resources] maps raises [DuplicateSubResource], for the first such
    name of the existing entry; when no name occurs in both, a cache
    configuration that is true on both sides raises
    [DuplicateCacheConfig]. *)
Theorem composite_collision_errors
  (initial_meta_dict : dict) (name : string)
  (initial additional init_res add_res : dict) :
  dict_lookup name initial_meta_dict = Some (VDict initial) ->
  is_composite initial -> is_composite additional ->
  dict_lookup "resources" initial = Some (VDict init_res) ->
  dict_lookup "resources" additional = Some (VDict add_res) ->
  ((exists k, In k (dict_keys init_res) /\ In k (dict_keys add_res)) ->
   exists each,
     In each (dict_keys init_res) /\ In each (dict_keys add_res)
     /\ _check_duplicated_resources initial_meta_dict name additional
        = Raise (DuplicateSubResource name each))
  /\ ((forall k, In k (dict_keys init_res) -> ~ In k (dict_keys add_res)) ->
      truthy (dict_get "cluster_cache_configuration" initial) = true ->
      truthy (dict_get "cluster_cache_configuration" additional) = true ->
      _check_duplicated_resources initial_meta_dict name additional
      = Raise (DuplicateCacheConfig name)).
Proof.
  intros Hm Hi Ha Hri Hra. split.
  - intros (k & Hk1 & Hk2).
    destruct (first_clash (dict_keys init_res) (dict_keys add_res))
      as [each|] eqn:E.
    + destruct (first_clash_Some _ _ _ E) as [H1 H2].
      exists each. repeat split; try assumption.
      start_composite Hm Hi Ha Hri Hra. rewrite E. reflexivity.
    + exfalso. eapply first_clash_None; eassumption.
  - intros Hdisj Hci Hca.
    apply first_clash_None in Hdisj.
    start_composite Hm Hi Ha Hri Hra. rewrite Hdisj.
    cbn [bind value_get]. rewrite Hci, Hca. reflexivity.
Qed.

(** ** The merge of two composite entries *)

Lemma dependency_key_named (each : value) :
  named_dependency each -> dependency_key each = Ok (dependency_name each).
Proof.
  intros (d & n & -> & Hn & Hh). unfold dependency_key, dependency_name.
  cbn [subscript_value]. rewrite (subscript_lookup _ _ _ Hn).
  cbn [bind]. rewrite Hh. now rewrite (dict_get_lookup _ _ _ Hn).
Qed.

Lemma dependency_keys_from (add_deps keys : list value) :
  Forall named_dependency add_deps ->
  for_fold (fun keys each => n <- dependency_key each ;; Ok (keys ++ [n]))
    add_deps keys
  = Ok (keys ++ map dependency_name add_deps).
Proof.
  revert keys.
  induction add_deps as [|each deps IH]; intros keys Hall; simpl.
  - now rewrite app_nil_r.
  - inversion Hall as [|? ? Hn Hall']; subst.
    rewrite (dependency_key_named _ Hn). cbn [bind].
    rewrite IH by assumption. now rewrite <- app_assoc.
Qed.

Lemma dependency_keys_named (add_deps : list value) :
  Forall named_dependency add_deps ->
  dependency_keys add_deps = Ok (map dependency_name add_deps).
Proof. intros Hall. now apply (dependency_keys_from add_deps []). Qed.

Lemma join_dependencies (keys : list value) (init_deps : list value) :
  Forall named_dependency init_deps ->
  forall (item : dict) (deps : list value),
    dict_lookup "dependencies" item = Some (VList deps) ->
    for_fold (join_dependency keys) init_deps item
    = Ok (dict_set "dependencies"
            (VList (deps ++
                    filter (fun each =>
                              negb (existsb (py_eq (dependency_name each))
                                      keys)) init_deps))
            item).
Proof.
  induction 1 as [|each init_deps Hn Hall IH]; intros item deps Hdeps.
  - simpl. rewrite app_nil_r. now rewrite dict_set_same.
  - simpl. unfold join_dependency at 1.
    rewrite (dependency_key_named _ Hn). cbn [bind].
    destruct (existsb (py_eq (dependency_name each)) keys); cbn [negb bind].
    + now apply IH.
    + rewrite (subscript_lookup _ _ _ Hdeps). cbn [bind py_append].
      rewrite (IH _ (deps ++ [each])) by apply dict_lookup_set_eq.
      now rewrite dict_set_set, <- app_assoc.
Qed.

(** C1, as the code has it: two composite entries that both carry a
    [resources] map and a [dependencies] list of named entries, with no
    sub-resource in common and a cache configuration that is true on at
    most one side, are merged into the incoming entry.  Its [resources]
    are the union of both maps; its [dependencies] are its own, followed
    by the existing ones whose name it does not have; a cache
    configuration and a [deploy_stage] that are true in the existing
    entry replace its own, which it keeps otherwise; [apply_changes] is
    the existing list followed by its own; its other attributes are
    unchanged. *)
Theorem composite_entries_are_merged
  (initial_meta_dict : dict) (name : string)
  (initial additional init_res add_res : dict)
  (init_deps add_deps init_apply add_apply : list value) :
  dict_lookup name initial_meta_dict = Some (VDict initial) ->
  is_composite initial -> is_composite additional ->
  dict_lookup "resources" initial = Some (VDict init_res) ->
  NoDup (dict_keys init_res) ->
  dict_lookup "resources" additional = Some (VDict add_res) ->
  (forall k, In k (dict_keys init_res) -> ~ In k (dict_keys add_res)) ->
  dict_lookup "dependencies" initial = Some (VList init_deps) ->
  Forall named_dependency init_deps ->
  dict_lookup "dependencies" additional = Some (VList add_deps) ->
  Forall named_dependency add_deps ->
  truthy (dict_get "cluster_cache_configuration" initial)
  && truthy (dict_get "cluster_cache_configuration" additional) = false ->
  dict_get_default "apply_changes" (VList []) initial = VList init_apply ->
  dict_get_default "apply_changes" (VList []) additional
  = VList add_apply ->
  exists merged merged_res,
    _check_duplicated_resources initial_meta_dict name additional
    = Ok (Some merged)
    /\ dict_lookup "resources" merged = Some (VDict merged_res)
    /\ (forall k,
           dict_lookup k merged_res
           = match dict_lookup k init_res with
             | Some v => Some v
             | None => dict_lookup k add_res
             end)
    /\ dict_lookup "dependencies" merged
       = Some (VList (add_deps ++ filter (absent_from add_deps) init_deps))
    /\ dict_lookup "cluster_cache_configuration" merged
       = (if truthy (dict_get "cluster_cache_configuration" initial)
          then dict_lookup "cluster_cache_configuration" initial
          else dict_lookup "cluster_cache_configuration" additional)
    /\ dict_lookup "deploy_stage" merged
       = (if truthy (dict_get "deploy_stage" initial)
          then dict_lookup "deploy_stage" initial
          else dict_lookup "deploy_stage" additional)
    /\ dict_lookup "apply_changes" merged
       = Some (VList (init_apply ++ add_apply))
    /\ (forall k, ~ merged_attribute k ->
                  dict_lookup k merged = dict_lookup k additional).
Proof.
  intros Hm Hi Ha Hri Hnd Hra Hdisj Hdi Hni Hda Hna Hcache Hai Haa.
  apply first_clash_None in Hdisj.
  set (icc := dict_get "cluster_cache_configuration" initial) in *.
  set (ids := dict_get "deploy_stage" initial) in *.
  set (item1 := if truthy icc
                then dict_set "cluster_cache_configuration" icc additional
                else additional).
  set (deps := VList (add_deps ++ filter (absent_from add_deps) init_deps)).
  set (item2 := dict_set "dependencies" deps item1).
  set (res := VDict (dict_update add_res init_res)).
  set (item3 := dict_set "resources" res item2).
  set (item4 := if truthy ids then dict_set "deploy_stage" ids item3
                else item3).
  set (merged := dict_set "apply_changes" (VList (init_apply ++ add_apply))
                   item4).
  assert (L1 : forall k, k <> "cluster_cache_configuration" ->
                         dict_lookup k item1 = dict_lookup k additional).
  { intros k Hk. unfold item1. destruct (truthy icc); [|reflexivity].
    now apply dict_lookup_set_neq. }
  assert (L4 : forall k, k <> "deploy_stage" ->
                         dict_lookup k item4 = dict_lookup k item3).
  { intros k Hk. unfold item4. destruct (truthy ids); [|reflexivity].
    now apply dict_lookup_set_neq. }
  assert (Hrun : _check_duplicated_resources initial_meta_dict name
                   additional = Ok (Some merged)).
  { start_composite Hm Hi Ha Hri Hra. rewrite Hdisj.
    cbn [bind value_get]. fold icc. rewrite Hcache.
    fold item1.
    rewrite (subscript_lookup "dependencies" (VList add_deps) item1)
      by (rewrite L1 by discriminate; exact Hda).
    cbn [bind py_iter].
    rewrite (dependency_keys_named _ Hna). cbn [bind].
    rewrite (subscript_lookup _ _ _ Hdi). cbn [bind py_iter].
    rewrite (join_dependencies _ _ Hni item1 add_deps)
      by (rewrite L1 by discriminate; exact Hda).
    cbn [bind]. fold (absent_from add_deps). fold deps. fold item2.
    rewrite (subscript_lookup "resources" (VDict add_res) item2).
    2:{ unfold item2. rewrite dict_lookup_set_neq by discriminate.
        rewrite L1 by discriminate. exact Hra. }
    cbn [bind py_update]. fold res. fold item3. fold ids. fold item4.
    unfold value_get_default. rewrite Hai. cbn [bind].
    assert (Hadd : dict_get_default "apply_changes" (VList []) item4
                   = VList add_apply).
    { rewrite <- Haa. unfold dict_get_default.
      rewrite L4 by discriminate. unfold item3, item2.
      rewrite !dict_lookup_set_neq by discriminate.
      rewrite L1 by discriminate. reflexivity. }
    rewrite Hadd. reflexivity. }
  exists merged, (dict_update add_res init_res).
  split; [exact Hrun|]. unfold merged.
  split; [|split; [|split; [|split; [|split; [|split]]]]].
  - rewrite dict_lookup_set_neq by discriminate.
    rewrite L4 by discriminate. apply dict_lookup_set_eq.
  - intros k. now apply dict_lookup_update.
  - rewrite dict_lookup_set_neq by discriminate.
    rewrite L4 by discriminate. unfold item3.
    rewrite dict_lookup_set_neq by discriminate.
    apply dict_lookup_set_eq.
  - rewrite dict_lookup_set_neq by discriminate.
    rewrite L4 by discriminate. unfold item3, item2.
    rewrite !dict_lookup_set_neq by discriminate.
    unfold item1, icc, dict_get, dict_get_default.
    destruct (dict_lookup "cluster_cache_configuration" initial)
      as [c|] eqn:E; [|reflexivity].
    destruct (truthy c); [|reflexivity]. apply dict_lookup_set_eq.
  - rewrite dict_lookup_set_neq by discriminate.
    unfold item4, ids, dict_get, dict_get_default.
    destruct (dict_lookup "deploy_stage" initial) as [s|] eqn:E.
    + destruct (truthy s); [apply dict_lookup_set_eq|].
      unfold item3, item2. rewrite !dict_lookup_set_neq by discriminate.
      now apply L1.
    + cbn [truthy]. unfold item3, item2.
      rewrite !dict_lookup_set_neq by discriminate. now apply L1.
  - apply dict_lookup_set_eq.
  - intros k Hk. unfold merged_attribute in Hk.
    rewrite dict_lookup_set_neq by tauto.
    rewrite L4 by tauto. unfold item3, item2.
    rewrite !dict_lookup_set_neq by tauto. apply L1. tauto.
Qed.

(** ** The derived storage location *)

Lemma S3_PATH_MAPPING_ebs :
  dict_lookup EBS_TYPE S3_PATH_MAPPING = Some _populate_s3_path_ebs.
Proof. unfold S3_PATH_MAPPING. apply dict_lookup_set_eq. Qed.

Lemma S3_PATH_MAPPING_lambda :
  LAMBDA_TYPE <> EBS_TYPE ->
  dict_lookup LAMBDA_TYPE S3_PATH_MAPPING = Some _populate_s3_path_lambda.
Proof.
  intros Hne. unfold S3_PATH_MAPPING.
  rewrite dict_lookup_set_neq by assumption. apply dict_lookup_set_eq.
Qed.

Lemma S3_PATH_MAPPING_other (t : string) :
  t <> LAMBDA_TYPE -> t <> EBS_TYPE -> dict_lookup t S3_PATH_MAPPING = None.
Proof.
  intros H1 H2. unfold S3_PATH_MAPPING.
  rewrite !dict_lookup_set_neq by assumption. reflexivity.
Qed.

(** C9: the storage location is derived by the rule of the resource
    type.  A Beanstalk entry needs [deployment_package] and gets
    [bundle_name/deployment_package].  A lambda entry (the two types
    being distinct) needs [runtime]; with the runtime python2.7 it needs
    [name] and [version], with java8 it needs [deployment_package].  A
    required attribute that is missing (or empty) raises [MissingField]
    with the field and the entry.  An entry of another type is left as it
    is, without the attribute. *)
Theorem storage_location_rules (meta : dict) (bundle_name : string) :
  (dict_lookup "resource_type" meta = Some (VStr EBS_TYPE) ->
   (truthy (dict_get "deployment_package" meta) = false ->
    _populate_s3_path meta bundle_name
    = Raise (MissingField "Beanstalk_app" ["deployment_package"] meta))
   /\ (forall package,
          dict_lookup "deployment_package" meta = Some (VStr package) ->
          package <> "" ->
          _populate_s3_path meta bundle_name
          = Ok (dict_set S3_PATH_NAME
                  (VStr (bundle_name ++ "/" ++ package)) meta)))
  /\ (dict_lookup "resource_type" meta = Some (VStr LAMBDA_TYPE) ->
      LAMBDA_TYPE <> EBS_TYPE ->
      (truthy (dict_get "runtime" meta) = false ->
       _populate_s3_path meta bundle_name
       = Raise (MissingField "Lambda" ["runtime"] meta))
      /\ (forall runtime,
             dict_lookup "runtime" meta = Some (VStr runtime) ->
             lower runtime = "python2.7" ->
             (truthy (dict_get "name" meta) = false
              \/ truthy (dict_get "version" meta) = false ->
              _populate_s3_path meta bundle_name
              = Raise (MissingField "Lambda" ["name"; "version"] meta))
             /\ (truthy (dict_get "name" meta) = true ->
                 truthy (dict_get "version" meta) = true ->
                 _populate_s3_path meta bundle_name
                 = Ok (dict_set S3_PATH_NAME
                         (VStr (bundle_name ++ "/" ++
                                build_py_package_name
                                  (dict_get "name" meta)
                                  (dict_get "version" meta))) meta)))
      /\ (forall runtime,
             dict_lookup "runtime" meta = Some (VStr runtime) ->
             lower runtime = "java8" ->
             (truthy (dict_get "deployment_package" meta) = false ->
              _populate_s3_path meta bundle_name
              = Raise (MissingField "Lambda" ["deployment_package"] meta))
             /\ (forall package,
                    dict_lookup "deployment_package" meta
                    = Some (VStr package) ->
                    package <> "" ->
                    _populate_s3_path meta bundle_name
                    = Ok (dict_set S3_PATH_NAME
                            (VStr (bundle_name ++ "/" ++ package)) meta))))
  /\ (hashable (dict_get "resource_type" meta) = true ->
      dict_get "resource_type" meta <> VStr LAMBDA_TYPE ->
      dict_get "resource_type" meta <> VStr EBS_TYPE ->
      _populate_s3_path meta bundle_name = Ok meta).
Proof.
  assert (Hstr : forall p, p <> "" -> truthy (VStr p) = true).
  { intros p Hp. simpl. apply String.eqb_neq in Hp. now rewrite Hp. }
  split; [|split].
  - intros Ht. unfold _populate_s3_path.
    rewrite (dict_get_lookup _ _ _ Ht). cbn [hashable negb].
    rewrite S3_PATH_MAPPING_ebs. unfold _populate_s3_path_ebs. split.
    + now intros ->.
    + intros p Hp Hpne. rewrite (dict_get_lookup _ _ _ Hp).
      now rewrite (Hstr p Hpne).
  - intros Ht Hne. unfold _populate_s3_path.
    rewrite (dict_get_lookup _ _ _ Ht). cbn [hashable negb].
    rewrite (S3_PATH_MAPPING_lambda Hne). unfold _populate_s3_path_lambda.
    split; [now intros ->|]. split.
    + intros r Hr Hlow. rewrite (dict_get_lookup _ _ _ Hr).
      assert (Hrt : truthy (VStr r) = true).
      { apply Hstr. intros ->. discriminate. }
      rewrite Hrt, Hlow. cbn.
      unfold _populate_s3_path_python. split.
      * intros [-> | ->]; [reflexivity|].
        now rewrite orb_true_r.
      * now intros -> ->.
    + intros r Hr Hlow. rewrite (dict_get_lookup _ _ _ Hr).
      assert (Hrt : truthy (VStr r) = true).
      { apply Hstr. intros ->. discriminate. }
      rewrite Hrt, Hlow. cbn.
      unfold _populate_s3_path_java. split.
      * now intros ->.
      * intros p Hp Hpne. rewrite (dict_get_lookup _ _ _ Hp).
        now rewrite (Hstr p Hpne).
  - intros Hh Hl He. unfold _populate_s3_path. rewrite Hh. cbn [negb].
    destruct (dict_get "resource_type" meta) as [| | |t| |];
      try reflexivity.
    rewrite S3_PATH_MAPPING_other by congruence. reflexivity.
Qed.

(** ** Loops that only raise *)

Lemma for_each_Ok {A : Type} (body : A -> result unit) (l : list A) :
  for_each body l = Ok tt <-> forall x, In x l -> body x = Ok tt.
Proof.
  induction l as [|x l IH]; simpl.
  - split; [intros _ ? []|reflexivity].
  - destruct (body x) as [[]|e] eqn:E; cbn [bind].
    + rewrite IH. split.
      * intros Hall y [<-|Hin]; auto.
      * intros Hall y Hin. apply Hall. now right.
    + split; [discriminate|].
      intros Hall. specialize (Hall x (or_introl eq_refl)). congruence.
Qed.

Lemma for_each_Raise {A : Type} (body : A -> result unit) (l : list A)
  (e : exn) :
  for_each body l = Raise e -> exists x, In x l /\ body x = Raise e.
Proof.
  induction l as [|x l IH]; simpl; [discriminate|].
  destruct (body x) as [[]|e'] eqn:E; cbn [bind].
  - intros Hr. destruct (IH Hr) as (y & Hin & Hy). eauto.
  - intros Hr. inversion Hr; subst. eauto.
Qed.

(** ** The closure check *)

Lemma value_in_keys_In (v : value) (keys : list string) :
  value_in_keys v keys = true <-> exists s, v = VStr s /\ In s keys.
Proof.
  destruct v; simpl; try (split; [discriminate|intros (? & ? & _);
                                                discriminate]).
  rewrite existsb_eqb_In. split.
  - eauto.
  - intros (s' & Heq & Hin). now inversion Heq; subst.
Qed.

(** The body of the inner loop of the check. *)
Lemma check_dependency_dict (resources_meta d : dict) :
  (dependency_name <- value_get (VDict d) "resource_name" ;;
   if negb (value_in_keys dependency_name (dict_keys resources_meta))
   then Raise (UnresolvedDependency dependency_name)
   else Ok tt)
  = if value_in_keys (dependency_name (VDict d)) (dict_keys resources_meta)
    then Ok tt
    else Raise (UnresolvedDependency (dependency_name (VDict d))).
Proof.
  cbn [value_get bind dependency_name].
  now destruct (value_in_keys _ _).
Qed.

Lemma check_dependencies_sound (resources_meta : dict) :
  check_dependencies resources_meta = Ok tt ->
  dependencies_closed resources_meta.
Proof.
  unfold check_dependencies. rewrite for_each_Ok.
  intros Hall name entry deps dependency Hentry Hdeps Hin.
  assert (Hkey : In name (dict_keys resources_meta)).
  { apply dict_lookup_Some_key. eauto. }
  specialize (Hall name Hkey). cbv beta in Hall.
  rewrite (subscript_lookup _ _ _ Hentry) in Hall.
  cbn [bind value_get subscript_value] in Hall.
  rewrite (dict_get_lookup _ _ _ Hdeps) in Hall.
  destruct deps as [|d0 deps']; [destruct Hin|].
  cbn [truthy] in Hall.
  rewrite (subscript_lookup _ _ _ Hdeps) in Hall.
  cbn [bind py_iter] in Hall. rewrite for_each_Ok in Hall.
  specialize (Hall dependency Hin). cbv beta in Hall.
  destruct dependency as [| | | | |d]; try discriminate.
  rewrite check_dependency_dict in Hall.
  destruct (value_in_keys _ _) eqn:E; [|discriminate].
  now apply value_in_keys_In in E.
Qed.

Lemma check_dependencies_complete (resources_meta : dict) :
  entries_well_formed resources_meta ->
  check_dependencies resources_meta = Ok tt
  \/ exists missing,
      missing_dependency resources_meta missing
      /\ check_dependencies resources_meta
         = Raise (UnresolvedDependency missing).
Proof.
  intros Hwf.
  destruct (check_dependencies resources_meta) as [[]|e] eqn:E;
    [now left|right].
  unfold check_dependencies in E.
  apply for_each_Raise in E as (name & Hkey & Hbody).
  apply dict_lookup_Some_key in Hkey as [v Hv].
  destruct (Hwf _ _ Hv) as (entry & -> & Hdeps).
  rewrite (subscript_lookup _ _ _ Hv) in Hbody.
  cbn [bind value_get subscript_value] in Hbody.
  unfold dict_get, dict_get_default in Hbody.
  destruct (dict_lookup "dependencies" entry) as [deps|] eqn:Ed;
    [|discriminate].
  destruct (Hdeps _ eq_refl) as (l & -> & Hall).
  destruct l as [|d0 l']; [discriminate|].
  cbn [truthy] in Hbody.
  unfold subscript in Hbody. rewrite Ed in Hbody.
  cbn [bind py_iter] in Hbody.
  apply for_each_Raise in Hbody as (dependency & Hin & Hdep).
  rewrite Forall_forall in Hall. destruct (Hall _ Hin) as [d ->].
  rewrite check_dependency_dict in Hdep.
  destruct (value_in_keys _ _) eqn:Ek; [discriminate|].
  inversion Hdep; subst.
  exists (dependency_name (VDict d)). split; [|reflexivity].
  exists name, entry, (d0 :: l'), (VDict d). auto.
Qed.

(** C5: the dictionary that [create_resource_json] returns is closed
    under dependencies; and when the merged dictionary has a dependency
    that names no key, no dictionary is returned:
    [UnresolvedDependency] is raised with such a name. *)
Theorem dependencies_are_checked (walk : list (list file))
  (bundle_name : string) :
  (forall resources_meta,
      create_resource_json walk bundle_name = Ok resources_meta ->
      dependencies_closed resources_meta)
  /\ (forall resources_meta missing,
         walk_project walk bundle_name [] = (resources_meta, Ok tt) ->
         entries_well_formed resources_meta ->
         missing_dependency resources_meta missing ->
         exists reported,
           missing_dependency resources_meta reported
           /\ create_resource_json walk bundle_name
              = Raise (UnresolvedDependency reported)).
Proof.
  unfold create_resource_json. split.
  - intros resources_meta.
    destruct (walk_project walk bundle_name []) as [meta [[]|e]];
      [|discriminate].
    destruct (check_dependencies meta) as [[]|e] eqn:E;
      cbn [bind]; [|discriminate].
    intros Heq. inversion Heq; subst.
    now apply check_dependencies_sound.
  - intros resources_meta missing -> Hwf Hmiss.
    destruct (check_dependencies_complete _ Hwf)
      as [Hok | (reported & Hrep & Hraise)].
    + exfalso. apply check_dependencies_sound in Hok.
      destruct Hmiss as (name & entry & deps & dependency
                         & He & Hd & Hin & Hname & Hkeys).
      destruct (Hok _ _ _ _ He Hd Hin) as (s & Hs & Hins).
      assert (Ht : value_in_keys missing (dict_keys resources_meta)
                   = true).
      { apply value_in_keys_In. exists s. split; congruence. }
      congruence.
    + exists reported. split; [assumption|].
      now rewrite Hraise.
Qed.

(** ** The dictionary when the merge aborts *)

Lemma populate_error_is_no_collision (meta : dict) (bundle_name : string)
  (e : exn) :
  _populate_s3_path meta bundle_name = Raise e -> ~ collision_error e.
Proof.
  assert (Hbuild : forall b p (k : string -> result dict) e',
             (path <- build_path b p ;; k path) = Raise e' ->
             (forall s, k s <> Raise e') -> ~ collision_error e').
  { intros b p k e' Hr Hk. destruct p; simpl in Hr;
      try (inversion Hr; subst; simpl; tauto).
    exfalso. eapply Hk; eassumption. }
  assert (Hebs : forall e', _populate_s3_path_ebs meta bundle_name
                            = Raise e' -> ~ collision_error e').
  { unfold _populate_s3_path_ebs. intros e'.
    destruct (negb _); [intros Hr; inversion Hr; subst; simpl; tauto|].
    intros Hr. eapply Hbuild; [exact Hr|discriminate]. }
  assert (Hjava : forall e', _populate_s3_path_java meta bundle_name
                             = Raise e' -> ~ collision_error e').
  { unfold _populate_s3_path_java. intros e'.
    destruct (negb _); [intros Hr; inversion Hr; subst; simpl; tauto|].
    intros Hr. eapply Hbuild; [exact Hr|discriminate]. }
  assert (Hpy : forall e', _populate_s3_path_python meta bundle_name
                           = Raise e' -> ~ collision_error e').
  { unfold _populate_s3_path_python. intros e'.
    destruct (_ || _); [intros Hr; inversion Hr; subst; simpl; tauto|].
    intros Hr. eapply Hbuild; [exact Hr|discriminate]. }
  assert (Hlam : forall e', _populate_s3_path_lambda meta bundle_name
                            = Raise e' -> ~ collision_error e').
  { unfold _populate_s3_path_lambda. intros e'.
    destruct (negb _); [intros Hr; inversion Hr; subst; simpl; tauto|].
    destruct (dict_get "runtime" meta);
      try (intros Hr; inversion Hr; subst; simpl; tauto).
    unfold RUNTIME_PATH_RESOLVER. cbn [dict_set String.eqb Ascii.eqb
                                         Bool.eqb dict_lookup].
    destruct (lower s =? "python2.7"); [apply Hpy|].
    destruct (lower s =? "java8"); [apply Hjava|].
    intros Hr; inversion Hr; subst; simpl; tauto. }
  unfold _populate_s3_path.
  destruct (negb _); [intros Hr; inversion Hr; subst; simpl; tauto|].
  destruct (dict_get "resource_type" meta); try discriminate.
  unfold S3_PATH_MAPPING. cbn [dict_set].
  destruct (EBS_TYPE =? LAMBDA_TYPE) eqn:E; cbn [dict_lookup].
  - destruct (s =? EBS_TYPE); [apply Hebs|discriminate].
  - destruct (s =? LAMBDA_TYPE); [apply Hlam|].
    destruct (s =? EBS_TYPE); [apply Hebs|discriminate].
Qed.

Lemma check_raises_on_known_name (resources_meta : dict) (name : string)
  (incoming : dict) (e : exn) :
  _check_duplicated_resources resources_meta name incoming = Raise e ->
  dict_in name resources_meta = true.
Proof.
  unfold _check_duplicated_resources.
  destruct (dict_in name resources_meta); [reflexivity|discriminate].
Qed.

Lemma subscript_value_error (v : value) (k : string) (e : exn) :
  subscript_value v k = Raise e -> ~ collision_error e.
Proof.
  destruct v as [| | | | |d]; simpl;
    try (intros Hr; inversion Hr; subst; simpl; tauto).
  unfold subscript. destruct (dict_lookup k d); [discriminate|].
  intros Hr; inversion Hr; subst; simpl; tauto.
Qed.

Lemma as_dict_error (v : value) (e : exn) :
  as_dict v = Raise e -> ~ collision_error e.
Proof.
  destruct v; simpl; try discriminate;
    intros Hr; inversion Hr; subst; simpl; tauto.
Qed.

Lemma as_name_error (v : value) (e : exn) :
  as_name v = Raise e -> ~ collision_error e.
Proof.
  destruct v; simpl; try discriminate;
    intros Hr; inversion Hr; subst; simpl; tauto.
Qed.

Lemma py_iter_error (v : value) (e : exn) :
  py_iter v = Raise e -> ~ collision_error e.
Proof.
  destruct v; simpl; try discriminate;
    intros Hr; inversion Hr; subst; simpl; tauto.
Qed.

(** An exception raised before the dictionary is read. *)
Ltac early_abort lem :=
  let Heq := fresh "Heq" in
  let Hc := fresh "Hc" in
  intros Heq; inversion Heq; subst; split; [reflexivity|];
  intros Hc; exfalso; eapply lem; eassumption.

(** One lambda configuration: an exception leaves the dictionary as it
    was, and a collision error comes from the check against it. *)
Lemma process_lambda_config_abort (lambda_conf : value)
  (bundle_name : string) (resources_meta resources_meta' : dict)
  (e : exn) :
  process_lambda_config lambda_conf bundle_name resources_meta
  = (resources_meta', Raise e) ->
  resources_meta' = resources_meta
  /\ (collision_error e -> collision_found_in resources_meta e).
Proof.
  unfold process_lambda_config, bindM, liftM, read_meta, set_item.
  destruct (subscript_value lambda_conf "name") as [n|e1] eqn:E1;
    [|early_abort subscript_value_error].
  destruct (as_dict lambda_conf) as [conf|e2] eqn:E2;
    [|early_abort as_dict_error].
  destruct (_populate_s3_path conf bundle_name) as [conf'|e3] eqn:E3;
    [|early_abort populate_error_is_no_collision].
  destruct (as_name n) as [name|e4] eqn:E4;
    [|early_abort as_name_error].
  destruct (_check_duplicated_resources resources_meta name conf')
    as [res|e5] eqn:E5; [discriminate|].
  intros Heq; inversion Heq; subst. split; [reflexivity|].
  intros _. exists name, conf'. split; [|assumption].
  eapply check_raises_on_known_name; eassumption.
Qed.

(** One resource of a deployment resources file, likewise. *)
Lemma process_resource_abort (deployment_resources : value)
  (bundle_name : string) (resource_name : value)
  (resources_meta resources_meta' : dict) (e : exn) :
  process_resource deployment_resources bundle_name resource_name
    resources_meta
  = (resources_meta', Raise e) ->
  resources_meta' = resources_meta
  /\ (collision_error e -> collision_found_in resources_meta e).
Proof.
  unfold process_resource, bindM, liftM, read_meta, set_item.
  destruct (as_name resource_name) as [name|e1] eqn:E1;
    [|early_abort as_name_error].
  destruct (subscript_value deployment_resources name) as [r|e2] eqn:E2;
    [|early_abort subscript_value_error].
  destruct (as_dict r) as [resource|e3] eqn:E3;
    [|early_abort as_dict_error].
  destruct (dict_lookup "resource_type" resource) as [t|];
    [|intros Heq; inversion Heq; subst; split; [reflexivity|];
      simpl; tauto].
  destruct (negb (value_in_keys t RESOURCE_LIST));
    [intros Heq; inversion Heq; subst; split; [reflexivity|];
     simpl; tauto|].
  destruct (_populate_s3_path resource bundle_name) as [res'|e4] eqn:E4;
    [|early_abort populate_error_is_no_collision].
  destruct (_check_duplicated_resources resources_meta name res')
    as [res|e5] eqn:E5; [discriminate|].
  intros Heq; inversion Heq; subst. split; [reflexivity|].
  intros _. exists name, res'. split; [|assumption].
  eapply check_raises_on_known_name; eassumption.
Qed.

(** A loop over the shared dictionary aborts in the state in which one
    of its bodies aborted. *)
Lemma for_eachM_abort {A : Type} (body : A -> M unit)
  (P : dict -> exn -> Prop) :
  (forall x s s' e, body x s = (s', Raise e) -> P s' e) ->
  forall l s s' e, for_eachM body l s = (s', Raise e) -> P s' e.
Proof.
  intros Hbody. induction l as [|x l IH]; intros s s' e; simpl.
  - unfold retM. discriminate.
  - unfold bindM. destruct (body x s) as [s1 [[]|e1]] eqn:E.
    + apply IH.
    + intros Heq. inversion Heq; subst. eapply Hbody; eassumption.
Qed.

Lemma look_for_configs_abort (nested_files : list file)
  (bundle_name : string) (resources_meta resources_meta' : dict)
  (e : exn) :
  _look_for_configs nested_files bundle_name resources_meta
  = (resources_meta', Raise e) ->
  collision_error e -> collision_found_in resources_meta' e.
Proof.
  unfold _look_for_configs.
  apply (for_eachM_abort _
           (fun s e => collision_error e -> collision_found_in s e)).
  intros [each_name content] s s' e'. unfold bindM at 1, whenM.
  destruct (endswith each_name LAMBDA_CONFIG_FILE_NAME).
  - destruct (process_lambda_config content bundle_name s)
      as [s1 [[]|e1]] eqn:E1.
    + destruct (each_name =? RESOURCES_FILE_NAME);
        [|unfold retM; discriminate].
      unfold bindM, liftM.
      destruct (py_iter content) as [names|e2] eqn:E2.
      * apply (for_eachM_abort _
                 (fun s e => collision_error e ->
                             collision_found_in s e)).
        intros x t t' e3 Hx.
        destruct (process_resource_abort _ _ _ _ _ _ Hx) as [-> Hc].
        exact Hc.
      * intros Heq. inversion Heq; subst.
        intros Hc. exfalso. eapply py_iter_error; eassumption.
    + intros Heq. inversion Heq; subst.
      destruct (process_lambda_config_abort _ _ _ _ _ E1) as [-> Hc].
      exact Hc.
  - unfold retM at 1.
    destruct (each_name =? RESOURCES_FILE_NAME);
      [|unfold retM; discriminate].
    unfold bindM, liftM.
    destruct (py_iter content) as [names|e2] eqn:E2.
    + apply (for_eachM_abort _
               (fun s e => collision_error e -> collision_found_in s e)).
      intros x t t' e3 Hx.
      destruct (process_resource_abort _ _ _ _ _ _ Hx) as [-> Hc].
      exact Hc.
    + intros Heq. inversion Heq; subst.
      intros Hc. exfalso. eapply py_iter_error; eassumption.
Qed.

(** C10: a collision error is raised before anything is written.  The
    processing of one resource that raises leaves [resources_meta] as it
    found it, and when the walk aborts on a collision error the
    dictionary it leaves is the one in which the collision was found:
    nothing was inserted or updated after the check. *)
Theorem collision_abort_keeps_manifest :
  (forall lambda_conf bundle_name resources_meta resources_meta' e,
      process_lambda_config lambda_conf bundle_name resources_meta
      = (resources_meta', Raise e) ->
      resources_meta' = resources_meta)
  /\ (forall deployment_resources bundle_name resource_name
             resources_meta resources_meta' e,
         process_resource deployment_resources bundle_name resource_name
           resources_meta
         = (resources_meta', Raise e) ->
         resources_meta' = resources_meta)
  /\ (forall walk bundle_name resources_meta resources_meta' e,
         walk_project walk bundle_name resources_meta
         = (resources_meta', Raise e) ->
         collision_error e ->
         collision_found_in resources_meta' e).
Proof.
  split; [|split].
  - intros. eapply process_lambda_config_abort; eassumption.
  - intros. eapply process_resource_abort; eassumption.
  - intros walk bundle_name. unfold walk_project.
    apply (for_eachM_abort _
             (fun s e => collision_error e -> collision_found_in s e)).
    intros nested s s' e. apply look_for_configs_abort.
Qed.

(** ** The loop over a list: enough steps *)

Lemma list_set_length (i : nat) (x : value) (l : list value) :
  length (list_set i x l) = length l.
Proof.
  revert i. induction l as [|y l IH]; intros i; destruct i; simpl; auto.
Qed.

Lemma remove_first_length (x : value) (l : list value) :
  (exists y, In y l /\ py_eq y x = true) ->
  S (length (remove_first x l)) = length l.
Proof.
  induction l as [|z l IH]; simpl; intros (y & Hin & Hy); [destruct Hin|].
  destruct (py_eq z x) eqn:E; [reflexivity|].
  destruct Hin as [->|Hin]; [congruence|].
  simpl. rewrite IH; eauto.
Qed.

(** One iteration keeps the length of the list: the element that is
    removed is there, and one element is appended. *)
Lemma list_loop_length (rec : value -> value) (old_value new_value : string) :
  forall steps i l,
    length (list_loop rec old_value new_value steps i l) = length l.
Proof.
  induction steps as [|steps IH]; intros i l; simpl; [reflexivity|].
  destruct (nth_error l i) as [item|] eqn:E; [|reflexivity].
  rewrite IH. destruct item as [| | |s| |d]; try reflexivity.
  - destruct (s =? old_value) eqn:Es; [|reflexivity].
    apply String.eqb_eq in Es. subst s.
    rewrite length_app. simpl.
    assert (Hlen : S (length (remove_first (VStr old_value) l)) = length l).
    { apply remove_first_length. exists (VStr old_value). split.
      - eapply nth_error_In; eassumption.
      - simpl. apply String.eqb_refl. }
    lia.
  - apply list_set_length.
Qed.

(** The iterator is past the end after [len(l)] iterations: more steps
    change nothing. *)
Lemma list_loop_enough_steps (rec : value -> value)
  (old_value new_value : string) :
  forall steps more i l,
    length l <= i + steps ->
    list_loop rec old_value new_value (steps + more) i l
    = list_loop rec old_value new_value steps i l.
Proof.
  induction steps as [|steps IH]; intros more i l Hlen.
  - assert (Hend : nth_error l i = None) by (apply nth_error_None; lia).
    destruct more; simpl; [reflexivity|]. now rewrite Hend.
  - simpl. destruct (nth_error l i) as [item|] eqn:E; [|reflexivity].
    apply IH.
    pose proof (list_loop_length rec old_value new_value 1 i l) as Hone.
    simpl in Hone. rewrite E in Hone. rewrite Hone. lia.
Qed.

(** ** The rewriting pass: enough fuel *)

Lemma depth_list (l : list value) : depth (VList l) = S (max_depth l).
Proof. reflexivity. Qed.

Lemma depth_dict (d : dict) : depth (VDict d) = S (max_depth (map snd d)).
Proof.
  simpl. f_equal. induction d as [|[k x] d IH]; simpl; [reflexivity|].
  now rewrite IH.
Qed.

Lemma max_depth_Forall (l : list value) (b : nat) :
  max_depth l <= b <-> Forall (fun x => depth x <= b) l.
Proof.
  induction l as [|x l IH]; simpl.
  - split; [constructor|lia].
  - rewrite Forall_cons_iff, <- IH. lia.
Qed.

Lemma Forall_list_set (P : value -> Prop) (i : nat) (x : value)
  (l : list value) :
  P x -> Forall P l -> Forall P (list_set i x l).
Proof.
  intros Hx Hl. revert i.
  induction Hl as [|y l Hy Hl IH]; intros i; destruct i; simpl;
    constructor; auto.
Qed.

Lemma Forall_remove_first (P : value -> Prop) (x : value)
  (l : list value) :
  Forall P l -> Forall P (remove_first x l).
Proof.
  induction 1 as [|y l Hy Hl IH]; simpl; [constructor|].
  destruct (py_eq y x); [assumption|]. now constructor.
Qed.

(** The loop keeps a bound on the depth of the elements. *)
Lemma list_loop_depth (rec : value -> value) (old_value new_value : string)
  (b : nat) :
  (forall x, depth x <= b -> depth (rec x) <= b) ->
  forall steps i l,
    Forall (fun x => depth x <= b) l ->
    Forall (fun x => depth x <= b)
      (list_loop rec old_value new_value steps i l).
Proof.
  intros Hrec. induction steps as [|steps IH]; intros i l Hl; simpl;
    [assumption|].
  destruct (nth_error l i) as [item|] eqn:E; [|assumption].
  apply IH.
  assert (Hitem : depth item <= b).
  { rewrite Forall_forall in Hl. apply Hl.
    eapply nth_error_In; eassumption. }
  destruct item as [| | |s| |d]; try assumption.
  - destruct (s =? old_value); [|assumption].
    apply Forall_app. split.
    + now apply Forall_remove_first.
    + constructor; [simpl; lia|constructor].
  - apply Forall_list_set; auto.
Qed.

Lemma resolve_item_depth (rec : value -> value)
  (old_value new_value : string) (b : nat) (v : value) :
  (forall x, depth x <= b -> depth (rec x) <= b) ->
  depth v <= b -> depth (resolve_item rec old_value new_value v) <= b.
Proof.
  intros Hrec Hv. destruct v as [| | |s| |]; simpl; auto.
  destruct (old_value =? s); [simpl; lia|].
  destruct (_ && _); [simpl; lia|]. auto.
Qed.

Lemma resolve_names_depth (fuel : nat) (old_value new_value : string) :
  forall v, depth (resolve_names fuel old_value new_value v) <= depth v.
Proof.
  induction fuel as [|fuel IH]; intros v; simpl; [lia|].
  assert (Hrec : forall b x,
             depth x <= b ->
             depth (resolve_names fuel old_value new_value x) <= b).
  { intros b x Hx. specialize (IH x). lia. }
  destruct v as [| | | |l|d]; try lia.
  - rewrite !depth_list. apply le_n_S.
    apply max_depth_Forall. apply list_loop_depth; [apply Hrec|].
    now apply max_depth_Forall.
  - rewrite !depth_dict. apply le_n_S.
    apply max_depth_Forall. rewrite map_map. cbn [snd].
    assert (Hd : Forall (fun x => depth x <= max_depth (map snd d))
                   (map snd d)) by now apply max_depth_Forall.
    rewrite Forall_map in Hd |- *.
    eapply Forall_impl; [|exact Hd]. intros [k x] Hx. cbn [snd] in *.
    apply resolve_item_depth; [apply Hrec|assumption].
Qed.

(** Two recursive calls that agree on the elements give the same loop. *)
Lemma list_loop_ext (rec1 rec2 : value -> value)
  (old_value new_value : string) (b : nat) :
  (forall x, depth x <= b -> rec1 x = rec2 x) ->
  (forall x, depth x <= b -> depth (rec1 x) <= b) ->
  forall steps i l,
    Forall (fun x => depth x <= b) l ->
    list_loop rec1 old_value new_value steps i l
    = list_loop rec2 old_value new_value steps i l.
Proof.
  intros Hext Hrec. induction steps as [|steps IH]; intros i l Hl; simpl;
    [reflexivity|].
  destruct (nth_error l i) as [item|] eqn:E; [|reflexivity].
  assert (Hitem : depth item <= b).
  { rewrite Forall_forall in Hl. apply Hl.
    eapply nth_error_In; eassumption. }
  destruct item as [| | |s| |d]; try (now apply IH).
  - destruct (s =? old_value); [|now apply IH].
    apply IH. apply Forall_app. split.
    + now apply Forall_remove_first.
    + constructor; [simpl; lia|constructor].
  - rewrite <- (Hext _ Hitem). apply IH.
    apply Forall_list_set; auto.
Qed.

Lemma resolve_item_ext (rec1 rec2 : value -> value)
  (old_value new_value : string) (v : value) :
  rec1 v = rec2 v ->
  resolve_item rec1 old_value new_value v
  = resolve_item rec2 old_value new_value v.
Proof.
  intros Hv. destruct v as [| | |s| |]; simpl; auto.
  destruct (old_value =? s); [reflexivity|].
  destruct (_ && _); [reflexivity|]. assumption.
Qed.

(** Any fuel above the depth of the value gives the same result. *)
Lemma resolve_names_fuel (old_value new_value : string) :
  forall fuel1 fuel2 v,
    depth v <= fuel1 -> depth v <= fuel2 ->
    resolve_names fuel1 old_value new_value v
    = resolve_names fuel2 old_value new_value v.
Proof.
  induction fuel1 as [|fuel1 IH]; intros fuel2 v H1 H2.
  - destruct v; simpl in H1; try lia; destruct fuel2; reflexivity.
  - destruct fuel2 as [|fuel2].
    + destruct v; simpl in H2; try lia; reflexivity.
    + destruct v as [| | | |l|d]; try reflexivity.
      * rewrite depth_list in H1, H2. simpl. f_equal.
        apply (list_loop_ext _ _ _ _ (max_depth l)).
        -- intros x Hx. apply IH; lia.
        -- intros x Hx.
           pose proof (resolve_names_depth fuel1 old_value new_value x).
           lia.
        -- now apply max_depth_Forall.
      * rewrite depth_dict in H1, H2. simpl. f_equal.
        apply map_ext_in. intros [k x] Hin. cbn [fst snd]. f_equal.
        apply resolve_item_ext. apply IH.
        -- assert (Hx : depth x <= max_depth (map snd d)).
           { assert (Hall : Forall (fun y => depth y <= max_depth (map snd d))
                              (map snd d)) by now apply max_depth_Forall.
             rewrite Forall_forall in Hall. apply Hall.
             apply (in_map snd) in Hin. exact Hin. }
           lia.
        -- assert (Hx : depth x <= max_depth (map snd d)).
           { assert (Hall : Forall (fun y => depth y <= max_depth (map snd d))
                              (map snd d)) by now apply max_depth_Forall.
             rewrite Forall_forall in Hall. apply Hall.
             apply (in_map snd) in Hin. exact Hin. }
           lia.
Qed.

Lemma resolve_names_enough_fuel (old_value new_value : string)
  (fuel : nat) (v : value) :
  depth v <= fuel ->
  resolve_names fuel old_value new_value v
  = _resolve_names_in_meta v old_value new_value.
Proof.
  intros Hf. unfold _resolve_names_in_meta.
  apply resolve_names_fuel; [assumption|lia].
Qed.

(** ** The rewriting pass: its equations *)

Lemma resolve_dict (old_value new_value : string) (d : dict) :
  _resolve_names_in_meta (VDict d) old_value new_value
  = VDict (map (fun kv =>
                  (fst kv,
                   resolve_item (resolve_with old_value new_value)
                     old_value new_value (snd kv))) d).
Proof.
  unfold _resolve_names_in_meta at 1. rewrite depth_dict. simpl.
  f_equal. apply map_ext_in. intros [k x] Hin. cbn [fst snd]. f_equal.
  apply resolve_item_ext. unfold resolve_with.
  apply resolve_names_enough_fuel.
  assert (Hall : Forall (fun y => depth y <= max_depth (map snd d))
                   (map snd d)) by now apply max_depth_Forall.
  rewrite Forall_forall in Hall. apply Hall.
  apply (in_map snd) in Hin. exact Hin.
Qed.

Lemma resolve_list (old_value new_value : string) (l : list value) :
  _resolve_names_in_meta (VList l) old_value new_value
  = VList (list_loop (resolve_with old_value new_value)
             old_value new_value (length l) 0 l).
Proof.
  unfold _resolve_names_in_meta at 1. rewrite depth_list. simpl.
  f_equal. apply (list_loop_ext _ _ _ _ (max_depth l)).
  - intros x Hx. unfold resolve_with.
    now apply resolve_names_enough_fuel.
  - intros x Hx.
    pose proof (resolve_names_depth (max_depth l) old_value new_value x).
    lia.
  - now apply max_depth_Forall.
Qed.

Lemma resolve_leaf (old_value new_value : string) (v : value) :
  depth v = 0 -> _resolve_names_in_meta v old_value new_value = v.
Proof. unfold _resolve_names_in_meta. now intros ->. Qed.

(** ** Strings *)

Lemma prefix_refl (s : string) : prefix s s = true.
Proof.
  induction s as [|c s IH]; simpl; [reflexivity|].
  destruct (ascii_dec c c); [assumption|congruence].
Qed.

Lemma append_empty_r (s : string) : (s ++ "")%string = s.
Proof. induction s as [|c s IH]; simpl; [reflexivity|now rewrite IH]. Qed.

Lemma str_replace_from_skip (old_value new_value : string) :
  forall s k, String.length s <= k ->
              str_replace_from old_value new_value k s = "".
Proof.
  induction s as [|c s IH]; intros k Hk; simpl; [reflexivity|].
  simpl in Hk. destruct k as [|k]; [lia|]. apply IH. lia.
Qed.

(** [old.replace(old, new)] is [new]. *)
Lemma str_replace_self (old_value new_value : string) :
  str_replace old_value new_value old_value = new_value.
Proof.
  destruct old_value as [|c s]; [reflexivity|].
  unfold str_replace. cbn [str_replace_from].
  rewrite prefix_refl.
  rewrite str_replace_from_skip by (simpl; lia).
  apply append_empty_r.
Qed.

(** The loop body on a string attribute follows the replacement rule. *)
Lemma resolve_item_string (old_value new_value s : string) :
  resolve_item (resolve_with old_value new_value) old_value new_value
    (VStr s)
  = VStr (rewrite_string old_value new_value s).
Proof.
  unfold resolve_item, rewrite_string.
  rewrite (String.eqb_sym s old_value).
  destruct (old_value =? s) eqn:E.
  - apply String.eqb_eq in E. subst s. now rewrite str_replace_self.
  - rewrite andb_comm. destruct (_ && _); reflexivity.
Qed.

Lemma resolve_item_other (old_value new_value : string) (v : value) :
  (forall s, v <> VStr s) ->
  resolve_item (resolve_with old_value new_value) old_value new_value v
  = _resolve_names_in_meta v old_value new_value.
Proof.
  intros Hv. destruct v; try reflexivity. now destruct (Hv s).
Qed.

Lemma dict_lookup_map_values {A B : Type} (f : A -> B) (k : string)
  (d : list (string * A)) :
  dict_lookup k (map (fun kv => (fst kv, f (snd kv))) d)
  = option_map f (dict_lookup k d).
Proof.
  induction d as [|[k' v] d IH]; simpl; [reflexivity|].
  destruct (k =? k'); [reflexivity|assumption].
Qed.

(** ** Lists in which the name does not occur *)

Lemma nth_error_middle {A : Type} (done todo : list A) (x : A) :
  nth_error (done ++ x :: todo) (length done) = Some x.
Proof. induction done as [|y done IH]; simpl; auto. Qed.

Lemma list_set_middle (done todo : list value) (x y : value) :
  list_set (length done) y (done ++ x :: todo) = done ++ y :: todo.
Proof.
  induction done as [|z done IH]; simpl; [reflexivity|]. now rewrite IH.
Qed.

Lemma list_loop_clean_from (rec : value -> value)
  (old_value new_value : string) :
  forall todo done,
    ~ In (VStr old_value) todo ->
    list_loop rec old_value new_value (length todo) (length done)
      (done ++ todo)
    = done ++ map (resolve_element rec) todo.
Proof.
  induction todo as [|x todo IH]; intros done Hclean; simpl;
    [reflexivity|].
  rewrite nth_error_middle.
  assert (Hrest : ~ In (VStr old_value) todo)
    by (intros Hin; apply Hclean; now right).
  assert (Hnext : forall y,
             list_loop rec old_value new_value (length todo)
               (S (length done)) (done ++ y :: todo)
             = done ++ y :: map (resolve_element rec) todo).
  { intros y. specialize (IH (done ++ [y]) Hrest).
    rewrite <- !app_assoc, length_app in IH. simpl in IH.
    rewrite Nat.add_1_r in IH. exact IH. }
  destruct x as [| | |s| |d]; simpl; try apply Hnext.
  - destruct (s =? old_value) eqn:E; [|apply Hnext].
    apply String.eqb_eq in E. subst s. exfalso. apply Hclean. now left.
  - rewrite list_set_middle. apply Hnext.
Qed.

(** Without the name among its elements, a list keeps its elements in
    place and its dictionaries are rewritten. *)
Lemma resolve_list_clean (old_value new_value : string) (l : list value) :
  ~ In (VStr old_value) l ->
  _resolve_names_in_meta (VList l) old_value new_value
  = VList (map (resolve_element (resolve_with old_value new_value)) l).
Proof.
  intros Hclean. rewrite resolve_list. f_equal.
  exact (list_loop_clean_from _ _ _ l [] Hclean).
Qed.

(** ** Rewriting along a path *)

Lemma reaches_not_string (old_value : string) (v : value)
  (p : list step) (d : dict) :
  reaches old_value v p (VDict d) -> forall s, v <> VStr s.
Proof. intros Hr s ->. inversion Hr. Qed.

Lemma resolve_element_clean (old_value new_value : string)
  (l : list value) :
  ~ In (VStr old_value) l ->
  ~ In (VStr old_value)
      (map (resolve_element (resolve_with old_value new_value)) l).
Proof.
  intros Hclean Hin. apply in_map_iff in Hin as (x & Hx & Hin).
  destruct x as [| | | | |d]; cbn [resolve_element] in Hx;
    try (rewrite Hx in Hin; now apply Hclean).
  unfold resolve_with in Hx. rewrite resolve_dict in Hx. discriminate.
Qed.

(** A dictionary reached through dictionaries and name-free lists is
    reached by the same path after the pass, rewritten. *)
Lemma reaches_resolve (old_value new_value : string) (v w : value)
  (p : list step) :
  reaches old_value v p w ->
  (exists d, w = VDict d) ->
  reaches old_value (_resolve_names_in_meta v old_value new_value) p
    (_resolve_names_in_meta w old_value new_value).
Proof.
  induction 1 as [v|d k v p w Hk Hr IH|l i d p w Hn Hclean Hr IH];
    intros [dw ->].
  - constructor.
  - rewrite resolve_dict. econstructor.
    + rewrite dict_lookup_map_values, Hk. cbn [option_map].
      rewrite resolve_item_other by (eapply reaches_not_string; eassumption).
      reflexivity.
    + apply IH. eauto.
  - rewrite (resolve_list_clean _ _ _ Hclean).
    specialize (IH (ex_intro _ dw eq_refl)).
    pose proof (resolve_dict old_value new_value d) as Hd.
    rewrite Hd in IH. eapply reaches_index; [| |exact IH].
    + rewrite nth_error_map, Hn. cbn [option_map resolve_element].
      unfold resolve_with at 1. now rewrite Hd.
    + exact (resolve_element_clean _ _ _ Hclean).
Qed.

(** One rewriting pass, in the dictionary branch: a string that is the
    value of an attribute, in a dictionary reached through dictionaries
    and through dictionaries that are elements of lists without the old
    name, follows the replacement rule: equal to the old name, it becomes
    the new name; starting with "arn" and containing the old name, it has
    the occurrences replaced; otherwise it is unchanged. *)
Theorem names_are_rewritten_in_attributes
  (old_value new_value : string) :
  (forall root p d k s,
      reaches old_value root p (VDict d) ->
      dict_lookup k d = Some (VStr s) ->
      exists d',
        reaches old_value
          (_resolve_names_in_meta root old_value new_value) p (VDict d')
        /\ dict_lookup k d'
           = Some (VStr (rewrite_string old_value new_value s)))
  /\ (forall overall_meta overall_meta' popped p d k s,
         dict_lookup old_value overall_meta = Some popped ->
         rename_resource overall_meta old_value new_value
         = Ok overall_meta' ->
         reaches old_value
           (VDict (dict_set new_value popped
                     (dict_remove old_value overall_meta))) p (VDict d) ->
         dict_lookup k d = Some (VStr s) ->
         exists d',
           reaches old_value (VDict overall_meta') p (VDict d')
           /\ dict_lookup k d'
              = Some (VStr (rewrite_string old_value new_value s))).
Proof.
  assert (Hpass : forall root p d k s,
             reaches old_value root p (VDict d) ->
             dict_lookup k d = Some (VStr s) ->
             exists d',
               reaches old_value
                 (_resolve_names_in_meta root old_value new_value) p
                 (VDict d')
               /\ dict_lookup k d'
                  = Some (VStr (rewrite_string old_value new_value s))).
  { intros root p d k s Hr Hk.
    pose proof (reaches_resolve old_value new_value _ _ _ Hr
                  (ex_intro _ d eq_refl)) as Hr'.
    rewrite (resolve_dict old_value new_value d) in Hr'.
    eexists. split; [exact Hr'|].
    rewrite dict_lookup_map_values, Hk. cbn [option_map].
    now rewrite resolve_item_string. }
  split; [exact Hpass|].
  intros overall_meta overall_meta' popped p d k s Hpop Hrename Hr Hk.
  unfold rename_resource in Hrename.
  rewrite (subscript_lookup _ _ _ Hpop) in Hrename. cbn [bind] in Hrename.
  assert (Hmeta : overall_meta'
                  = dict_of (_resolve_names_in_meta
                               (VDict (dict_set new_value popped
                                         (dict_remove old_value
                                            overall_meta)))
                               old_value new_value)) by congruence.
  clear Hrename. subst overall_meta'.
  destruct (Hpass _ _ _ _ _ Hr Hk) as (d' & Hr' & Hk').
  exists d'. split; [|exact Hk'].
  rewrite resolve_dict in Hr' |- *. cbn [dict_of]. exact Hr'.
Qed.

(** ** Lists in which the name occurs, never twice in a row *)

Lemma py_eq_name (old_value : string) (y : value) :
  py_eq y (VStr old_value) = is_name old_value y.
Proof. destruct y; reflexivity. Qed.

Lemma remove_first_name (old_value : string) (done rest : list value) :
  (forall x, In x done -> is_name old_value x = false) ->
  remove_first (VStr old_value) (done ++ VStr old_value :: rest)
  = done ++ rest.
Proof.
  induction done as [|y done IH]; intros Hdone; simpl.
  - now rewrite String.eqb_refl.
  - rewrite py_eq_name, (Hdone y (or_introl eq_refl)).
    rewrite IH; [reflexivity|]. intros x Hin. apply Hdone. now right.
Qed.

Lemma resolve_element_no_dict (rec : value -> value) (l : list value) :
  forallb no_dict l = true -> map (resolve_element rec) l = l.
Proof.
  induction l as [|x l IH]; simpl; [reflexivity|].
  rewrite andb_true_iff. intros [Hx Hl]. rewrite IH by assumption.
  now destruct x.
Qed.

Lemma repeat_snoc {A : Type} (x : A) (k : nat) :
  repeat x k ++ [x] = repeat x (S k).
Proof. induction k as [|k IH]; simpl; [reflexivity|now rewrite IH]. Qed.

(** The loop, from the position after [done], on the elements [todo]
    followed by the [k] replacements appended so far. *)
Lemma list_loop_names (rec : value -> value) (old_value new_value : string) :
  old_value <> new_value ->
  forall n todo done k,
    length todo <= n ->
    forallb no_dict todo = true ->
    no_adjacent_names old_value todo = true ->
    (forall x, In x done -> is_name old_value x = false) ->
    list_loop rec old_value new_value (length todo + k) (length done)
      (done ++ todo ++ repeat (VStr new_value) k)
    = done ++ filter (fun x => negb (is_name old_value x)) todo
        ++ repeat (VStr new_value)
             (k + length (filter (is_name old_value) todo)).
Proof.
  intros Hne.
  assert (Hnew : is_name old_value (VStr new_value) = false).
  { simpl. apply String.eqb_neq. congruence. }
  assert (Htail : forall done k,
             list_loop rec old_value new_value k (length done)
               (done ++ repeat (VStr new_value) k)
             = done ++ repeat (VStr new_value) k).
  { intros done k.
    pose proof (list_loop_clean_from rec old_value new_value
                  (repeat (VStr new_value) k) done) as Hclean.
    rewrite repeat_length in Hclean. rewrite Hclean.
    - rewrite resolve_element_no_dict; [reflexivity|].
      clear. induction k; simpl; auto.
    - intros Hin. apply repeat_spec in Hin. congruence. }
  induction n as [|n IH]; intros todo done k Hlen Hnd Hadj Hdone.
  - destruct todo; [|simpl in Hlen; lia]. simpl.
    rewrite Nat.add_0_r. apply Htail.
  - destruct todo as [|x todo]; [simpl; rewrite Nat.add_0_r; apply Htail|].
    cbn [length Nat.add list_loop].
    replace (done ++ (x :: todo) ++ repeat (VStr new_value) k)
      with (done ++ x :: (todo ++ repeat (VStr new_value) k))
      by reflexivity.
    rewrite nth_error_middle.
    cbn [forallb] in Hnd. apply andb_true_iff in Hnd as [Hx Hnd].
    assert (Hadj' : no_adjacent_names old_value todo = true).
    { cbn [no_adjacent_names] in Hadj.
      now apply andb_true_iff in Hadj as [_ Hadj]. }
    assert (Hkeep : is_name old_value x = false ->
               list_loop rec old_value new_value (length todo + k)
                 (S (length done))
                 (done ++ x :: todo ++ repeat (VStr new_value) k)
               = done
                   ++ filter (fun x => negb (is_name old_value x)) (x :: todo)
                   ++ repeat (VStr new_value)
                        (k + length (filter (is_name old_value) (x :: todo)))).
    { intros Hxn.
      specialize (IH todo (done ++ [x]) k).
      rewrite length_app in IH. simpl in IH. rewrite Nat.add_1_r in IH.
      rewrite <- !app_assoc in IH. simpl in IH.
      cbn [filter]. rewrite Hxn. cbn [negb]. simpl.
      apply IH; auto.
      - simpl in Hlen. lia.
      - intros y Hin. apply in_app_iff in Hin as [Hin|[<-|[]]]; auto. }
    destruct x as [| | |s| |d]; try (apply Hkeep; reflexivity);
      [|discriminate Hx].
    destruct (s =? old_value) eqn:Es; [|apply Hkeep; exact Es].
    apply String.eqb_eq in Es. subst s.
    rewrite (remove_first_name _ _ _ Hdone).
    cbn [filter is_name]. rewrite String.eqb_refl. cbn [negb length].
    rewrite <- !app_assoc, repeat_snoc.
    destruct todo as [|y todo].
    + pose proof (Htail (done ++ [VStr new_value]) k) as Ht.
      rewrite length_app, <- app_assoc in Ht. simpl in Ht.
      rewrite Nat.add_1_r in Ht. simpl.
      replace (k + 1) with (S k) by lia. exact Ht.
    + assert (Hy : is_name old_value y = false).
      { cbn [no_adjacent_names is_name] in Hadj.
        rewrite String.eqb_refl in Hadj. cbn [andb] in Hadj.
        apply andb_true_iff in Hadj as [Hadj _].
        now destruct (is_name old_value y). }
      cbn [forallb] in Hnd. apply andb_true_iff in Hnd as [Hyd Hnd].
      assert (Hadj'' : no_adjacent_names old_value todo = true).
      { cbn [no_adjacent_names] in Hadj'.
        now apply andb_true_iff in Hadj' as [_ Hadj']. }
      specialize (IH todo (done ++ [y]) (S k)).
      rewrite length_app in IH. simpl in IH. rewrite Nat.add_1_r in IH.
      rewrite <- !app_assoc in IH. simpl in IH.
      cbn [filter length]. rewrite Hy. cbn [negb].
      cbn [length Nat.add]. simpl.
      replace (length todo + S k) with (S (length todo + k)) in IH by lia.
      replace (k + S (length (filter (is_name old_value) todo)))
        with (S (k + length (filter (is_name old_value) todo))) by lia.
      apply IH; auto.
      * simpl in Hlen. lia.
      * intros z Hin. apply in_app_iff in Hin as [Hin|[<-|[]]]; auto.
Qed.

(** In a list of strings and numbers in which the name never occurs twice
    in a row, every occurrence of the name is removed, the other elements
    keep their order, and one new name per occurrence is appended. *)
Lemma names_in_a_list_move_to_the_end (old_value new_value : string)
  (l : list value) :
  old_value <> new_value ->
  forallb no_dict l = true ->
  no_adjacent_names old_value l = true ->
  _resolve_names_in_meta (VList l) old_value new_value
  = VList (filter (fun x => negb (is_name old_value x)) l
             ++ repeat (VStr new_value)
                  (length (filter (is_name old_value) l))).
Proof.
  intros Hne Hnd Hadj. rewrite resolve_list. f_equal.
  pose proof (list_loop_names (resolve_with old_value new_value)
                old_value new_value Hne (length l) l [] 0
                (le_n _) Hnd Hadj) as Hloop.
  simpl in Hloop. rewrite Nat.add_0_r, app_nil_r in Hloop.
  apply Hloop. intros x [].
Qed.

(** ** New names *)

Lemma length_append (a b : string) :
  String.length (a ++ b) = String.length a + String.length b.
Proof. induction a as [|c a IH]; simpl; [reflexivity|now rewrite IH]. Qed.

Lemma append_inv_head (p a b : string) :
  (p ++ a)%string = (p ++ b)%string -> a = b.
Proof.
  induction p as [|c p IH]; simpl; [auto|].
  intros Heq. injection Heq. exact IH.
Qed.

Lemma append_inv_tail (s : string) :
  forall a b, (a ++ s)%string = (b ++ s)%string -> a = b.
Proof.
  induction a as [|c a IH]; intros [|c' b] Heq; simpl in Heq.
  - reflexivity.
  - apply (f_equal String.length) in Heq. simpl in Heq.
    rewrite length_append in Heq. lia.
  - apply (f_equal String.length) in Heq. simpl in Heq.
    rewrite length_append in Heq. lia.
  - injection Heq as -> Heq. f_equal. now apply IH.
Qed.

(** The new name is the resolved prefix, the name and the resolved
    suffix. *)
Lemma resolve_resource_name_eq (name : string) :
  resolve_resource_name name
  = (resolved_prefix ++ name ++ resolved_suffix)%string.
Proof.
  unfold resolve_resource_name, _resolve_suffix_name, _resolve_prefix_name,
    resolved_prefix, resolved_suffix.
  destruct (configured (resources_prefix CONFIG)) as [p|];
    destruct (configured (resources_suffix CONFIG)) as [s|]; simpl.
  - clear. induction (resolve_aliases_for_string p) as [|c q IH]; simpl;
      [reflexivity|now rewrite IH].
  - clear. induction (resolve_aliases_for_string p) as [|c q IH]; simpl;
      [now rewrite append_empty_r|now rewrite IH].
  - reflexivity.
  - now rewrite append_empty_r.
Qed.

Lemma resolve_resource_name_inj (a b : string) :
  resolve_resource_name a = resolve_resource_name b -> a = b.
Proof.
  rewrite !resolve_resource_name_eq. intros Heq.
  apply append_inv_head in Heq. now apply append_inv_tail in Heq.
Qed.

(** ** More on dictionaries *)

Lemma dict_set_fresh {A : Type} (k : string) (v : A) d :
  ~ In k (dict_keys d) -> dict_set k v d = d ++ [(k, v)].
Proof.
  induction d as [|[k' v'] d IH]; simpl; [reflexivity|].
  intros Hn. destruct (k =? k') eqn:E.
  - apply String.eqb_eq in E. subst. tauto.
  - rewrite IH by tauto. reflexivity.
Qed.

Lemma dict_lookup_app {A : Type} (k : string) (d1 d2 : list (string * A)) :
  dict_lookup k (d1 ++ d2)
  = match dict_lookup k d1 with
    | Some v => Some v
    | None => dict_lookup k d2
    end.
Proof.
  induction d1 as [|[k' v'] d1 IH]; simpl; [reflexivity|].
  destruct (k =? k'); [reflexivity|assumption].
Qed.

Lemma dict_lookup_remove_neq {A : Type} (k c : string)
  (d : list (string * A)) :
  k <> c -> dict_lookup k (dict_remove c d) = dict_lookup k d.
Proof.
  intros Hne. induction d as [|[k' v'] d IH]; simpl; [reflexivity|].
  destruct (c =? k') eqn:E; simpl.
  - apply String.eqb_eq in E. subst k'.
    apply String.eqb_neq in Hne. now rewrite Hne.
  - now rewrite IH.
Qed.

Lemma dict_keys_remove {A : Type} (k c : string) (d : list (string * A)) :
  In k (dict_keys (dict_remove c d)) -> In k (dict_keys d).
Proof.
  induction d as [|[k' v'] d IH]; simpl; [tauto|].
  destruct (c =? k'); simpl; tauto.
Qed.

Lemma dict_remove_NoDup {A : Type} (c : string) (d : list (string * A)) :
  NoDup (dict_keys d) ->
  NoDup (dict_keys (dict_remove c d))
  /\ ~ In c (dict_keys (dict_remove c d)).
Proof.
  induction d as [|[k' v'] d IH]; simpl;
    [intros _; split; [constructor|tauto]|].
  intros Hnd. inversion Hnd as [|? ? Hnotin Hnd']; subst.
  destruct (c =? k') eqn:E; simpl.
  - apply String.eqb_eq in E. subst k'. split; assumption.
  - apply String.eqb_neq in E. destruct (IH Hnd') as [H1 H2]. split.
    + constructor; [|assumption].
      intros Hin. apply Hnotin. eapply dict_keys_remove; eassumption.
    + intros [Heq|Hin]; [congruence|tauto].
Qed.

Lemma dict_remove_length {A : Type} (c : string) (d : list (string * A)) :
  In c (dict_keys d) -> S (length (dict_remove c d)) = length d.
Proof.
  induction d as [|[k' v'] d IH]; simpl; [tauto|].
  destruct (c =? k') eqn:E; simpl; [reflexivity|].
  apply String.eqb_neq in E. intros [Heq|Hin]; [congruence|].
  now rewrite IH.
Qed.

Lemma dict_keys_map_values {A B : Type} (f : A -> B)
  (d : list (string * A)) :
  dict_keys (map (fun kv => (fst kv, f (snd kv))) d) = dict_keys d.
Proof. unfold dict_keys. rewrite map_map. reflexivity. Qed.

(** ** The renamings that are recorded *)

Lemma renames_In (overall_meta : dict) (c r : string) :
  In (c, r) (renames overall_meta) <->
  exists v, In (c, v) overall_meta /\ eligible v = true
            /\ r = resolve_resource_name c /\ r <> c.
Proof.
  unfold renames. rewrite in_flat_map. split.
  - intros ([k v] & Hin & Hcr). cbn [fst snd] in Hcr.
    destruct (eligible v) eqn:Ee; cbn [andb] in Hcr; [|destruct Hcr].
    destruct (k =? resolve_resource_name k) eqn:En; cbn [negb] in Hcr;
      [destruct Hcr|].
    destruct Hcr as [Heq|[]]. inversion Heq; subst.
    apply String.eqb_neq in En. exists v. repeat split; auto.
  - intros (v & Hin & He & -> & Hne). exists (c, v). split; [assumption|].
    cbn [fst snd]. rewrite He. cbn [andb].
    assert (En : (c =? resolve_resource_name c) = false)
      by (apply String.eqb_neq; congruence).
    rewrite En. now left.
Qed.

Lemma renames_keys (overall_meta : dict) (c : string) :
  In c (map fst (renames overall_meta)) -> In c (dict_keys overall_meta).
Proof.
  intros Hin. apply in_map_iff in Hin as ([c' r] & Heq & Hin).
  cbn [fst] in Heq. subst c'.
  apply renames_In in Hin as (v & Hin & _).
  apply (in_map fst) in Hin. exact Hin.
Qed.

Lemma renames_NoDup (overall_meta : dict) :
  NoDup (dict_keys overall_meta) -> NoDup (map fst (renames overall_meta)).
Proof.
  induction overall_meta as [|[k v] meta IH]; simpl; [constructor|].
  intros Hnd. inversion Hnd as [|? ? Hnotin Hnd']; subst.
  destruct (eligible v && negb (k =? resolve_resource_name k));
    [|now apply IH].
  simpl. constructor; [|now apply IH].
  intros Hin. apply Hnotin. now apply renames_keys.
Qed.

(** The second loop of [resolve_meta] records exactly the renamings. *)
Lemma collect_from (overall_meta : dict) :
  forall resolved_names,
    NoDup (dict_keys overall_meta) ->
    entries_have_type overall_meta ->
    (forall k, In k (dict_keys overall_meta) ->
               ~ In k (dict_keys resolved_names)) ->
    for_fold (fun resolved_names kv =>
                let (name, res_meta) := kv : string * value in
                resource_type <- subscript_value res_meta "resource_type" ;;
                if negb (hashable resource_type) then Raise TypeError else
                if value_in_keys resource_type GLOBAL_AWS_SERVICES then
                  let resolved_name := resolve_resource_name name in
                  if negb (name =? resolved_name)
                  then Ok (dict_set name resolved_name resolved_names)
                  else Ok resolved_names
                else Ok resolved_names)
      overall_meta resolved_names
    = Ok (resolved_names ++ renames overall_meta).
Proof.
  induction overall_meta as [|[k v] meta IH]; intros acc Hnd Hty Hdisj.
  - simpl. now rewrite app_nil_r.
  - inversion Hnd as [|? ? Hnotin Hnd']; subst.
    destruct (Hty k v (or_introl eq_refl)) as (entry & t & -> & Ht & Hh).
    assert (Hty' : entries_have_type meta).
    { intros n w Hin. apply (Hty n w). now right. }
    cbn [for_fold subscript_value]. rewrite (subscript_lookup _ _ _ Ht).
    cbn [bind]. rewrite Hh. cbn [negb]. unfold renames. cbn [flat_map fst snd eligible].
    rewrite (dict_get_lookup _ _ _ Ht).
    destruct (value_in_keys t GLOBAL_AWS_SERVICES); cbn [andb].
    + destruct (k =? resolve_resource_name k); cbn [negb bind].
      * rewrite IH; auto. intros k' Hin. apply Hdisj. now right.
      * rewrite IH; auto.
        -- rewrite dict_set_fresh by (apply Hdisj; now left).
           now rewrite <- app_assoc.
        -- intros k' Hin.
           rewrite dict_set_fresh by (apply Hdisj; now left).
           unfold dict_keys. rewrite map_app, in_app_iff. simpl.
           intros [Hacc|[Heq|[]]].
           ++ eapply Hdisj; [right; exact Hin|exact Hacc].
           ++ subst k'. contradiction.
    + cbn [bind]. rewrite IH; auto.
      intros k' Hin. apply Hdisj. now right.
Qed.

Lemma collect_resolved_names_eq (overall_meta : dict) :
  NoDup (dict_keys overall_meta) ->
  entries_have_type overall_meta ->
  collect_resolved_names overall_meta = Ok (renames overall_meta).
Proof.
  intros Hnd Hty. unfold collect_resolved_names.
  rewrite collect_from; auto.
Qed.

Lemma renames_renaming_of (overall_meta : dict) (c r : string) :
  NoDup (dict_keys overall_meta) ->
  In (c, r) (renames overall_meta) -> renaming_of overall_meta c r.
Proof.
  intros Hnd Hin. apply renames_In in Hin as (v & Hin & He & Hr & Hne).
  exists v. repeat split; auto. now apply dict_lookup_NoDup.
Qed.

(** The key an entry ends under is the one the claim names. *)
Lemma key_after_renames (overall_meta : dict) (name : string) (v : value) :
  NoDup (dict_keys overall_meta) ->
  dict_lookup name overall_meta = Some v ->
  key_after (renames overall_meta) name = new_key name v.
Proof.
  intros Hnd Hl. unfold key_after, new_key.
  destruct (dict_lookup name (renames overall_meta)) as [r|] eqn:E.
  - apply dict_lookup_In in E.
    apply renames_In in E as (v' & Hin & He & -> & Hne).
    apply (dict_lookup_NoDup _ _ _ Hnd) in Hin.
    assert (v' = v) by congruence. subst v'. now rewrite He.
  - destruct (eligible v) eqn:He; [|reflexivity].
    destruct (String.eqb_spec (resolve_resource_name name) name) as [Heq|Hne];
      [congruence|].
    exfalso. apply dict_lookup_None in E. apply E.
    apply (in_map fst _ (name, resolve_resource_name name)).
    apply renames_In. exists v. repeat split; auto.
    now apply dict_lookup_In.
Qed.

(** ** The third loop of [resolve_meta] *)

Lemma NoDup_snoc {A : Type} (l : list A) (x : A) :
  NoDup l -> ~ In x l -> NoDup (l ++ [x]).
Proof.
  induction 1 as [|y l Hy Hnd IH]; simpl; intros Hx.
  - constructor; [tauto|constructor].
  - constructor.
    + rewrite in_app_iff. simpl. intros [Hin|[Heq|[]]]; [tauto|].
      subst. tauto.
    + apply IH. tauto.
Qed.

Lemma key_after_snoc (done : list (string * string)) (c r name : string) :
  key_after (done ++ [(c, r)]) name
  = match dict_lookup name done with
    | Some r' => r'
    | None => if name =? c then r else name
    end.
Proof.
  unfold key_after. rewrite dict_lookup_app. simpl.
  destruct (dict_lookup name done); [reflexivity|].
  now destruct (name =? c).
Qed.

Lemma rewritten_snoc (done : list (string * string)) (c r : string)
  (v : value) :
  rewritten (done ++ [(c, r)]) v
  = resolve_item (resolve_with c r) c r (rewritten done v).
Proof. unfold rewritten. now rewrite fold_left_app. Qed.

(** One renaming, when the new name is not yet a key: the entry goes to
    the end under its new name and every entry is rewritten. *)
Lemma rename_resource_fresh (overall_meta : dict) (c r : string)
  (popped : value) :
  dict_lookup c overall_meta = Some popped ->
  ~ In r (dict_keys overall_meta) ->
  rename_resource overall_meta c r
  = Ok (map (fun kv => (fst kv,
                        resolve_item (resolve_with c r) c r (snd kv)))
          (dict_remove c overall_meta ++ [(r, popped)])).
Proof.
  intros Hpop Hfresh. unfold rename_resource.
  rewrite (subscript_lookup _ _ _ Hpop). cbn [bind].
  rewrite resolve_dict. cbn [dict_of].
  rewrite dict_set_fresh; [reflexivity|].
  intros Hin. apply Hfresh. eapply dict_keys_remove; eassumption.
Qed.

Lemma rename_loop (overall_meta : dict) :
  NoDup (dict_keys overall_meta) ->
  new_names_are_fresh overall_meta ->
  forall todo done meta,
    NoDup (map fst (done ++ todo)) ->
    (forall c r, In (c, r) (done ++ todo) -> renaming_of overall_meta c r) ->
    NoDup (dict_keys meta) ->
    (forall name v,
        dict_lookup name overall_meta = Some v ->
        dict_lookup (key_after done name) meta = Some (rewritten done v)) ->
    (forall k, In k (dict_keys meta) ->
               exists name, In name (dict_keys overall_meta)
                            /\ k = key_after done name) ->
    length meta = length overall_meta ->
    exists meta',
      for_fold (fun meta kv => rename_resource meta (fst kv) (snd kv))
        todo meta = Ok meta'
      /\ NoDup (dict_keys meta')
      /\ (forall k, In k (dict_keys meta') ->
                    exists name, In name (dict_keys overall_meta)
                                 /\ k = key_after (done ++ todo) name)
      /\ forall name v,
          dict_lookup name overall_meta = Some v ->
          dict_lookup (key_after (done ++ todo) name) meta'
          = Some (rewritten (done ++ todo) v).
Proof.
  intros Hnd0 Hfresh.
  induction todo as [|[c r] todo IH];
    intros done meta Hnd Hren Hndm Hentries Hkeys Hlen.
  - exists meta. rewrite app_nil_r. auto.
  - destruct (Hren c r) as (vc & Hvc & Helig & Hr & Hne);
      [apply in_or_app; right; now left|].
    assert (Hc_done : dict_lookup c done = None).
    { apply dict_lookup_None. unfold dict_keys.
      rewrite map_app in Hnd. simpl in Hnd.
      apply NoDup_remove_2 in Hnd. rewrite in_app_iff in Hnd. tauto. }
    assert (Hdone : forall n r', dict_lookup n done = Some r' ->
                                 r' = resolve_resource_name n
                                 /\ In n (dict_keys overall_meta)
                                 /\ ~ In r' (dict_keys overall_meta)).
    { intros n r' Hl. apply dict_lookup_In in Hl.
      destruct (Hren n r') as (vn & Hvn & Hen & Hrn & Hnn);
        [apply in_or_app; now left|].
      split; [assumption|]. split.
      - apply dict_lookup_Some_key. eauto.
      - subst r'. eapply Hfresh; eauto; congruence. }
    assert (Hr_meta : ~ In r (dict_keys overall_meta)).
    { subst r. eapply Hfresh; eauto; congruence. }
    assert (Hc_meta : In c (dict_keys overall_meta)).
    { apply dict_lookup_Some_key. eauto. }
    pose proof (Hentries c vc Hvc) as Hpop.
    unfold key_after in Hpop. rewrite Hc_done in Hpop.
    assert (Hr_fresh : ~ In r (dict_keys meta)).
    { intros Hin. destruct (Hkeys r Hin) as (n & Hn & Heq).
      unfold key_after in Heq.
      destruct (dict_lookup n done) as [r'|] eqn:En.
      - subst r'. destruct (Hdone _ _ En) as (Hrn & _ & _).
        assert (c = n) by (apply resolve_resource_name_inj; congruence).
        subst n. congruence.
      - subst n. contradiction. }
    cbn [for_fold fst snd].
    rewrite (rename_resource_fresh _ _ _ _ Hpop Hr_fresh). cbn [bind].
    set (f := resolve_item (resolve_with c r) c r).
    set (meta1 := map (fun kv : string * value => (fst kv, f (snd kv)))
                    (dict_remove c meta ++ [(r, rewritten done vc)])).
    destruct (dict_remove_NoDup c meta Hndm) as [Hnd_rem Hc_rem].
    assert (Hlook : forall k,
               dict_lookup k meta1
               = option_map f
                   (if k =? c then None
                    else match dict_lookup k meta with
                         | Some v => Some v
                         | None => if k =? r then Some (rewritten done vc)
                                   else None
                         end)).
    { intros k. unfold meta1.
      rewrite dict_lookup_map_values, dict_lookup_app. f_equal.
      destruct (String.eqb_spec k c) as [->|Hkc].
      - apply dict_lookup_None in Hc_rem. rewrite Hc_rem. simpl.
        destruct (String.eqb_spec c r); [congruence|reflexivity].
      - rewrite dict_lookup_remove_neq by assumption.
        destruct (dict_lookup k meta); [reflexivity|]. simpl.
        now destruct (k =? r). }
    destruct (IH (done ++ [(c, r)]) meta1)
      as (meta' & Hrun & Hnd' & Hkeys' & Hfin).
    + now rewrite <- app_assoc.
    + intros c' r' Hin. apply Hren. now rewrite <- app_assoc in Hin.
    + unfold meta1. rewrite dict_keys_map_values.
      unfold dict_keys. rewrite map_app. simpl.
      apply NoDup_snoc; [exact Hnd_rem|].
      intros Hin. apply Hr_fresh. eapply dict_keys_remove; exact Hin.
    + intros name v Hv. rewrite key_after_snoc, rewritten_snoc. fold f.
      rewrite Hlook. specialize (Hentries name v Hv).
      unfold key_after in Hentries.
      destruct (dict_lookup name done) as [r'|] eqn:En.
      * destruct (Hdone _ _ En) as (Hrn & Hn_meta & Hr'_meta).
        destruct (String.eqb_spec r' c) as [->|_]; [contradiction|].
        now rewrite Hentries.
      * destruct (String.eqb_spec name c) as [->|Hnc].
        -- destruct (String.eqb_spec r c) as [->|_]; [contradiction|].
           assert (v = vc) by congruence. subst v.
           destruct (dict_lookup r meta) as [w|] eqn:Er.
           ++ exfalso. apply Hr_fresh. apply dict_lookup_Some_key. eauto.
           ++ now rewrite String.eqb_refl.
        -- apply String.eqb_neq in Hnc. rewrite Hnc.
           now rewrite Hentries.
    + intros k Hin. unfold meta1 in Hin.
      rewrite dict_keys_map_values in Hin. unfold dict_keys in Hin.
      rewrite map_app, in_app_iff in Hin. simpl in Hin.
      destruct Hin as [Hin|[<-|[]]].
      * assert (Hkc : k <> c) by (intros ->; contradiction).
        apply dict_keys_remove in Hin.
        destruct (Hkeys k Hin) as (n & Hn & Heq).
        exists n. split; [assumption|]. rewrite key_after_snoc.
        unfold key_after in Heq.
        destruct (dict_lookup n done); [assumption|].
        subst n. apply String.eqb_neq in Hkc. now rewrite Hkc.
      * exists c. split; [assumption|]. rewrite key_after_snoc.
        now rewrite Hc_done, String.eqb_refl.
    + unfold meta1. rewrite length_map, length_app. simpl.
      assert (Hc_in : In c (dict_keys meta))
        by (apply dict_lookup_Some_key; eauto).
      pose proof (dict_remove_length c meta Hc_in). lia.
    + exists meta'. rewrite <- app_assoc in Hfin, Hkeys'.
      simpl in Hfin, Hkeys'. auto.
Qed.

Lemma renames_none (overall_meta : dict) :
  GLOBAL_AWS_SERVICES = [] -> renames overall_meta = [].
Proof.
  intros Hempty. unfold renames.
  induction overall_meta as [|[k v] meta IH]; simpl; [reflexivity|].
  rewrite IH.
  assert (He : eligible v = false).
  { destruct v; try reflexivity. simpl. rewrite Hempty.
    now destruct (dict_get "resource_type" d). }
  now rewrite He.
Qed.

(** C2, as the code has it: in a dictionary whose entries all have a
    resource type that can be hashed, and when no new name is already a
    key, the renaming pass moves every entry whose resource type is
    eligible to the key made of the resolved prefix, its name and the
    resolved suffix, and leaves the other entries under their key; the
    entries themselves are rewritten by the passes of the renamings.
    With no eligible type the dictionary is the one the alias pass
    returns. *)
Theorem eligible_entries_are_renamed (overall_meta : dict) :
  NoDup (dict_keys (resolve_aliases overall_meta)) ->
  entries_have_type (resolve_aliases overall_meta) ->
  new_names_are_fresh (resolve_aliases overall_meta) ->
  exists overall_meta',
    resolve_meta overall_meta = Ok overall_meta'
    /\ (forall name v,
           dict_lookup name (resolve_aliases overall_meta) = Some v ->
           dict_lookup (new_key name v) overall_meta'
           = Some (rewritten (renames (resolve_aliases overall_meta)) v))
    /\ (forall k,
           In k (dict_keys overall_meta') ->
           exists name v,
             dict_lookup name (resolve_aliases overall_meta) = Some v
             /\ k = new_key name v)
    /\ NoDup (dict_keys overall_meta')
    /\ (forall name,
           resolve_resource_name name
           = (resolved_prefix ++ name ++ resolved_suffix)%string)
    /\ (GLOBAL_AWS_SERVICES = [] ->
        overall_meta' = resolve_aliases overall_meta).
Proof.
  set (meta := resolve_aliases overall_meta).
  intros Hnd Hty Hfresh.
  destruct (rename_loop meta Hnd Hfresh (renames meta) [] meta)
    as (meta' & Hrun & Hnd' & Hkeys & Hfin).
  - now apply renames_NoDup.
  - intros c r Hin. now apply renames_renaming_of.
  - exact Hnd.
  - intros name v Hv. exact Hv.
  - intros k Hin. exists k. split; [assumption|reflexivity].
  - reflexivity.
  - exists meta'. split; [|split; [|split; [|split; [|split]]]].
    + unfold resolve_meta. fold meta.
      rewrite (collect_resolved_names_eq _ Hnd Hty). cbn [bind].
      exact Hrun.
    + intros name v Hv. rewrite <- (key_after_renames _ _ _ Hnd Hv).
      now apply Hfin.
    + intros k Hin. destruct (Hkeys k Hin) as (name & Hname & ->).
      apply dict_lookup_Some_key in Hname as [v Hv].
      exists name, v. split; [assumption|].
      now apply key_after_renames.
    + exact Hnd'.
    + apply resolve_resource_name_eq.
    + intros Hempty. rewrite (renames_none _ Hempty) in Hrun.
      simpl in Hrun. congruence.
Qed.

(** * Further properties *)

(** ** The storage location, once derived *)

Lemma location_not_empty (bundle_name part : string) :
  truthy (VStr (bundle_name ++ "/" ++ part)) = true.
Proof. destruct bundle_name; reflexivity. Qed.

Lemma build_path_shape (bundle_name : string) (part : value) (path : string) :
  build_path bundle_name part = Ok path ->
  exists p, path = (bundle_name ++ "/" ++ p)%string.
Proof.
  destruct part; simpl; try discriminate.
  intros Heq. inversion Heq. eauto.
Qed.

(** Whatever the rule, a successful call either leaves the entry as it is
    or sets the storage location to a path under the bundle. *)
Lemma populate_shape (meta meta' : dict) (bundle_name : string) :
  _populate_s3_path meta bundle_name = Ok meta' ->
  meta' = meta
  \/ exists part,
      meta' = dict_set S3_PATH_NAME
                (VStr (bundle_name ++ "/" ++ part)) meta.
Proof.
  assert (Hset : forall part (m : dict),
             (path <- build_path bundle_name part ;;
              Ok (dict_set S3_PATH_NAME (VStr path) meta)) = Ok m ->
             exists p, m = dict_set S3_PATH_NAME
                             (VStr (bundle_name ++ "/" ++ p)) meta).
  { intros part m Hr.
    destruct (build_path bundle_name part) as [path|] eqn:E;
      [|discriminate].
    apply build_path_shape in E as [p ->]. cbn [bind] in Hr.
    exists p. congruence. }
  assert (Hebs : forall m, _populate_s3_path_ebs meta bundle_name = Ok m ->
                           exists p, m = dict_set S3_PATH_NAME
                                           (VStr (bundle_name ++ "/" ++ p))
                                           meta).
  { unfold _populate_s3_path_ebs. intros m.
    destruct (negb _); [discriminate|]. apply Hset. }
  assert (Hjava : forall m, _populate_s3_path_java meta bundle_name = Ok m ->
                            exists p, m = dict_set S3_PATH_NAME
                                            (VStr (bundle_name ++ "/" ++ p))
                                            meta).
  { unfold _populate_s3_path_java. intros m.
    destruct (negb _); [discriminate|]. apply Hset. }
  assert (Hpy : forall m, _populate_s3_path_python meta bundle_name = Ok m ->
                          exists p, m = dict_set S3_PATH_NAME
                                          (VStr (bundle_name ++ "/" ++ p))
                                          meta).
  { unfold _populate_s3_path_python. intros m.
    destruct (_ || _); [discriminate|]. apply Hset. }
  assert (Hlam : forall m, _populate_s3_path_lambda meta bundle_name = Ok m ->
                           exists p, m = dict_set S3_PATH_NAME
                                           (VStr (bundle_name ++ "/" ++ p))
                                           meta).
  { unfold _populate_s3_path_lambda. intros m.
    destruct (negb _); [discriminate|].
    destruct (dict_get "runtime" meta); try discriminate.
    unfold RUNTIME_PATH_RESOLVER.
    cbn [dict_set String.eqb Ascii.eqb Bool.eqb dict_lookup].
    destruct (lower s =? "python2.7"); [apply Hpy|].
    destruct (lower s =? "java8"); [apply Hjava|discriminate]. }
  unfold _populate_s3_path.
  destruct (negb _); [discriminate|].
  destruct (dict_get "resource_type" meta);
    try (intros Heq; inversion Heq; now left).
  unfold S3_PATH_MAPPING. cbn [dict_set].
  destruct (EBS_TYPE =? LAMBDA_TYPE) eqn:E; cbn [dict_lookup].
  - destruct (s =? EBS_TYPE); [intros Hr; right; now apply Hebs|].
    intros Heq; inversion Heq; now left.
  - destruct (s =? LAMBDA_TYPE); [intros Hr; right; now apply Hlam|].
    destruct (s =? EBS_TYPE); [intros Hr; right; now apply Hebs|].
    intros Heq; inversion Heq; now left.
Qed.

(** X1: deriving the storage location writes that attribute and no other:
    every other attribute of the entry is as it was. *)
Theorem populate_writes_one_attribute (meta meta' : dict)
  (bundle_name : string) :
  _populate_s3_path meta bundle_name = Ok meta' ->
  forall k, k <> S3_PATH_NAME -> dict_lookup k meta' = dict_lookup k meta.
Proof.
  intros Hpop k Hk.
  destruct (populate_shape _ _ _ Hpop) as [->|(part & ->)]; [reflexivity|].
  now apply dict_lookup_set_neq.
Qed.

(** X2: a lambda whose runtime is present but is neither python2.7 nor
    java8, whatever its case, is rejected with the error of a missing
    runtime. *)
Theorem unknown_runtime_is_rejected (meta : dict) (bundle_name runtime : string) :
  LAMBDA_TYPE <> EBS_TYPE ->
  dict_lookup "resource_type" meta = Some (VStr LAMBDA_TYPE) ->
  dict_lookup "runtime" meta = Some (VStr runtime) ->
  runtime <> "" ->
  lower runtime <> "python2.7" ->
  lower runtime <> "java8" ->
  _populate_s3_path meta bundle_name
  = Raise (MissingField "Lambda" ["runtime"] meta).
Proof.
  intros Hne Ht Hr Hnonempty Hpy Hjava. unfold _populate_s3_path.
  rewrite (dict_get_lookup _ _ _ Ht). cbn [hashable negb].
  rewrite (S3_PATH_MAPPING_lambda Hne). unfold _populate_s3_path_lambda.
  rewrite (dict_get_lookup _ _ _ Hr). cbn [truthy].
  apply String.eqb_neq in Hnonempty. rewrite Hnonempty. cbn [negb].
  unfold RUNTIME_PATH_RESOLVER.
  cbn [dict_set String.eqb Ascii.eqb Bool.eqb dict_lookup].
  apply String.eqb_neq in Hpy, Hjava. now rewrite Hpy, Hjava.
Qed.

(** For a lambda or Beanstalk entry a successful call does set the
    storage location. *)
Lemma populate_sets_location (meta meta' : dict) (bundle_name t : string) :
  dict_lookup "resource_type" meta = Some (VStr t) ->
  t = LAMBDA_TYPE \/ t = EBS_TYPE ->
  _populate_s3_path meta bundle_name = Ok meta' ->
  exists part,
    meta' = dict_set S3_PATH_NAME (VStr (bundle_name ++ "/" ++ part)) meta.
Proof.
  intros Ht Hrule Hpop.
  assert (Hin : exists f, dict_lookup t S3_PATH_MAPPING = Some f
                          /\ (f = _populate_s3_path_lambda
                              \/ f = _populate_s3_path_ebs)).
  { unfold S3_PATH_MAPPING.
    destruct (String.eqb_spec t EBS_TYPE) as [->|Hte].
    - rewrite dict_lookup_set_eq. eauto.
    - rewrite dict_lookup_set_neq by assumption.
      destruct Hrule as [Hl|He]; [subst t|congruence].
      rewrite dict_lookup_set_eq. eauto. }
  destruct Hin as (f & Hf & Hkind).
  unfold _populate_s3_path in Hpop.
  rewrite (dict_get_lookup _ _ _ Ht) in Hpop.
  cbn [hashable negb] in Hpop. rewrite Hf in Hpop.
  assert (Hother : dict_lookup "resource_type" meta = Some (VStr t))
    by assumption.
  clear Hf.
  destruct Hkind as [Hkind|Hkind]; subst f.
  - unfold _populate_s3_path_lambda in Hpop.
    destruct (negb _); [discriminate|].
    destruct (dict_get "runtime" meta); try discriminate.
    unfold RUNTIME_PATH_RESOLVER in Hpop.
    cbn [dict_set String.eqb Ascii.eqb Bool.eqb dict_lookup] in Hpop.
    destruct (lower s =? "python2.7").
    + unfold _populate_s3_path_python in Hpop.
      destruct (_ || _); [discriminate|].
      cbn [build_path bind] in Hpop. eexists. symmetry.
      injection Hpop as Hpop. exact Hpop.
    + destruct (lower s =? "java8"); [|discriminate].
      unfold _populate_s3_path_java in Hpop.
      destruct (negb _); [discriminate|].
      destruct (build_path _ _) as [path|] eqn:E; [|discriminate].
      apply build_path_shape in E as [p ->]. cbn [bind] in Hpop.
      exists p. congruence.
  - unfold _populate_s3_path_ebs in Hpop.
    destruct (negb _); [discriminate|].
    destruct (build_path _ _) as [path|] eqn:E; [|discriminate].
    apply build_path_shape in E as [p ->]. cbn [bind] in Hpop.
    exists p. congruence.
Qed.

(** X3: once the storage location of a lambda or Beanstalk entry is
    derived, [_retrieve_package] returns it: a path under the bundle. *)
Theorem derived_location_is_retrieved (meta meta' : dict)
  (bundle_name t : string) :
  dict_lookup "resource_type" meta = Some (VStr t) ->
  t = LAMBDA_TYPE \/ t = EBS_TYPE ->
  _populate_s3_path meta bundle_name = Ok meta' ->
  exists part,
    _retrieve_package (VDict meta')
    = Ok (VStr (bundle_name ++ "/" ++ part)).
Proof.
  intros Ht Hrule Hpop.
  destruct (populate_sets_location _ _ _ _ Ht Hrule Hpop) as (part & ->).
  exists part.
  unfold _retrieve_package. cbn [value_get bind].
  unfold dict_get, dict_get_default. rewrite dict_lookup_set_eq.
  now rewrite location_not_empty.
Qed.

(** ** What the merge returns, whatever the entries *)

Lemma bind_inv {A B : Type} (c : result A) (f : A -> result B) (b : B) :
  bind c f = Ok b -> exists a, c = Ok a /\ f a = Ok b.
Proof. destruct c as [a|e]; simpl; [eauto|discriminate]. Qed.

Lemma py_eq_str (v : value) (s : string) :
  py_eq v (VStr s) = true -> v = VStr s.
Proof.
  destruct v; simpl; try discriminate.
  intros Heq. apply String.eqb_eq in Heq. now subst.
Qed.

Lemma join_dependency_frame (keys : list value) (item item' : dict)
  (each : value) (k : string) :
  join_dependency keys item each = Ok item' ->
  k <> "dependencies" -> dict_lookup k item' = dict_lookup k item.
Proof.
  unfold join_dependency. intros Hr Hk.
  apply bind_inv in Hr as (n & _ & Hr).
  destruct (negb _); [|now inversion Hr].
  apply bind_inv in Hr as (deps & _ & Hr).
  apply bind_inv in Hr as (deps' & _ & Hr).
  inversion Hr. now apply dict_lookup_set_neq.
Qed.

Lemma join_dependencies_frame (keys init_deps : list value) (k : string) :
  k <> "dependencies" ->
  forall item item',
    for_fold (join_dependency keys) init_deps item = Ok item' ->
    dict_lookup k item' = dict_lookup k item.
Proof.
  intros Hk. induction init_deps as [|each deps IH]; intros item item' Hr.
  - simpl in Hr. now inversion Hr.
  - simpl in Hr. apply bind_inv in Hr as (item1 & H1 & Hr).
    rewrite (IH _ _ Hr). eapply join_dependency_frame; eassumption.
Qed.

(** The merge, read backwards from its result. *)
Lemma merge_inversion (initial_meta_dict : dict)
  (name : string) (additional merged : dict) :
  _check_duplicated_resources initial_meta_dict name additional
  = Ok (Some merged) ->
  is_composite additional
  /\ (exists initial,
         dict_lookup name initial_meta_dict = Some (VDict initial)
         /\ is_composite initial)
  /\ forall k, ~ merged_attribute k ->
               dict_lookup k merged = dict_lookup k additional.
Proof.
  unfold _check_duplicated_resources. intros Hr.
  destruct (dict_in name initial_meta_dict) eqn:Hin; [|discriminate].
  apply bind_inv in Hr as (additional_type & Hat & Hr). cbv zeta in Hr.
  destruct (negb (truthy (dict_get name initial_meta_dict)));
    [discriminate|].
  apply bind_inv in Hr as (initial_type & Hit & Hr).
  destruct (py_eq additional_type initial_type
            && py_eq initial_type (VStr API_GATEWAY_TYPE)) eqn:Ety.
  2:{ destruct (py_eq additional_type initial_type); [|discriminate].
      destruct (py_eq (VDict additional) _); discriminate. }
  apply andb_true_iff in Ety as [Esame Eapi].
  apply py_eq_str in Eapi. subst initial_type.
  apply py_eq_str in Esame. subst additional_type.
  apply bind_inv in Hr as (init_res & _ & Hr).
  apply bind_inv in Hr as (init_keys & _ & Hr).
  apply bind_inv in Hr as (u & _ & Hr).
  apply bind_inv in Hr as (icc & _ & Hr).
  destruct (truthy icc && truthy _); [discriminate|].
  apply bind_inv in Hr as (add_deps & _ & Hr).
  apply bind_inv in Hr as (add_deps' & _ & Hr).
  apply bind_inv in Hr as (keys & _ & Hr).
  apply bind_inv in Hr as (init_deps & _ & Hr).
  apply bind_inv in Hr as (init_deps' & _ & Hr).
  apply bind_inv in Hr as (item2 & Hfold & Hr).
  apply bind_inv in Hr as (add_res & _ & Hr).
  apply bind_inv in Hr as (init_res' & _ & Hr).
  apply bind_inv in Hr as (res & _ & Hr).
  apply bind_inv in Hr as (ids & _ & Hr).
  apply bind_inv in Hr as (init_apply & _ & Hr).
  apply bind_inv in Hr as (apply & _ & Hr).
  assert (Hmerged :
            merged
            = dict_set "apply_changes" apply
                (if truthy ids
                 then dict_set "deploy_stage" ids
                        (dict_set "resources" res item2)
                 else dict_set "resources" res item2)) by congruence.
  clear Hr. split; [|split].
  - unfold is_composite. unfold subscript in Hat.
    destruct (dict_lookup "resource_type" additional); congruence.
  - unfold dict_get, dict_get_default in Hit.
    unfold dict_in in Hin.
    destruct (dict_lookup name initial_meta_dict) as [v|];
      [|discriminate].
    destruct v as [| | | | |initial]; try discriminate.
    exists initial. split; [reflexivity|].
    unfold is_composite. cbn [subscript_value] in Hit.
    unfold subscript in Hit.
    destruct (dict_lookup "resource_type" initial); congruence.
  - intros k Hk. unfold merged_attribute in Hk. subst merged.
    rewrite dict_lookup_set_neq by tauto.
    assert (Hstage :
              dict_lookup k
                (if truthy ids
                 then dict_set "deploy_stage" ids
                        (dict_set "resources" res item2)
                 else dict_set "resources" res item2)
              = dict_lookup k item2).
    { destruct (truthy ids);
        rewrite ?dict_lookup_set_neq by tauto; reflexivity. }
    rewrite Hstage.
    rewrite (join_dependencies_frame _ _ k ltac:(tauto) _ _ Hfold).
    destruct (truthy icc); [|reflexivity].
    apply dict_lookup_set_neq. tauto.
Qed.

(** X4: whenever [_check_duplicated_resources] returns a merged entry,
    both entries are of the composite type, and the merged entry has
    every attribute of the incoming one, other than the five the merge
    writes, as it was. *)
Theorem merge_keeps_incoming_attributes (initial_meta_dict : dict)
  (name : string) (additional merged : dict) :
  _check_duplicated_resources initial_meta_dict name additional
  = Ok (Some merged) ->
  is_composite additional
  /\ (exists initial,
         dict_lookup name initial_meta_dict = Some (VDict initial)
         /\ is_composite initial)
  /\ forall k, ~ merged_attribute k ->
               dict_lookup k merged = dict_lookup k additional.
Proof. apply merge_inversion. Qed.

(** ** One resource at a time *)

Lemma bindM_inv {A B : Type} (c : M A) (f : A -> M B) (s s' : dict) (b : B) :
  bindM c f s = (s', Ok b) ->
  exists a s1, c s = (s1, Ok a) /\ f a s1 = (s', Ok b).
Proof.
  unfold bindM. destruct (c s) as [s1 [a|e]]; [eauto|discriminate].
Qed.

Lemma liftM_inv {A : Type} (c : result A) (s s' : dict) (a : A) :
  liftM c s = (s', Ok a) -> s' = s /\ c = Ok a.
Proof. unfold liftM. intros Heq. inversion Heq. auto. Qed.

Lemma as_name_inv (v : value) (s : string) : as_name v = Ok s -> v = VStr s.
Proof. destruct v; simpl; congruence. Qed.

Lemma as_dict_inv (v : value) (d : dict) : as_dict v = Ok d -> v = VDict d.
Proof. destruct v; simpl; congruence. Qed.

(** A resource that is processed without error: what was read, checked
    and stored. *)
Lemma process_resource_stored (deployment_resources resource_name : value)
  (bundle_name : string) (resources_meta resources_meta' : dict) :
  process_resource deployment_resources bundle_name resource_name
    resources_meta
  = (resources_meta', Ok tt) ->
  exists name resource t populated res,
    resource_name = VStr name
    /\ subscript_value deployment_resources name = Ok (VDict resource)
    /\ dict_lookup "resource_type" resource = Some t
    /\ value_in_keys t RESOURCE_LIST = true
    /\ _populate_s3_path resource bundle_name = Ok populated
    /\ _check_duplicated_resources resources_meta name populated = Ok res
    /\ resources_meta'
       = dict_set name (VDict (merged_or res populated)) resources_meta.
Proof.
  intros Hrun. unfold process_resource in Hrun.
  apply bindM_inv in Hrun as (name & s1 & H1 & Hrun).
  apply liftM_inv in H1 as [Hs Hname]. subst s1.
  apply as_name_inv in Hname.
  apply bindM_inv in Hrun as (r & s1 & H1 & Hrun).
  apply liftM_inv in H1 as [Hs Hr]. subst s1.
  apply bindM_inv in Hrun as (resource & s1 & H1 & Hrun).
  apply liftM_inv in H1 as [Hs Hdict]. subst s1.
  apply as_dict_inv in Hdict. subst r.
  apply bindM_inv in Hrun as (t & s1 & H1 & Hrun).
  apply liftM_inv in H1 as [Hs Ht]. subst s1.
  apply bindM_inv in Hrun as (u & s1 & H1 & Hrun).
  apply liftM_inv in H1 as [Hs Hknown]. subst s1.
  apply bindM_inv in Hrun as (populated & s1 & H1 & Hrun).
  apply liftM_inv in H1 as [Hs Hpop]. subst s1.
  apply bindM_inv in Hrun as (meta & s1 & H1 & Hrun).
  unfold read_meta in H1.
  assert (s1 = resources_meta /\ meta = resources_meta) as [Hs Hm]
      by (split; congruence).
  subst s1 meta. clear H1.
  apply bindM_inv in Hrun as (res & s1 & H1 & Hrun).
  apply liftM_inv in H1 as [Hs Hcheck]. subst s1.
  unfold set_item in Hrun.
  exists name, resource, t, populated, res.
  repeat split; try assumption.
  - destruct (dict_lookup "resource_type" resource); congruence.
  - destruct (value_in_keys t RESOURCE_LIST); [reflexivity|discriminate].
  - congruence.
Qed.

Lemma process_lambda_config_stored (lambda_conf : value)
  (bundle_name : string) (resources_meta resources_meta' : dict) :
  process_lambda_config lambda_conf bundle_name resources_meta
  = (resources_meta', Ok tt) ->
  exists conf name populated res,
    lambda_conf = VDict conf
    /\ dict_lookup "name" conf = Some (VStr name)
    /\ _populate_s3_path conf bundle_name = Ok populated
    /\ _check_duplicated_resources resources_meta name populated = Ok res
    /\ resources_meta'
       = dict_set name (VDict (merged_or res populated)) resources_meta.
Proof.
  intros Hrun. unfold process_lambda_config in Hrun.
  apply bindM_inv in Hrun as (n & s1 & H1 & Hrun).
  apply liftM_inv in H1 as [Hs Hn]. subst s1.
  apply bindM_inv in Hrun as (conf & s1 & H1 & Hrun).
  apply liftM_inv in H1 as [Hs Hdict]. subst s1.
  apply as_dict_inv in Hdict. subst lambda_conf.
  apply bindM_inv in Hrun as (populated & s1 & H1 & Hrun).
  apply liftM_inv in H1 as [Hs Hpop]. subst s1.
  apply bindM_inv in Hrun as (name & s1 & H1 & Hrun).
  apply liftM_inv in H1 as [Hs Hname]. subst s1.
  apply as_name_inv in Hname. subst n.
  apply bindM_inv in Hrun as (meta & s1 & H1 & Hrun).
  unfold read_meta in H1.
  assert (s1 = resources_meta /\ meta = resources_meta) as [Hs Hm]
      by (split; congruence).
  subst s1 meta. clear H1.
  apply bindM_inv in Hrun as (res & s1 & H1 & Hrun).
  apply liftM_inv in H1 as [Hs Hcheck]. subst s1.
  unfold set_item in Hrun.
  exists conf, name, populated, res.
  repeat split; try assumption.
  - cbn [subscript_value] in Hn. unfold subscript in Hn.
    destruct (dict_lookup "name" conf); congruence.
  - congruence.
Qed.

(** The resource type of the entry that is stored is the one of the entry
    that was read. *)
Lemma stored_type (resources_meta : dict) (name bundle_name : string)
  (resource populated : dict) (res : option dict) :
  S3_PATH_NAME <> "resource_type" ->
  _populate_s3_path resource bundle_name = Ok populated ->
  _check_duplicated_resources resources_meta name populated = Ok res ->
  dict_lookup "resource_type" (merged_or res populated)
  = dict_lookup "resource_type" resource.
Proof.
  intros Hs3 Hpop Hcheck.
  assert (Hpopt : dict_lookup "resource_type" populated
                  = dict_lookup "resource_type" resource).
  { destruct (populate_shape _ _ _ Hpop) as [Hsame|(part & Hset)];
      subst populated; rewrite ?dict_lookup_set_neq by congruence;
      reflexivity. }
  destruct res as [merged|]; cbn [merged_or]; [|exact Hpopt].
  destruct (merge_inversion _ _ _ _ Hcheck) as (_ & _ & Hframe).
  rewrite Hframe; [exact Hpopt|].
  unfold merged_attribute. intuition discriminate.
Qed.

(** X5: a resource of a deployment resources file that is processed
    without error is stored under its own name, as a dictionary whose
    resource type is the one the file declares for it, a member of
    [RESOURCE_LIST]; every other entry of the dictionary is as it was. *)
Theorem stored_resource_has_known_type (deployment_resources : value)
  (bundle_name name : string) (resources_meta resources_meta' : dict) :
  S3_PATH_NAME <> "resource_type" ->
  process_resource deployment_resources bundle_name (VStr name)
    resources_meta
  = (resources_meta', Ok tt) ->
  (exists resource entry t,
      subscript_value deployment_resources name = Ok (VDict resource)
      /\ dict_lookup "resource_type" resource = Some t
      /\ dict_lookup name resources_meta' = Some (VDict entry)
      /\ dict_lookup "resource_type" entry = Some t
      /\ value_in_keys t RESOURCE_LIST = true)
  /\ forall k, k <> name ->
               dict_lookup k resources_meta' = dict_lookup k resources_meta.
Proof.
  intros Hs3 Hrun.
  apply process_resource_stored in Hrun
    as (n & resource & t & populated & res
        & Hn & Hsub & Ht & Hknown & Hpop & Hcheck & Hm).
  assert (n = name) by congruence. subst n resources_meta'. split.
  - exists resource, (merged_or res populated), t.
    split; [assumption|]. split; [assumption|].
    split; [apply dict_lookup_set_eq|]. split; [|assumption].
    now rewrite (stored_type _ _ _ _ _ _ Hs3 Hpop Hcheck).
  - intros k Hk. now apply dict_lookup_set_neq.
Qed.

(** X6: a resource that has no resource type, or one that is not in
    [RESOURCE_LIST], is rejected before its storage location is derived
    and before it is compared with the dictionary, which stays as it
    was. *)
Theorem resource_type_is_checked_first (deployment_resources : dict)
  (bundle_name name : string) (resource resources_meta : dict) :
  dict_lookup name deployment_resources = Some (VDict resource) ->
  (dict_lookup "resource_type" resource = None ->
   process_resource (VDict deployment_resources) bundle_name (VStr name)
     resources_meta
   = (resources_meta, Raise (MissingResourceType name)))
  /\ (forall t,
         dict_lookup "resource_type" resource = Some t ->
         value_in_keys t RESOURCE_LIST = false ->
         process_resource (VDict deployment_resources) bundle_name
           (VStr name) resources_meta
         = (resources_meta, Raise (UnrecognizedResourceType t))).
Proof.
  intros Hres.
  assert (Hsub : subscript_value (VDict deployment_resources) name
                 = Ok (VDict resource)).
  { cbn [subscript_value]. unfold subscript. now rewrite Hres. }
  split.
  - intros Hnone. unfold process_resource, bindM, liftM.
    cbn [as_name]. rewrite Hsub. cbn [as_dict]. now rewrite Hnone.
  - intros t Ht Hunknown. unfold process_resource, bindM, liftM.
    cbn [as_name]. rewrite Hsub. cbn [as_dict]. rewrite Ht, Hunknown.
    reflexivity.
Qed.

(** ** The files of a directory *)

Lemma whenM_false (body : M unit) (s : dict) : whenM false body s = (s, Ok tt).
Proof. reflexivity. Qed.

Lemma for_eachM_cons {A : Type} (body : A -> M unit) (x : A) (l : list A)
  (s : dict) :
  for_eachM body (x :: l) s
  = match for_eachM body [x] s with
    | (s1, Ok _) => for_eachM body l s1
    | (s1, Raise e) => (s1, Raise e)
    end.
Proof.
  cbn [for_eachM]. unfold bindM, retM.
  destruct (body x s) as [s1 [u|e]]; reflexivity.
Qed.

Lemma look_for_configs_cons (each : file) (nested_files : list file)
  (bundle_name : string) (s : dict) :
  _look_for_configs (each :: nested_files) bundle_name s
  = match _look_for_configs [each] bundle_name s with
    | (s1, Ok _) => _look_for_configs nested_files bundle_name s1
    | (s1, Raise e) => (s1, Raise e)
    end.
Proof. unfold _look_for_configs. apply for_eachM_cons. Qed.

(** X7: a file whose name neither ends with the name of a lambda
    configuration file nor is the name of a deployment resources file
    plays no part: the directory without such files gives the same
    dictionary and the same outcome. *)
Theorem other_files_are_ignored (nested_files : list file)
  (bundle_name : string) (resources_meta : dict) :
  _look_for_configs nested_files bundle_name resources_meta
  = _look_for_configs (filter is_config nested_files) bundle_name
      resources_meta.
Proof.
  revert resources_meta.
  induction nested_files as [|each files IH];
    intros resources_meta; [reflexivity|].
  cbn [filter]. destruct (is_config each) eqn:Econf.
  - rewrite (look_for_configs_cons each files),
      (look_for_configs_cons each (filter is_config files)).
    destruct (_look_for_configs [each] bundle_name resources_meta)
      as [s1 [u|e]]; [apply IH|reflexivity].
  - rewrite look_for_configs_cons, <- IH.
    destruct each as [each_name content]. unfold is_config in Econf.
    cbn [fst] in Econf. apply orb_false_iff in Econf as [Elam Eres].
    unfold _look_for_configs at 1. cbn [for_eachM]. unfold bindM.
    now rewrite Elam, Eres.
Qed.

(** ** The dictionary that discovery builds *)

Lemma for_eachM_invariant {A : Type} (P : dict -> Prop) (body : A -> M unit) :
  (forall x s s' r, P s -> body x s = (s', r) -> P s') ->
  forall l s s' r, P s -> for_eachM body l s = (s', r) -> P s'.
Proof.
  intros Hbody. induction l as [|x l IH]; intros s s' r HP Hrun.
  - cbn in Hrun. unfold retM in Hrun. congruence.
  - cbn [for_eachM] in Hrun. unfold bindM in Hrun.
    destruct (body x s) as [s1 [u|e]] eqn:Ex.
    + eapply IH; [|exact Hrun]. eapply Hbody; eassumption.
    + assert (s' = s1) by congruence. subst s'.
      eapply Hbody; eassumption.
Qed.

Lemma stored_entry_carries_location (resources_meta : dict)
  (name bundle_name : string) (resource populated : dict)
  (res : option dict) :
  S3_PATH_NAME <> "resource_type" ->
  ~ merged_attribute S3_PATH_NAME ->
  _populate_s3_path resource bundle_name = Ok populated ->
  _check_duplicated_resources resources_meta name populated = Ok res ->
  carries_location bundle_name (VDict (merged_or res populated)).
Proof.
  intros Hs3 Hmerged Hpop Hcheck.
  exists (merged_or res populated). split; [reflexivity|].
  intros t Ht Hrule.
  rewrite (stored_type _ _ _ _ _ _ Hs3 Hpop Hcheck) in Ht.
  destruct (populate_sets_location _ _ _ _ Ht Hrule Hpop) as (part & Hset).
  exists part.
  assert (Hloc : dict_lookup S3_PATH_NAME populated
                 = Some (VStr (bundle_name ++ "/" ++ part)))
    by (subst populated; apply dict_lookup_set_eq).
  destruct res as [merged|]; cbn [merged_or]; [|exact Hloc].
  destruct (merge_inversion _ _ _ _ Hcheck) as (_ & _ & Hframe).
  now rewrite Hframe.
Qed.

Lemma packaged_set (bundle_name name : string) (v : value)
  (resources_meta : dict) :
  packaged bundle_name resources_meta ->
  carries_location bundle_name v ->
  packaged bundle_name (dict_set name v resources_meta).
Proof.
  intros Hm Hv k v' Hk.
  destruct (String.eqb_spec k name) as [->|Hne].
  - rewrite dict_lookup_set_eq in Hk. congruence.
  - rewrite dict_lookup_set_neq in Hk by assumption. eapply Hm; eassumption.
Qed.

Lemma look_for_configs_packaged (bundle_name : string) :
  S3_PATH_NAME <> "resource_type" ->
  ~ merged_attribute S3_PATH_NAME ->
  forall nested_files s s' r,
    packaged bundle_name s ->
    _look_for_configs nested_files bundle_name s = (s', r) ->
    packaged bundle_name s'.
Proof.
  intros Hs3 Hmerged nested_files. unfold _look_for_configs.
  apply for_eachM_invariant.
  intros [each_name content] s s' r HP Hrun.
  unfold bindM in Hrun.
  destruct (whenM (endswith each_name LAMBDA_CONFIG_FILE_NAME) _ s)
    as [s1 r1] eqn:Elam.
  assert (HP1 : packaged bundle_name s1).
  { unfold whenM in Elam. destruct (endswith _ _).
    - destruct r1 as [[]|e].
      + apply process_lambda_config_stored in Elam
          as (conf & name & populated & res & _ & _ & Hpop & Hcheck & ->).
        apply packaged_set; [assumption|].
        eapply stored_entry_carries_location; eassumption.
      + apply process_lambda_config_abort in Elam as [-> _]. assumption.
    - unfold retM in Elam. inversion Elam; subst. assumption. }
  destruct r1 as [u|e]; [|inversion Hrun; subst; assumption].
  unfold whenM in Hrun. destruct (each_name =? RESOURCES_FILE_NAME).
  2:{ unfold retM in Hrun. inversion Hrun; subst. assumption. }
  unfold bindM, liftM in Hrun.
  destruct (py_iter content) as [names|e];
    [|inversion Hrun; subst; assumption].
  revert Hrun. apply for_eachM_invariant; [|assumption].
  intros x t t' r' HPt Hx. destruct r' as [[]|e].
  - apply process_resource_stored in Hx
      as (name & resource & ty & populated & res
          & _ & _ & _ & _ & Hpop & Hcheck & ->).
    apply packaged_set; [assumption|].
    eapply stored_entry_carries_location; eassumption.
  - apply process_resource_abort in Hx as [-> _]. assumption.
Qed.

(** X8: in the dictionary that [create_resource_json] returns every entry
    is a dictionary, and every entry whose resource type is the lambda or
    the Beanstalk one has a storage location, a path under the bundle. *)
Theorem manifest_entries_carry_locations (walk : list (list file))
  (bundle_name : string) (resources_meta : dict) :
  S3_PATH_NAME <> "resource_type" ->
  ~ merged_attribute S3_PATH_NAME ->
  create_resource_json walk bundle_name = Ok resources_meta ->
  packaged bundle_name resources_meta.
Proof.
  intros Hs3 Hmerged Hrun. unfold create_resource_json in Hrun.
  destruct (walk_project walk bundle_name []) as [m [u|e]] eqn:Ewalk;
    [|discriminate].
  destruct (check_dependencies m); [|discriminate].
  cbn [bind] in Hrun. assert (resources_meta = m) by congruence. subst m.
  unfold walk_project in Ewalk. revert Ewalk.
  apply for_eachM_invariant.
  - intros nested s s' r. now apply look_for_configs_packaged.
  - intros name v Hnone. discriminate.
Qed.

(** ** The packages of a dictionary *)

Lemma retrieve_all (l : list value) :
  map_result _retrieve_package l
  = if forallb (fun v => negb (no_dict v)) l
    then Ok (map retrieved l)
    else Raise AttributeError.
Proof.
  induction l as [|x l IH]; [reflexivity|].
  cbn [map_result forallb map].
  destruct x; cbn [_retrieve_package value_get bind no_dict negb andb];
    try reflexivity.
  rewrite IH. destruct (forallb _ l); reflexivity.
Qed.

Lemma filter_retrieved (l : list value) :
  filter truthy (map retrieved l)
  = filter truthy (map (fun v => dict_get S3_PATH_NAME (dict_of v)) l).
Proof.
  induction l as [|x l IH]; [reflexivity|].
  assert (Hx : truthy (retrieved x)
               = truthy (dict_get S3_PATH_NAME (dict_of x))
               /\ (truthy (dict_get S3_PATH_NAME (dict_of x)) = true ->
                   retrieved x = dict_get S3_PATH_NAME (dict_of x))).
  { unfold retrieved. cbv zeta.
    destruct (truthy (dict_get S3_PATH_NAME (dict_of x))) eqn:E.
    - auto.
    - split; [reflexivity|discriminate]. }
  destruct Hx as [Htruth Hsame]. cbn [map filter]. rewrite Htruth, IH.
  destruct (truthy (dict_get S3_PATH_NAME (dict_of x)));
    [now rewrite Hsame|reflexivity].
Qed.

Lemma entries_are_dicts_forallb (meta_resources : dict) :
  entries_are_dicts meta_resources <->
  forallb (fun v => negb (no_dict v)) (map snd meta_resources) = true.
Proof.
  unfold entries_are_dicts. rewrite forallb_forall. split.
  - intros Hd v Hin. apply in_map_iff in Hin as ([name v'] & Hv & Hin).
    cbn [snd] in Hv. subst v'.
    destruct (Hd _ _ Hin) as [entry ->]. reflexivity.
  - intros Hall name v Hin.
    assert (Hv : negb (no_dict v) = true).
    { apply Hall. apply in_map_iff. exists (name, v). now split. }
    destruct v; try discriminate. eauto.
Qed.

(** X9: on a dictionary whose entries are dictionaries [artifact_paths]
    returns the storage locations that are true, in the order of the
    entries; with an entry that is not a dictionary it raises
    [AttributeError]. *)
Theorem artifact_paths_are_the_true_locations (meta_resources : dict) :
  (entries_are_dicts meta_resources ->
   artifact_paths meta_resources
   = Ok (filter truthy
           (map (fun v => dict_get S3_PATH_NAME (dict_of v))
              (map snd meta_resources))))
  /\ (~ entries_are_dicts meta_resources ->
      artifact_paths meta_resources = Raise AttributeError).
Proof.
  unfold artifact_paths. rewrite retrieve_all.
  rewrite entries_are_dicts_forallb. split.
  - intros ->. cbn [bind]. now rewrite filter_retrieved.
  - intros Hnot. destruct (forallb _ _); [tauto|reflexivity].
Qed.

(** With string locations the packages are the storage locations. *)
Lemma artifact_paths_strings (meta_resources : dict) :
  Forall location_is_string (map snd meta_resources) ->
  artifact_paths meta_resources
  = Ok (map VStr (storage_locations meta_resources)).
Proof.
  intros Hall. unfold artifact_paths. rewrite retrieve_all.
  assert (Hd : forallb (fun v => negb (no_dict v)) (map snd meta_resources)
               = true).
  { apply forallb_forall. intros v Hin.
    rewrite Forall_forall in Hall.
    destruct (Hall _ Hin) as (entry & -> & _). reflexivity. }
  rewrite Hd. cbn [bind]. f_equal. rewrite filter_retrieved. clear Hd.
  induction meta_resources as [|[name v] m IH]; [reflexivity|].
  cbn [map snd] in Hall. apply Forall_cons_iff in Hall as [Hv Hall].
  cbn [map snd filter storage_locations flat_map].
  fold (storage_locations m). rewrite map_app, <- (IH Hall).
  destruct Hv as (entry & -> & [Hnone|[p Hp]]); cbn [dict_of].
  - unfold dict_get, dict_get_default. rewrite Hnone. reflexivity.
  - rewrite (dict_get_lookup _ _ _ Hp). cbn [truthy].
    destruct (p =? ""); reflexivity.
Qed.

Lemma nonexistent_from (bundles_path : string) (path_exists : string -> bool)
  (packages : list string) :
  forall nonexistent_packages,
    for_fold (fun nonexistent_packages package =>
                package_path <- build_path bundles_path package ;;
                if negb (path_exists package_path)
                then Ok (nonexistent_packages ++ [package_path])
                else Ok nonexistent_packages)
      (map VStr packages) nonexistent_packages
    = Ok (nonexistent_packages
            ++ filter (fun path => negb (path_exists path))
                 (map (fun package => (bundles_path ++ "/" ++ package)%string)
                    packages)).
Proof.
  induction packages as [|package packages IH]; intros acc.
  - cbn. now rewrite app_nil_r.
  - cbn [map for_fold build_path bind filter].
    destruct (negb (path_exists _)); cbn [bind]; rewrite IH.
    + now rewrite <- app_assoc.
    + reflexivity.
Qed.

Lemma nothing_missing (path_exists : string -> bool) (paths : list string) :
  filter (fun path => negb (path_exists path)) paths = []
  <-> forall path, In path paths -> path_exists path = true.
Proof.
  induction paths as [|p l IH]; cbn [filter].
  - split; [intros _ q []|reflexivity].
  - destruct (path_exists p) eqn:E; cbn [negb].
    + split.
      * intros Hl q [Heq|Hq]; [now subst q|]. now apply IH.
      * intros Hex. apply IH. intros q Hq. apply Hex. now right.
    + split; [discriminate|]. intros Hex.
      specialize (Hex p (or_introl eq_refl)). congruence.
Qed.

(** X10: on a dictionary whose entries are dictionaries with a string, or
    nothing, as storage location, [validate_deployment_packages] looks
    for every non-empty storage location below the artifacts folder of
    the project.  It reports the paths that do not exist, in the order of
    the entries, and it returns exactly when there is none. *)
Theorem missing_packages_are_reported (project_path ARTIFACTS_FOLDER : string)
  (path_exists : string -> bool) (meta_resources : dict) :
  Forall location_is_string (map snd meta_resources) ->
  let nonexistent_packages :=
    filter (fun path => negb (path_exists path))
      (map (package_path_of project_path ARTIFACTS_FOLDER)
         (storage_locations meta_resources)) in
  validate_deployment_packages project_path ARTIFACTS_FOLDER path_exists
    meta_resources
  = match nonexistent_packages with
    | [] => Validated
    | _ => NotProperlyConfigured nonexistent_packages
    end
  /\ (validate_deployment_packages project_path ARTIFACTS_FOLDER path_exists
        meta_resources = Validated
      <-> forall package,
            In package (storage_locations meta_resources) ->
            path_exists
              (package_path_of project_path ARTIFACTS_FOLDER package)
            = true).
Proof.
  intros Hall nonexistent_packages.
  assert (Hrun :
            validate_deployment_packages project_path ARTIFACTS_FOLDER
              path_exists meta_resources
            = match nonexistent_packages with
              | [] => Validated
              | _ => NotProperlyConfigured nonexistent_packages
              end).
  { unfold validate_deployment_packages.
    rewrite (artifact_paths_strings _ Hall). cbn [bind build_path].
    rewrite nonexistent_from. reflexivity. }
  split; [exact Hrun|]. rewrite Hrun.
  assert (Hempty :
            match nonexistent_packages with
            | [] => Validated
            | _ => NotProperlyConfigured nonexistent_packages
            end = Validated
            <-> nonexistent_packages = []).
  { destruct nonexistent_packages; split; try reflexivity; discriminate. }
  etransitivity; [exact Hempty|]. subst nonexistent_packages.
  etransitivity; [apply nothing_missing|]. split.
  - intros Hex package Hin. apply Hex. now apply in_map.
  - intros Hex path Hin. apply in_map_iff in Hin as (package & <- & Hin).
    now apply Hex.
Qed.

(** ** A pass for a name that does not occur *)

Lemma str_contains_refl (s : string) : str_contains s s = true.
Proof. destruct s; cbn [str_contains]; now rewrite prefix_refl. Qed.

Lemma mentions_list (old_value : string) (l : list value) :
  mentions old_value (VList l) = false ->
  forall x, In x l -> mentions old_value x = false.
Proof.
  induction l as [|y l IH]; intros Hm x Hin; [contradiction|].
  cbn [mentions] in Hm. apply orb_false_iff in Hm as [Hy Hl].
  destruct Hin as [<-|Hin]; [assumption|]. now apply IH.
Qed.

Lemma mentions_dict (old_value : string) (d : dict) :
  mentions old_value (VDict d) = false ->
  forall k x, In (k, x) d -> mentions old_value x = false.
Proof.
  induction d as [|[k0 y] d IH]; intros Hm k x Hin; [contradiction|].
  cbn [mentions] in Hm. apply orb_false_iff in Hm as [Hy Hd].
  destruct Hin as [Heq|Hin]; [congruence|]. eapply IH; eassumption.
Qed.

Lemma list_set_same (l : list value) :
  forall i x, nth_error l i = Some x -> list_set i x l = l.
Proof.
  induction l as [|y l IH]; intros i x Hnth; destruct i; cbn in *;
    try congruence.
  f_equal. now apply IH.
Qed.

Lemma list_loop_no_mention (rec : value -> value)
  (old_value new_value : string) (l : list value) :
  (forall x, In x l -> mentions old_value x = false) ->
  (forall x, mentions old_value x = false -> rec x = x) ->
  forall steps i, list_loop rec old_value new_value steps i l = l.
Proof.
  intros Hl Hrec. induction steps as [|steps IH]; intros i; [reflexivity|].
  cbn [list_loop]. destruct (nth_error l i) as [item|] eqn:Hnth;
    [|reflexivity].
  assert (Hitem : mentions old_value item = false)
    by (apply Hl; eapply nth_error_In; eassumption).
  assert (Hsame : match item with
                  | VDict _ => list_set i (rec item) l
                  | VStr s =>
                      if s =? old_value
                      then remove_first (VStr old_value) l
                             ++ [VStr new_value]
                      else l
                  | _ => l
                  end = l).
  { destruct item; try reflexivity.
    - destruct (String.eqb_spec s old_value) as [->|Hne]; [|reflexivity].
      cbn [mentions] in Hitem. now rewrite str_contains_refl in Hitem.
    - rewrite (Hrec _ Hitem). now apply list_set_same. }
  rewrite Hsame. apply IH.
Qed.

Lemma resolve_item_no_mention (rec : value -> value)
  (old_value new_value : string) (v : value) :
  (forall x, mentions old_value x = false -> rec x = x) ->
  mentions old_value v = false ->
  resolve_item rec old_value new_value v = v.
Proof.
  intros Hrec Hm. destruct v; cbn [resolve_item]; try now apply Hrec.
  cbn [mentions] in Hm.
  destruct (String.eqb_spec old_value s) as [->|Hne].
  - now rewrite str_contains_refl in Hm.
  - rewrite Hm. cbn [andb]. now apply Hrec.
Qed.

Lemma resolve_names_no_mention (old_value new_value : string) :
  forall fuel v,
    mentions old_value v = false ->
    resolve_names fuel old_value new_value v = v.
Proof.
  induction fuel as [|fuel IH]; intros v Hm; [reflexivity|].
  cbn [resolve_names]. destruct v; try reflexivity.
  - f_equal. apply list_loop_no_mention; [|exact IH].
    now apply mentions_list.
  - f_equal. pose proof (mentions_dict _ _ Hm) as Hd. clear Hm.
    induction d as [|[k x] d IHd]; [reflexivity|].
    cbn [map fst snd]. f_equal.
    + f_equal. apply resolve_item_no_mention; [exact IH|].
      apply (Hd k). now left.
    + apply IHd. intros k' x' Hin. apply (Hd k'). now right.
Qed.

(** X11: a rewriting pass for a name that occurs in no string of a value,
    at any depth, leaves the value as it is. *)
Theorem pass_without_occurrence_changes_nothing
  (old_value new_value : string) (resources_dict : value) :
  mentions old_value resources_dict = false ->
  _resolve_names_in_meta resources_dict old_value new_value
  = resources_dict.
Proof. intros Hm. now apply resolve_names_no_mention. Qed.

(** X12: a rewriting pass renames no key of the dictionary it is given
    and changes the length of no list it is given, although it removes
    elements of the list and appends others while it iterates. *)
Theorem pass_keeps_keys_and_lengths (old_value new_value : string) :
  (forall d,
      exists d',
        _resolve_names_in_meta (VDict d) old_value new_value = VDict d'
        /\ dict_keys d' = dict_keys d)
  /\ (forall l,
         exists l',
           _resolve_names_in_meta (VList l) old_value new_value = VList l'
           /\ length l' = length l).
Proof.
  split.
  - intros d. rewrite resolve_dict. eexists. split; [reflexivity|].
    apply dict_keys_map_values.
  - intros l. rewrite resolve_list. eexists. split; [reflexivity|].
    apply list_loop_length.
Qed.

(** ** [resolve_meta] as a whole *)

Lemma dict_set_keys {A : Type} (k : string) (v : A) (d : list (string * A)) :
  dict_keys (dict_set k v d)
  = if dict_in k d then dict_keys d else dict_keys d ++ [k].
Proof.
  induction d as [|[k0 v0] d IH]; [reflexivity|].
  unfold dict_in in *. cbn [dict_set dict_lookup].
  destruct (k =? k0) eqn:E.
  - apply String.eqb_eq in E. subst k0. reflexivity.
  - unfold dict_keys in *. cbn [map fst]. rewrite IH.
    destruct (dict_lookup k d); reflexivity.
Qed.

Lemma dict_set_NoDup {A : Type} (k : string) (v : A) (d : list (string * A)) :
  NoDup (dict_keys d) -> NoDup (dict_keys (dict_set k v d)).
Proof.
  intros Hnd. rewrite dict_set_keys. unfold dict_in.
  destruct (dict_lookup k d) eqn:E; [assumption|].
  apply dict_lookup_None in E. now apply NoDup_snoc.
Qed.

Lemma dict_set_keeps_keys {A : Type} (k k' : string) (v : A)
  (d : list (string * A)) :
  In k (dict_keys d) -> In k (dict_keys (dict_set k' v d)).
Proof.
  intros Hin. rewrite dict_set_keys.
  destruct (dict_in k' d); [assumption|]. apply in_or_app. now left.
Qed.

Lemma dict_set_length {A : Type} (k : string) (v : A) (d : list (string * A)) :
  length (dict_set k v d) <= S (length d).
Proof.
  pose proof (f_equal (@length string) (dict_set_keys k v d)) as Hk.
  unfold dict_keys in Hk. rewrite length_map in Hk. rewrite Hk.
  destruct (dict_in k d); rewrite ?length_app, length_map;
    cbn [length]; lia.
Qed.

Lemma dict_remove_keeps_keys {A : Type} (k c : string)
  (d : list (string * A)) :
  k <> c -> In k (dict_keys d) -> In k (dict_keys (dict_remove c d)).
Proof.
  intros Hne Hin. apply dict_lookup_Some_key.
  rewrite dict_lookup_remove_neq by assumption.
  now apply dict_lookup_Some_key.
Qed.

(** One renaming of a key that is there: it returns, and adds no key. *)
Lemma rename_resource_returns (overall_meta : dict)
  (current_name resolved_name : string) :
  NoDup (dict_keys overall_meta) ->
  In current_name (dict_keys overall_meta) ->
  exists overall_meta',
    rename_resource overall_meta current_name resolved_name
    = Ok overall_meta'
    /\ NoDup (dict_keys overall_meta')
    /\ length overall_meta' <= length overall_meta
    /\ forall k, k <> current_name ->
                 In k (dict_keys overall_meta) ->
                 In k (dict_keys overall_meta').
Proof.
  intros Hnd Hin. pose proof Hin as Hkey.
  apply dict_lookup_Some_key in Hkey as [popped Hpop].
  unfold rename_resource. rewrite (subscript_lookup _ _ _ Hpop).
  cbn [bind]. rewrite resolve_dict. cbn [dict_of].
  eexists. split; [reflexivity|].
  rewrite dict_keys_map_values, length_map.
  destruct (dict_remove_NoDup current_name _ Hnd) as [Hnd' _].
  split; [now apply dict_set_NoDup|]. split.
  - pose proof (dict_set_length resolved_name popped
                  (dict_remove current_name overall_meta)).
    pose proof (dict_remove_length current_name overall_meta Hin). lia.
  - intros k Hne Hk. apply dict_set_keeps_keys.
    now apply dict_remove_keeps_keys.
Qed.

Lemma rename_loop_returns :
  forall (resolved_names : list (string * string)) (overall_meta : dict),
    NoDup (map fst resolved_names) ->
    NoDup (dict_keys overall_meta) ->
    (forall c, In c (map fst resolved_names) ->
               In c (dict_keys overall_meta)) ->
    exists overall_meta',
      for_fold (fun meta kv => rename_resource meta (fst kv) (snd kv))
        resolved_names overall_meta
      = Ok overall_meta'
      /\ NoDup (dict_keys overall_meta')
      /\ length overall_meta' <= length overall_meta.
Proof.
  induction resolved_names as [|[c r] todo IH];
    intros overall_meta Htodo Hnd Hkeys.
  - exists overall_meta. cbn. auto.
  - cbn [map fst] in Htodo. apply NoDup_cons_iff in Htodo as [Hc Htodo].
    destruct (rename_resource_returns overall_meta c r Hnd)
      as (meta1 & Hrun & Hnd1 & Hlen1 & Hkeep).
    { apply Hkeys. now left. }
    destruct (IH meta1 Htodo Hnd1) as (meta2 & Hloop & Hnd2 & Hlen2).
    { intros c' Hc'. apply Hkeep; [congruence|].
      apply Hkeys. now right. }
    exists meta2. cbn [for_fold fst snd]. rewrite Hrun. cbn [bind].
    repeat split; [assumption|assumption|lia].
Qed.

(** The renamings the second loop records have distinct current names,
    which are keys of the dictionary. *)
Lemma collect_keys (overall_meta : dict) :
  forall resolved_names recorded,
    for_fold (fun resolved_names kv =>
                let (name, res_meta) := kv : string * value in
                resource_type <- subscript_value res_meta "resource_type" ;;
                if negb (hashable resource_type) then Raise TypeError else
                if value_in_keys resource_type GLOBAL_AWS_SERVICES then
                  let resolved_name := resolve_resource_name name in
                  if negb (name =? resolved_name)
                  then Ok (dict_set name resolved_name resolved_names)
                  else Ok resolved_names
                else Ok resolved_names)
      overall_meta resolved_names
    = Ok recorded ->
    NoDup (dict_keys resolved_names) ->
    NoDup (dict_keys recorded)
    /\ forall c, In c (dict_keys recorded) ->
                 In c (dict_keys resolved_names)
                 \/ In c (dict_keys overall_meta).
Proof.
  induction overall_meta as [|[k v] m IH]; intros acc recorded Hrun Hnd.
  - cbn in Hrun. assert (recorded = acc) by congruence. subst. auto.
  - cbn [for_fold] in Hrun. apply bind_inv in Hrun as (acc1 & Hbody & Hrun).
    assert (Hacc1 : acc1 = acc \/ exists r, acc1 = dict_set k r acc).
    { apply bind_inv in Hbody as (t & _ & Hbody).
      destruct (negb (hashable t)); [discriminate|].
      destruct (value_in_keys t GLOBAL_AWS_SERVICES);
        [|left; congruence].
      cbv zeta in Hbody. destruct (negb _).
      - right. eexists. symmetry. injection Hbody as Hbody. exact Hbody.
      - left. congruence. }
    assert (Hnd1 : NoDup (dict_keys acc1)).
    { destruct Hacc1 as [Heq|[r Heq]]; subst acc1;
        [assumption|now apply dict_set_NoDup]. }
    destruct (IH _ _ Hrun Hnd1) as [Hrec Hsub]. split; [assumption|].
    intros c Hc. cbn [dict_keys map fst].
    destruct (Hsub c Hc) as [Hin|Hin]; [|right; now right].
    destruct Hacc1 as [Heq|[r Heq]]; subst acc1; [now left|].
    rewrite dict_set_keys in Hin. destruct (dict_in k acc); [now left|].
    apply in_app_or in Hin as [Hin|[Heq|[]]]; [now left|].
    right. now left.
Qed.

(** X13: once the second loop of [resolve_meta] has recorded the
    renamings without raising, the third loop raises nothing, even when a
    new name is already a key: every [pop] finds its key, and
    [resolve_meta] returns a dictionary with distinct keys that has no
    more entries than the one the alias pass returned. *)
Theorem renaming_loop_never_raises (overall_meta : dict)
  (resolved_names : list (string * string)) :
  NoDup (dict_keys (resolve_aliases overall_meta)) ->
  collect_resolved_names (resolve_aliases overall_meta)
  = Ok resolved_names ->
  exists overall_meta',
    resolve_meta overall_meta = Ok overall_meta'
    /\ NoDup (dict_keys overall_meta')
    /\ length overall_meta' <= length (resolve_aliases overall_meta).
Proof.
  intros Hnd Hcollect. unfold resolve_meta. cbv zeta.
  rewrite Hcollect. cbn [bind].
  unfold collect_resolved_names in Hcollect.
  destruct (collect_keys _ _ _ Hcollect (NoDup_nil _)) as [Hdistinct Hkeys].
  apply rename_loop_returns; [exact Hdistinct|assumption|].
  intros c Hc. destruct (Hkeys c Hc) as [[]|Hin]. exact Hin.
Qed.

(** With an entry that has no resource type the second loop raises, at
    that entry or before it. *)
Lemma collect_stops (overall_meta : dict) :
  (exists name v, In (name, v) overall_meta /\ untyped v) ->
  forall resolved_names,
    exists e,
      for_fold (fun resolved_names kv =>
                  let (name, res_meta) := kv : string * value in
                  resource_type <- subscript_value res_meta "resource_type" ;;
                  if negb (hashable resource_type) then Raise TypeError else
                  if value_in_keys resource_type GLOBAL_AWS_SERVICES then
                    let resolved_name := resolve_resource_name name in
                    if negb (name =? resolved_name)
                    then Ok (dict_set name resolved_name resolved_names)
                    else Ok resolved_names
                  else Ok resolved_names)
        overall_meta resolved_names
      = Raise e.
Proof.
  induction overall_meta as [|[k v] m IH]; intros Hun acc.
  - destruct Hun as (n & x & [] & _).
  - cbn [for_fold].
    match goal with
    | |- exists e, bind ?c _ = _ => destruct c as [acc1|e1] eqn:Ebody
    end.
    + cbn [bind]. apply IH.
      destruct Hun as (n & x & [Heq|Hin] & Hx); [|eauto].
      exfalso. destruct Hx as (entry & Hv & Hnone).
      assert (v = VDict entry) by congruence. subst v.
      cbn [subscript_value] in Ebody. unfold subscript in Ebody.
      rewrite Hnone in Ebody. discriminate.
    + exists e1. reflexivity.
Qed.

Lemma collect_untyped (overall_meta : dict) :
  (forall name v, In (name, v) overall_meta -> type_is_hashable v) ->
  (forall name v, In (name, v) overall_meta -> eligible v = false) ->
  (exists name v, In (name, v) overall_meta /\ untyped v) ->
  forall resolved_names,
    for_fold (fun resolved_names kv =>
                let (name, res_meta) := kv : string * value in
                resource_type <- subscript_value res_meta "resource_type" ;;
                if negb (hashable resource_type) then Raise TypeError else
                if value_in_keys resource_type GLOBAL_AWS_SERVICES then
                  let resolved_name := resolve_resource_name name in
                  if negb (name =? resolved_name)
                  then Ok (dict_set name resolved_name resolved_names)
                  else Ok resolved_names
                else Ok resolved_names)
      overall_meta resolved_names
    = Raise (KeyError "resource_type").
Proof.
  induction overall_meta as [|[name v] m IH]; intros Hd Hel Hun acc.
  - destruct Hun as (n & x & [] & _).
  - destruct (Hd name v (or_introl eq_refl)) as (entry & -> & Hh).
    pose proof (Hel name _ (or_introl eq_refl)) as He.
    cbn [eligible] in He. unfold dict_get, dict_get_default in Hh, He.
    cbn [for_fold subscript_value]. unfold subscript.
    destruct (dict_lookup "resource_type" entry) as [t|] eqn:Et;
      [|reflexivity].
    assert (Hd' : forall n x, In (n, x) m -> type_is_hashable x).
    { intros n x Hin. apply (Hd n x). now right. }
    assert (Hel' : forall n x, In (n, x) m -> eligible x = false).
    { intros n x Hin. apply (Hel n x). now right. }
    assert (Hun' : exists n x, In (n, x) m /\ untyped x).
    { destruct Hun as (n & x & [Heq|Hin] & Hx); [|eauto].
      destruct Hx as (entry' & Hv & Hnone).
      assert (entry' = entry) by congruence. congruence. }
    cbn [bind]. rewrite Hh, He. cbn [negb bind].
    apply (IH Hd' Hel' Hun').
Qed.

(** X14: a dictionary with an entry that has no resource type is never
    renamed: [resolve_meta] raises, at that entry or before it.  When the
    entries are dictionaries whose resource type, where there is one, can
    be hashed and is not eligible, the walk reaches the entry and the
    error is the [KeyError] of the attribute. *)
Theorem untyped_entry_stops_renaming (overall_meta : dict) :
  (exists name v, In (name, v) (resolve_aliases overall_meta) /\ untyped v) ->
  (exists e, resolve_meta overall_meta = Raise e)
  /\ ((forall name v,
          In (name, v) (resolve_aliases overall_meta) ->
          type_is_hashable v) ->
      (forall name v,
          In (name, v) (resolve_aliases overall_meta) ->
          eligible v = false) ->
      resolve_meta overall_meta = Raise (KeyError "resource_type")).
Proof.
  intros Hun. split.
  - destruct (collect_stops _ Hun []) as [e He]. exists e.
    assert (Hcollect : collect_resolved_names (resolve_aliases overall_meta)
                       = Raise e) by exact He.
    unfold resolve_meta. cbv zeta. now rewrite Hcollect.
  - intros Hd Hel.
    assert (Hcollect : collect_resolved_names (resolve_aliases overall_meta)
                       = Raise (KeyError "resource_type"))
      by exact (collect_untyped _ Hd Hel Hun []).
    unfold resolve_meta. cbv zeta. now rewrite Hcollect.
Qed.

Lemma collect_unchanged_names (overall_meta : dict) :
  (forall name, resolve_resource_name name = name) ->
  entries_have_type overall_meta ->
  forall resolved_names,
    for_fold (fun resolved_names kv =>
                let (name, res_meta) := kv : string * value in
                resource_type <- subscript_value res_meta "resource_type" ;;
                if negb (hashable resource_type) then Raise TypeError else
                if value_in_keys resource_type GLOBAL_AWS_SERVICES then
                  let resolved_name := resolve_resource_name name in
                  if negb (name =? resolved_name)
                  then Ok (dict_set name resolved_name resolved_names)
                  else Ok resolved_names
                else Ok resolved_names)
      overall_meta resolved_names
    = Ok resolved_names.
Proof.
  intros Hsame. induction overall_meta as [|[name v] m IH];
    intros Htyped acc; [reflexivity|].
  destruct (Htyped name v (or_introl eq_refl))
    as (entry & t & -> & Ht & Hh).
  cbn [for_fold subscript_value]. rewrite (subscript_lookup _ _ _ Ht).
  cbn [bind]. rewrite Hh. cbn [negb].
  assert (Htyped' : entries_have_type m).
  { intros n x Hin. apply (Htyped n x). now right. }
  pose proof (IH Htyped') as Htail.
  destruct (value_in_keys t GLOBAL_AWS_SERVICES); [|apply Htail].
  cbv zeta. rewrite Hsame, String.eqb_refl. cbn [negb bind]. apply Htail.
Qed.

(** X15: when neither the prefix nor the suffix adds anything to a name,
    [resolve_meta] moves and rewrites nothing: for entries with a
    resource type that can be hashed, eligible or not, it returns the
    dictionary that the alias pass returns. *)
Theorem unaffixed_manifest_is_only_aliased (overall_meta : dict) :
  resolved_prefix = "" -> resolved_suffix = "" ->
  entries_have_type (resolve_aliases overall_meta) ->
  resolve_meta overall_meta = Ok (resolve_aliases overall_meta).
Proof.
  intros Hp Hs Htyped.
  assert (Hsame : forall name, resolve_resource_name name = name).
  { intros name. rewrite resolve_resource_name_eq, Hp, Hs.
    cbn [append]. apply append_empty_r. }
  assert (Hcollect : collect_resolved_names (resolve_aliases overall_meta)
                     = Ok [])
    by exact (collect_unchanged_names _ Hsame Htyped []).
  unfold resolve_meta. cbv zeta. now rewrite Hcollect.
Qed.

(** ** Names *)

Lemma resolve_resource_name_by_data_eq (resource_name : string)
  (resource_prefix resource_suffix : option string) :
  resolve_resource_name_by_data resource_name resource_prefix
    resource_suffix
  = (resolved_affix resource_prefix ++ resource_name
       ++ resolved_affix resource_suffix)%string.
Proof.
  unfold resolve_resource_name_by_data, _resolve_suffix_name,
    _resolve_prefix_name, resolved_affix.
  destruct (configured resource_prefix), (configured resource_suffix);
    cbn [append]; rewrite ?append_empty_r; try reflexivity.
  induction (resolve_aliases_for_string s) as [|a p IH]; cbn [append];
    [reflexivity|]. now rewrite IH.
Qed.

(** X16: [resolve_resource_name_by_data] puts what the prefix adds before
    the name and what the suffix adds after it (nothing for a setting
    that is [None] or empty).  So two names that resolve to the same name
    are the same name, and a name resolves to itself exactly when
    neither setting adds anything. *)
Theorem resolution_by_data_is_injective
  (resource_prefix resource_suffix : option string) :
  (forall a b,
      resolve_resource_name_by_data a resource_prefix resource_suffix
      = resolve_resource_name_by_data b resource_prefix resource_suffix ->
      a = b)
  /\ (forall name,
         resolve_resource_name_by_data name resource_prefix resource_suffix
         = name
         <-> resolved_affix resource_prefix = ""
             /\ resolved_affix resource_suffix = "").
Proof.
  split.
  - intros a b Heq. rewrite !resolve_resource_name_by_data_eq in Heq.
    apply append_inv_head in Heq. now apply append_inv_tail in Heq.
  - intros name. rewrite resolve_resource_name_by_data_eq. split.
    + intros Heq. apply (f_equal String.length) in Heq.
      rewrite !length_append in Heq.
      destruct (resolved_affix resource_prefix),
        (resolved_affix resource_suffix); cbn [String.length] in Heq;
        try lia. auto.
    + intros [-> ->]. cbn [append]. apply append_empty_r.
Qed.

(** ** A lambda configuration without a resource type *)

(** X17: a lambda configuration that has no resource type gets no storage
    location and is stored as it is when its name is new; when its name
    is already a key, reading its type raises [KeyError] and the
    dictionary stays as it was. *)
Theorem untyped_lambda_needs_a_new_name (lambda_conf : dict)
  (bundle_name lambda_name : string) (resources_meta : dict) :
  dict_lookup "name" lambda_conf = Some (VStr lambda_name) ->
  dict_lookup "resource_type" lambda_conf = None ->
  process_lambda_config (VDict lambda_conf) bundle_name resources_meta
  = if dict_in lambda_name resources_meta
    then (resources_meta, Raise (KeyError "resource_type"))
    else (resources_meta ++ [(lambda_name, VDict lambda_conf)], Ok tt).
Proof.
  intros Hname Hnone.
  assert (Hpop : _populate_s3_path lambda_conf bundle_name = Ok lambda_conf).
  { unfold _populate_s3_path, dict_get, dict_get_default.
    rewrite Hnone. reflexivity. }
  unfold process_lambda_config, bindM, liftM, read_meta, set_item.
  cbn [subscript_value as_dict]. rewrite (subscript_lookup _ _ _ Hname).
  rewrite Hpop. cbn [as_name]. unfold _check_duplicated_resources.
  destruct (dict_in lambda_name resources_meta) eqn:Hin.
  - unfold subscript. rewrite Hnone. reflexivity.
  - cbn [merged_or]. rewrite dict_set_fresh; [reflexivity|].
    apply dict_lookup_None. unfold dict_in in Hin.
    destruct (dict_lookup lambda_name resources_meta); congruence.
Qed.

(** ** From discovery to validation *)

Lemma look_for_configs_distinct (bundle_name : string) :
  forall nested_files s s' r,
    NoDup (dict_keys s) ->
    _look_for_configs nested_files bundle_name s = (s', r) ->
    NoDup (dict_keys s').
Proof.
  intros nested_files. unfold _look_for_configs.
  apply (for_eachM_invariant (fun s => NoDup (dict_keys s))).
  intros [each_name content] s s' r HP Hrun.
  unfold bindM in Hrun.
  destruct (whenM (endswith each_name LAMBDA_CONFIG_FILE_NAME) _ s)
    as [s1 r1] eqn:Elam.
  assert (HP1 : NoDup (dict_keys s1)).
  { unfold whenM in Elam. destruct (endswith _ _).
    - destruct r1 as [[]|e].
      + apply process_lambda_config_stored in Elam
          as (conf & name & populated & res & _ & _ & _ & _ & ->).
        now apply dict_set_NoDup.
      + apply process_lambda_config_abort in Elam as [-> _]. assumption.
    - unfold retM in Elam. inversion Elam; subst. assumption. }
  destruct r1 as [u|e]; [|inversion Hrun; subst; assumption].
  unfold whenM in Hrun. destruct (each_name =? RESOURCES_FILE_NAME).
  2:{ unfold retM in Hrun. inversion Hrun; subst. assumption. }
  unfold bindM, liftM in Hrun.
  destruct (py_iter content) as [names|e];
    [|inversion Hrun; subst; assumption].
  revert Hrun.
  apply (for_eachM_invariant (fun s => NoDup (dict_keys s)));
    [|assumption].
  intros x t t' r' HPt Hx. destruct r' as [[]|e].
  - apply process_resource_stored in Hx
      as (name & resource & ty & populated & res
          & _ & _ & _ & _ & _ & _ & ->).
    now apply dict_set_NoDup.
  - apply process_resource_abort in Hx as [-> _]. assumption.
Qed.

(** X18: the dictionary that [create_resource_json] returns can be given
    to [artifact_paths], which raises nothing on it, and the packages it
    returns include the storage location of every entry whose resource
    type is the lambda or the Beanstalk one. *)
Theorem created_packages_are_listed (walk : list (list file))
  (bundle_name : string) (resources_meta : dict) :
  S3_PATH_NAME <> "resource_type" ->
  ~ merged_attribute S3_PATH_NAME ->
  create_resource_json walk bundle_name = Ok resources_meta ->
  exists package_paths,
    artifact_paths resources_meta = Ok package_paths
    /\ forall name entry t,
         dict_lookup name resources_meta = Some (VDict entry) ->
         dict_lookup "resource_type" entry = Some (VStr t) ->
         t = LAMBDA_TYPE \/ t = EBS_TYPE ->
         exists part,
           dict_lookup S3_PATH_NAME entry
           = Some (VStr (bundle_name ++ "/" ++ part))
           /\ In (VStr (bundle_name ++ "/" ++ part)) package_paths.
Proof.
  intros Hs3 Hmerged Hrun. unfold create_resource_json in Hrun.
  destruct (walk_project walk bundle_name []) as [m [u|e]] eqn:Ewalk;
    [|discriminate].
  destruct (check_dependencies m); [|discriminate].
  cbn [bind] in Hrun. assert (resources_meta = m) by congruence. subst m.
  unfold walk_project in Ewalk.
  assert (Hpack : packaged bundle_name resources_meta).
  { revert Ewalk. apply for_eachM_invariant.
    - intros nested s s' r. now apply look_for_configs_packaged.
    - intros name v Hnone. discriminate. }
  assert (Hnd : NoDup (dict_keys resources_meta)).
  { revert Ewalk.
    apply (for_eachM_invariant (fun s => NoDup (dict_keys s))).
    - intros nested s s' r. apply look_for_configs_distinct.
    - constructor. }
  assert (Hd : entries_are_dicts resources_meta).
  { intros name v Hin. apply (dict_lookup_NoDup _ _ _ Hnd) in Hin.
    destruct (Hpack _ _ Hin) as (entry & -> & _). eauto. }
  apply entries_are_dicts_forallb in Hd.
  unfold artifact_paths. rewrite retrieve_all, Hd. cbn [bind].
  eexists. split; [reflexivity|].
  intros name entry t Hentry Ht Hrule.
  destruct (Hpack _ _ Hentry) as (entry' & Heq & Hloc).
  assert (entry' = entry) by congruence. subst entry'.
  destruct (Hloc t Ht Hrule) as (part & Hpart).
  exists part. split; [assumption|].
  rewrite filter_retrieved. apply filter_In.
  split; [|apply location_not_empty].
  apply in_map_iff. exists (VDict entry). split.
  - cbn [dict_of]. now apply dict_get_lookup.
  - apply in_map_iff. exists (name, VDict entry).
    split; [reflexivity|]. now apply dict_lookup_In.
Qed.

End MetaProcessor.

(** * The sample project, run *)

Ltac distinct_keys :=
  repeat constructor; simpl; intuition discriminate.

Lemma depends_on_named (name : string) : named_dependency (depends_on name).
Proof.
  exists [("resource_name", VStr name)], (VStr name).
  repeat split; reflexivity.
Defined.

(** C1 on the two descriptions of [shop]: the merge lists the
    dependencies of the incoming description, then [orders]. *)
Lemma composite_entries_are_merged_witness :
  exists merged,
    @_check_duplicated_resources sample_collaborators
      [("shop", VDict shop_orders)] "shop" shop_users = Ok (Some merged)
    /\ dict_lookup "dependencies" merged
       = Some (VList [depends_on "auth"; depends_on "users";
                      depends_on "orders"])
    /\ dict_lookup "deploy_stage" merged = Some (VStr "prod")
    /\ dict_lookup "apply_changes" merged
       = Some (VList [VStr "first"; VStr "second"]).
Proof.
  destruct (@composite_entries_are_merged sample_collaborators
              [("shop", VDict shop_orders)] "shop" shop_orders shop_users
              [("/orders", VDict [("method", VStr "GET")])]
              [("/users", VDict [("method", VStr "POST")])]
              [depends_on "orders"; depends_on "auth"]
              [depends_on "auth"; depends_on "users"]
              [VStr "first"] [VStr "second"])
    as (merged & merged_res & Hrun & _ & _ & Hdeps & _ & Hstage & Happly & _).
  - reflexivity.
  - reflexivity.
  - reflexivity.
  - reflexivity.
  - distinct_keys.
  - reflexivity.
  - simpl. intuition (subst; discriminate).
  - reflexivity.
  - repeat constructor; apply depends_on_named.
  - reflexivity.
  - repeat constructor; apply depends_on_named.
  - reflexivity.
  - reflexivity.
  - reflexivity.
  - exists merged. split; [exact Hrun|]. split; [|split].
    + rewrite Hdeps. reflexivity.
    + rewrite Hstage. reflexivity.
    + rewrite Happly. reflexivity.
Defined.

(** C1 as stated fails on two descriptions without [dependencies]: both
    are composite, their sub-resources are distinct and neither configures
    the cache, and the merge raises [KeyError].  It also fails on an
    existing [deploy_stage] that is empty: the merged entry keeps the
    stage of the incoming one. *)
Lemma composite_merge_needs_dependencies :
  (@is_composite sample_collaborators shop_orders_bare
   /\ @is_composite sample_collaborators shop_users_bare
   /\ first_clash ["/orders"] ["/users"] = None
   /\ dict_lookup "cluster_cache_configuration" shop_orders_bare = None
   /\ dict_lookup "cluster_cache_configuration" shop_users_bare = None
   /\ @_check_duplicated_resources sample_collaborators
        [("shop", VDict shop_orders_bare)] "shop" shop_users_bare
      = Raise (KeyError "dependencies"))
  /\ (dict_lookup "deploy_stage" shop_orders_unstaged = Some (VStr "")
      /\ exists merged,
          @_check_duplicated_resources sample_collaborators
            [("shop", VDict shop_orders_unstaged)] "shop" shop_users_staged
          = Ok (Some merged)
          /\ dict_lookup "deploy_stage" merged = Some (VStr "dev")).
Proof.
  split; [repeat split|]. split; [reflexivity|].
  eexists. split; reflexivity.
Qed.

(** C2 on a queue and its reader. *)
Lemma eligible_entries_are_renamed_witness :
  exists overall_meta',
    @resolve_meta sample_collaborators queue_and_reader = Ok overall_meta'
    /\ dict_lookup "dev-queueA" overall_meta'
       = Some (VDict [("resource_type", VStr "sqs_queue")])
    /\ dict_lookup "queueA" overall_meta' = None.
Proof.
  destruct (@eligible_entries_are_renamed sample_collaborators
              queue_and_reader)
    as (meta' & Hrun & Hentries & _).
  - distinct_keys.
  - intros name v [Heq|[Heq|[]]]; inversion Heq; subst;
      do 2 eexists; (split; [reflexivity|split; reflexivity]).
  - intros name v Hl He Hne. simpl in Hl.
    destruct (String.eqb_spec name "queueA") as [->|_].
    + simpl. intuition discriminate.
    + destruct (String.eqb_spec name "reader") as [->|_]; [|discriminate].
      inversion Hl; subst v. discriminate He.
  - exists meta'. split; [exact Hrun|]. split.
    + exact (Hentries "queueA" _ eq_refl).
    + vm_compute in Hrun. inversion Hrun. reflexivity.
Defined.

(** C2 as stated fails when a new name is already a key: [q] is eligible
    and its new name is [dev-q], yet the result has no key [dev-q]; its
    entry sits under [dev-dev-q] and the entry of [dev-q] is gone. *)
Lemma renaming_onto_a_key_loses_an_entry :
  @resolve_resource_name sample_collaborators "q" = "dev-q"
  /\ @resolve_resource_name sample_collaborators "dev-q" = "dev-dev-q"
  /\ @resolve_meta sample_collaborators colliding_queues
     = Ok [("dev-dev-q",
            VDict [("resource_type", VStr "sqs_queue");
                   ("tag", VStr "first")])].
Proof. repeat split. Qed.

(** A resource type that cannot be hashed: the membership test of the
    second loop raises. *)
Example list_typed_role_is_rejected :
  @resolve_meta sample_collaborators list_typed_role = Raise TypeError.
Proof. reflexivity. Qed.

(** One pass on the reader of the queue: the name in its dependency is
    rewritten. *)
Lemma names_are_rewritten_in_attributes_witness :
  exists d',
    reaches "queueA"
      (_resolve_names_in_meta (VDict queue_and_reader) "queueA" "dev-queueA")
      [Key "reader"; Key "dependencies"; Index 0] (VDict d')
    /\ dict_lookup "resource_name" d' = Some (VStr "dev-queueA").
Proof.
  refine (proj1 (names_are_rewritten_in_attributes "queueA" "dev-queueA")
            (VDict queue_and_reader)
            [Key "reader"; Key "dependencies"; Index 0]
            [("resource_name", VStr "queueA")] "resource_name" "queueA"
            _ eq_refl).
  eapply reaches_key; [reflexivity|].
  eapply reaches_key; [reflexivity|].
  eapply reaches_index; [reflexivity| |apply reaches_here].
  simpl. intuition discriminate.
Defined.

(** C3 fails on a string that is an element of a list.  The reference to
    the queue starts with "arn" and contains the old name, so the
    replacement rule rewrites it, and as the value of an attribute
    [resolve_meta] does rewrite it; as an element of a list it is left
    as it is, with the old name. *)
Theorem reference_in_a_list_is_left_stale :
  rewrite_string "queueA" "dev-queueA" "arn:aws:sqs:eu-west-1:queueA"
  = "arn:aws:sqs:eu-west-1:dev-queueA"
  /\ _resolve_names_in_meta
       (VDict [("queue_arn", VStr "arn:aws:sqs:eu-west-1:queueA")])
       "queueA" "dev-queueA"
     = VDict [("queue_arn", VStr "arn:aws:sqs:eu-west-1:dev-queueA")]
  /\ _resolve_names_in_meta
       (VList [VStr "arn:aws:sqs:eu-west-1:queueA"]) "queueA" "dev-queueA"
     = VList [VStr "arn:aws:sqs:eu-west-1:queueA"]
  /\ @resolve_meta sample_collaborators queue_and_reader
     = Ok [("reader",
            VDict [("resource_type", VStr "lambda");
                   ("dependencies", VList [depends_on "dev-queueA"]);
                   ("queue_arn", VStr "arn:aws:sqs:eu-west-1:dev-queueA")]);
           ("dev-queueA", VDict [("resource_type", VStr "sqs_queue")])]
  /\ @resolve_meta sample_collaborators queue_in_list
     = Ok [("reader",
            VDict [("resource_type", VStr "lambda");
                   ("event_sources",
                    VList [VStr "arn:aws:sqs:eu-west-1:queueA"])]);
           ("dev-queueA", VDict [("resource_type", VStr "sqs_queue")])].
Proof. repeat (split; [reflexivity|]). reflexivity. Qed.

(** C4 on two lambdas named [svc]: the same description twice, and two
    versions. *)
Lemma same_type_collision_is_fatal_witness :
  @_check_duplicated_resources sample_collaborators
    [("svc", VDict svc_lambda)] "svc" svc_lambda
  = Raise (DuplicateResource "svc")
  /\ @_check_duplicated_resources sample_collaborators
       [("svc", VDict svc_lambda)] "svc" svc_lambda_v2
     = Raise (ConflictingResource "svc" (VDict svc_lambda)
                (VDict svc_lambda_v2))
  /\ ~ same_attributes svc_lambda_v2 svc_lambda.
Proof.
  split; [|split].
  - exact (proj1 (@same_type_collision_is_fatal sample_collaborators
                    [("svc", VDict svc_lambda)] "svc" svc_lambda svc_lambda
                    (VStr "lambda") (VStr "lambda")
                    eq_refl eq_refl eq_refl eq_refl eq_refl)).
  - exact (proj1 (@same_type_collision_is_fatal sample_collaborators
                    [("svc", VDict svc_lambda)] "svc" svc_lambda
                    svc_lambda_v2 (VStr "lambda") (VStr "lambda")
                    eq_refl eq_refl eq_refl eq_refl eq_refl)).
  - intros Hsame.
    apply (proj2 (@same_type_collision_is_fatal sample_collaborators
                    [("svc", VDict svc_lambda)] "svc" svc_lambda
                    svc_lambda_v2 (VStr "lambda") (VStr "lambda")
                    eq_refl eq_refl eq_refl eq_refl eq_refl)) in Hsame.
    + discriminate Hsame.
    + distinct_keys.
    + distinct_keys.
Defined.

(** C5 on a lambda that depends on a queue no file describes. *)
Lemma dependencies_are_checked_witness :
  exists reported,
    @create_resource_json sample_collaborators
      [[("lambda_config.json", VDict worker_lambda)]] "b1"
    = Raise (UnresolvedDependency reported).
Proof.
  destruct (proj2 (@dependencies_are_checked sample_collaborators
                     [[("lambda_config.json", VDict worker_lambda)]] "b1")
              [("worker",
                VDict (worker_lambda ++ [("s3_path",
                                          VStr "b1/worker-1.0.zip")]))]
              (VStr "jobs"))
    as (reported & _ & Hraise).
  - reflexivity.
  - intros name v Hl. simpl in Hl.
    destruct (name =? "worker"); [|discriminate].
    inversion Hl; subst v. eexists. split; [reflexivity|].
    intros deps Hd. simpl in Hd. inversion Hd; subst deps.
    eexists. split; [reflexivity|].
    repeat constructor. eexists. reflexivity.
  - exists "worker", (worker_lambda ++ [("s3_path",
                                       VStr "b1/worker-1.0.zip")]),
      [depends_on "jobs"], (depends_on "jobs").
    repeat split. now left.
  - exists reported. exact Hraise.
Defined.

(** C6 on two descriptions of [shop]: a shared sub-resource, and two
    cache configurations. *)
Lemma composite_collision_errors_witness :
  @_check_duplicated_resources sample_collaborators
    [("shop", VDict shop_orders)] "shop"
    (("cluster_cache_configuration", VDict [("cache_size", VStr "1.6")])
       :: shop_users)
  = Raise (DuplicateCacheConfig "shop")
  /\ exists each,
      @_check_duplicated_resources sample_collaborators
        [("shop", VDict shop_cached_a)] "shop" shop_cached_b
      = Raise (DuplicateSubResource "shop" each).
Proof.
  split.
  - refine (proj2 (@composite_collision_errors sample_collaborators
                     [("shop", VDict shop_orders)] "shop" shop_orders
                     (("cluster_cache_configuration",
                       VDict [("cache_size", VStr "1.6")]) :: shop_users)
                     [("/orders", VDict [("method", VStr "GET")])]
                     [("/users", VDict [("method", VStr "POST")])]
                     eq_refl eq_refl eq_refl eq_refl eq_refl)
              _ eq_refl eq_refl).
    simpl. intuition (subst; discriminate).
  - destruct (proj1 (@composite_collision_errors sample_collaborators
                       [("shop", VDict shop_cached_a)] "shop" shop_cached_a
                       shop_cached_b
                       [("/orders", VDict [])] [("/orders", VDict [])]
                       eq_refl eq_refl eq_refl eq_refl eq_refl))
      as (each & _ & _ & Hraise).
    + exists "/orders". simpl. auto.
    + exists each. exact Hraise.
Defined.

(** C6 as stated fails when both conditions hold: both descriptions
    configure the cache, a sub-resource is shared, and the error is the
    one of the sub-resource.  It also fails on a cache configuration that
    is empty: the two descriptions are merged. *)
Lemma shared_sub_resource_is_reported_first :
  (truthy (dict_get "cluster_cache_configuration" shop_cached_a) = true
   /\ truthy (dict_get "cluster_cache_configuration" shop_cached_b) = true
   /\ @_check_duplicated_resources sample_collaborators
        [("shop", VDict shop_cached_a)] "shop" shop_cached_b
      = Raise (DuplicateSubResource "shop" "/orders")
   /\ @_check_duplicated_resources sample_collaborators
        [("shop", VDict shop_cached_a)] "shop" shop_cached_b
      <> Raise (DuplicateCacheConfig "shop"))
  /\ (dict_lookup "cluster_cache_configuration" shop_cached_a
      = Some (VDict [("cache_size", VStr "0.5")])
      /\ dict_lookup "cluster_cache_configuration" shop_users_uncached
         = Some (VDict [])
      /\ exists merged,
          @_check_duplicated_resources sample_collaborators
            [("shop", VDict shop_cached_a)] "shop" shop_users_uncached
          = Ok (Some merged)).
Proof.
  split; [repeat split; discriminate|].
  split; [reflexivity|]. split; [reflexivity|].
  eexists. reflexivity.
Qed.

(** C7 on a lambda named like a queue that is already there. *)
Lemma type_mismatch_overwrites_witness :
  @process_lambda_config sample_collaborators (VDict svc_lambda) "b1"
    [("svc", VDict svc_queue)]
  = ([("svc", VDict (svc_lambda ++ [("s3_path", VStr "b1/svc-1.0.zip")]))],
     Ok tt).
Proof.
  refine (proj1 (proj2 (@type_mismatch_overwrites sample_collaborators
                          [("svc", VDict svc_queue)] "svc" "b1"
                          svc_queue svc_lambda
                          (svc_lambda ++ [("s3_path",
                                           VStr "b1/svc-1.0.zip")])
                          (VStr "sqs_queue") (VStr "lambda")
                          eq_refl eq_refl eq_refl eq_refl eq_refl))
            eq_refl).
Defined.

(** C9 on the lambda of the specification. *)
Lemma storage_location_rules_witness :
  @_populate_s3_path sample_collaborators svc_lambda "b1"
  = Ok (svc_lambda ++ [("s3_path", VStr "b1/svc-1.0.zip")]).
Proof.
  refine (proj2 (proj1 (proj2 (proj1 (proj2
            (@storage_location_rules sample_collaborators svc_lambda "b1"))
            eq_refl _)) "python2.7" eq_refl eq_refl)
            eq_refl eq_refl).
  discriminate.
Defined.

(** C10 on two versions of the lambda [svc]: the walk aborts with the
    first version stored, as the check found it. *)
Lemma collision_abort_keeps_manifest_witness :
  exists e,
    @walk_project sample_collaborators
      [[("lambda_config.json", VDict svc_lambda)];
       [("lambda_config.json", VDict svc_lambda_v2)]] "b1" []
    = ([("svc", VDict (svc_lambda ++ [("s3_path", VStr "b1/svc-1.0.zip")]))],
       Raise e)
    /\ @collision_found_in sample_collaborators
         [("svc", VDict (svc_lambda ++ [("s3_path",
                                         VStr "b1/svc-1.0.zip")]))] e.
Proof.
  eexists. split; [reflexivity|].
  refine (proj2 (proj2 (@collision_abort_keeps_manifest sample_collaborators))
            [[("lambda_config.json", VDict svc_lambda)];
             [("lambda_config.json", VDict svc_lambda_v2)]] "b1" []
            _ _ eq_refl I).
Defined.

(** C8 holds for an occurrence of the name that stands alone, and fails
    on two adjacent occurrences: removing the first moves the second under
    the iterator, which steps over it. *)
Theorem adjacent_names_are_not_all_replaced :
  _resolve_names_in_meta (VList [VStr "a"; VStr "q"; VStr "b"]) "q" "dev-q"
  = VList [VStr "a"; VStr "b"; VStr "dev-q"]
  /\ _resolve_names_in_meta (VList [VStr "q"; VStr "q"]) "q" "dev-q"
     = VList [VStr "q"; VStr "dev-q"]
  /\ @resolve_meta sample_collaborators queue_listed_twice
     = Ok [("reader",
            VDict [("resource_type", VStr "lambda");
                   ("event_sources", VList [VStr "q"; VStr "dev-q"])]);
           ("dev-q", VDict [("resource_type", VStr "sqs_queue")])].
Proof. repeat split. Qed.

(** * The further properties, run *)

(** X1 on the lambda of the specification: its runtime is as it was. *)
Lemma populate_writes_one_attribute_witness :
  dict_lookup "runtime" (svc_lambda ++ [("s3_path", VStr "b1/svc-1.0.zip")])
  = dict_lookup "runtime" svc_lambda.
Proof.
  refine (@populate_writes_one_attribute sample_collaborators svc_lambda
            (svc_lambda ++ [("s3_path", VStr "b1/svc-1.0.zip")]) "b1"
            eq_refl "runtime" _).
  discriminate.
Defined.

(** X2 on a lambda for nodejs8.10. *)
Lemma unknown_runtime_is_rejected_witness :
  @_populate_s3_path sample_collaborators svc_lambda_node "b1"
  = Raise (MissingField "Lambda" ["runtime"] svc_lambda_node).
Proof.
  refine (@unknown_runtime_is_rejected sample_collaborators svc_lambda_node
            "b1" "nodejs8.10" _ eq_refl eq_refl _ _ _);
    intros Heq; vm_compute in Heq; discriminate Heq.
Defined.

(** X3 on the lambda of the specification. *)
Lemma derived_location_is_retrieved_witness :
  exists part,
    @_retrieve_package sample_collaborators
      (VDict (svc_lambda ++ [("s3_path", VStr "b1/svc-1.0.zip")]))
    = Ok (VStr ("b1" ++ "/" ++ part)).
Proof.
  exact (@derived_location_is_retrieved sample_collaborators svc_lambda
           (svc_lambda ++ [("s3_path", VStr "b1/svc-1.0.zip")]) "b1" "lambda"
           eq_refl (or_introl eq_refl) eq_refl).
Defined.

(** X4 on the two descriptions of [shop]: the merged entry has the
    resource type of the incoming one. *)
Lemma merge_keeps_incoming_attributes_witness :
  exists merged,
    @_check_duplicated_resources sample_collaborators
      [("shop", VDict shop_orders)] "shop" shop_users = Ok (Some merged)
    /\ dict_lookup "resource_type" merged = Some (VStr "api_gateway").
Proof.
  eexists. split; [reflexivity|].
  destruct (@merge_keeps_incoming_attributes sample_collaborators
              [("shop", VDict shop_orders)] "shop" shop_users _ eq_refl)
    as (_ & _ & Hframe).
  rewrite Hframe; [reflexivity|].
  unfold merged_attribute. intuition discriminate.
Defined.

(** X5 on a deployment resources file that describes the queue [jobs]:
    it is stored with the type the file declares. *)
Lemma stored_resource_has_known_type_witness :
  exists entry,
    dict_lookup "jobs" [("jobs", VDict svc_queue)] = Some (VDict entry)
    /\ dict_lookup "resource_type" entry = Some (VStr "sqs_queue").
Proof.
  destruct (proj1 (@stored_resource_has_known_type sample_collaborators
                     (VDict [("jobs", VDict svc_queue)]) "b1" "jobs" []
                     [("jobs", VDict svc_queue)]
                     ltac:(discriminate) eq_refl))
    as (resource & entry & t & Hsub & Hdeclared & Hstored & Htype & _).
  exists entry. split; [exact Hstored|].
  cbn in Hsub. assert (resource = svc_queue) by congruence. subst resource.
  cbn in Hdeclared. assert (t = VStr "sqs_queue") by congruence. subst t.
  exact Htype.
Defined.

(** X6 on a resource without a type, and on one with a type that is not
    known. *)
Lemma resource_type_is_checked_first_witness :
  @process_resource sample_collaborators (VDict untyped_resources) "b1"
    (VStr "jobs") []
  = ([], Raise (MissingResourceType "jobs"))
  /\ @process_resource sample_collaborators (VDict unknown_resources) "b1"
       (VStr "jobs") []
     = ([], Raise (UnrecognizedResourceType (VStr "kafka_topic"))).
Proof.
  split.
  - exact (proj1 (@resource_type_is_checked_first sample_collaborators
                    untyped_resources "b1" "jobs" [("fifo", VBool true)] []
                    eq_refl) eq_refl).
  - exact (proj2 (@resource_type_is_checked_first sample_collaborators
                    unknown_resources "b1" "jobs"
                    [("resource_type", VStr "kafka_topic")] [] eq_refl)
             (VStr "kafka_topic") eq_refl eq_refl).
Defined.

(** X8 on a project with the lambda of the specification. *)
Lemma manifest_entries_carry_locations_witness :
  @packaged sample_collaborators "b1"
    [("svc", VDict (svc_lambda ++ [("s3_path", VStr "b1/svc-1.0.zip")]))].
Proof.
  refine (@manifest_entries_carry_locations sample_collaborators
            [[("lambda_config.json", VDict svc_lambda)]] "b1" _ _ _ eq_refl).
  - discriminate.
  - unfold merged_attribute. intuition discriminate.
Defined.

Lemma svc_and_queue_are_dicts :
  @entries_are_dicts svc_and_queue.
Proof.
  intros name v [Heq|[Heq|[]]]; inversion Heq; eexists; reflexivity.
Defined.

(** X9 on the lambda and the queue: one package. *)
Lemma artifact_paths_are_the_true_locations_witness :
  @artifact_paths sample_collaborators svc_and_queue
  = Ok [VStr "b1/svc-1.0.zip"].
Proof.
  exact (proj1 (@artifact_paths_are_the_true_locations sample_collaborators
                  svc_and_queue) svc_and_queue_are_dicts).
Defined.

Lemma svc_and_queue_locations :
  Forall (@location_is_string sample_collaborators) (map snd svc_and_queue).
Proof.
  repeat constructor.
  - eexists. split; [reflexivity|]. right. eexists. reflexivity.
  - eexists. split; [reflexivity|]. left. reflexivity.
Defined.

(** X10 on the lambda and the queue, in a project where the package is
    missing. *)
Lemma missing_packages_are_reported_witness :
  @validate_deployment_packages sample_collaborators "/proj" "bundles"
    (fun _ => false) svc_and_queue
  = NotProperlyConfigured ["/proj/bundles/b1/svc-1.0.zip"].
Proof.
  exact (proj1 (@missing_packages_are_reported sample_collaborators
                  "/proj" "bundles" (fun _ => false) svc_and_queue
                  svc_and_queue_locations)).
Defined.

(** X11 on the queue and its reader, for a name they do not mention. *)
Lemma pass_without_occurrence_changes_nothing_witness :
  _resolve_names_in_meta (VDict queue_and_reader) "jobs" "dev-jobs"
  = VDict queue_and_reader.
Proof.
  exact (pass_without_occurrence_changes_nothing "jobs" "dev-jobs"
           (VDict queue_and_reader) eq_refl).
Defined.

(** X13 on the two queues whose names collide. *)
Lemma renaming_loop_never_raises_witness :
  exists overall_meta',
    @resolve_meta sample_collaborators colliding_queues = Ok overall_meta'
    /\ length overall_meta' <= 2.
Proof.
  destruct (@renaming_loop_never_raises sample_collaborators
              colliding_queues [("q", "dev-q"); ("dev-q", "dev-dev-q")])
    as (meta' & Hrun & _ & Hlen).
  - distinct_keys.
  - reflexivity.
  - exists meta'. split; [exact Hrun|exact Hlen].
Defined.

(** X14 on a queue and an entry without a type, and on the entry
    alone. *)
Lemma untyped_entry_stops_renaming_witness :
  (exists e, @resolve_meta sample_collaborators queue_and_untyped = Raise e)
  /\ @resolve_meta sample_collaborators [("svc", VDict [("name", VStr "svc")])]
     = Raise (KeyError "resource_type").
Proof.
  split.
  - apply (@untyped_entry_stops_renaming sample_collaborators
             queue_and_untyped).
    exists "svc", (VDict [("name", VStr "svc")]). split.
    + right. left. reflexivity.
    + eexists. split; reflexivity.
  - apply (@untyped_entry_stops_renaming sample_collaborators
             [("svc", VDict [("name", VStr "svc")])]).
    + exists "svc", (VDict [("name", VStr "svc")]). split.
      * left. reflexivity.
      * eexists. split; reflexivity.
    + intros name v [Heq|[]]; inversion Heq. eexists. split; reflexivity.
    + intros name v [Heq|[]]; inversion Heq. reflexivity.
Defined.

(** X15 on the queue and its reader, with an empty prefix. *)
Lemma unaffixed_manifest_is_only_aliased_witness :
  @resolve_meta unaffixed_collaborators queue_and_reader
  = Ok queue_and_reader.
Proof.
  apply (@unaffixed_manifest_is_only_aliased unaffixed_collaborators).
  - reflexivity.
  - reflexivity.
  - intros name v [Heq|[Heq|[]]]; inversion Heq; subst;
      do 2 eexists; (split; [reflexivity|split; reflexivity]).
Defined.

(** X16 with no prefix and an empty suffix: the name resolves to
    itself. *)
Lemma resolution_by_data_is_injective_witness :
  @resolve_resource_name_by_data sample_collaborators "q" None (Some "")
  = "q".
Proof.
  exact (proj2 (proj2 (@resolution_by_data_is_injective sample_collaborators
                         None (Some "")) "q")
           (conj eq_refl eq_refl)).
Defined.

(** X17 on a lambda configuration without a type, under a new name and
    under the name of a queue. *)
Lemma untyped_lambda_needs_a_new_name_witness :
  @process_lambda_config sample_collaborators
    (VDict [("name", VStr "svc")]) "b1" []
  = ([("svc", VDict [("name", VStr "svc")])], Ok tt)
  /\ @process_lambda_config sample_collaborators
       (VDict [("name", VStr "svc")]) "b1" [("svc", VDict svc_queue)]
     = ([("svc", VDict svc_queue)], Raise (KeyError "resource_type")).
Proof.
  split.
  - exact (@untyped_lambda_needs_a_new_name sample_collaborators
             [("name", VStr "svc")] "b1" "svc" [] eq_refl eq_refl).
  - exact (@untyped_lambda_needs_a_new_name sample_collaborators
             [("name", VStr "svc")] "b1" "svc" [("svc", VDict svc_queue)]
             eq_refl eq_refl).
Defined.

(** X18 on a project with the lambda of the specification. *)
Lemma created_packages_are_listed_witness :
  exists package_paths,
    @artifact_paths sample_collaborators
      [("svc", VDict (svc_lambda ++ [("s3_path", VStr "b1/svc-1.0.zip")]))]
    = Ok package_paths
    /\ exists part, In (VStr ("b1" ++ "/" ++ part)) package_paths.
Proof.
  destruct (@created_packages_are_listed sample_collaborators
              [[("lambda_config.json", VDict svc_lambda)]] "b1"
              [("svc",
                VDict (svc_lambda ++ [("s3_path", VStr "b1/svc-1.0.zip")]))])
    as (package_paths & Hrun & Hall).
  - discriminate.
  - unfold merged_attribute. intuition discriminate.
  - reflexivity.
  - exists package_paths. split; [exact Hrun|].
    destruct (Hall "svc" _ "lambda" eq_refl eq_refl (or_introl eq_refl))
      as (part & _ & Hin).
    exists part. exact Hin.
Defined.
